(** * Qiskit Dynamics: generator models, Lindblad models and the Solver

    A shallow embedding of
      - qiskit_dynamics/models/generator_models.py  (GeneratorModel),
      - qiskit_dynamics/models/lindblad_models.py   (LindbladModel),
      - qiskit_dynamics/solvers/solver_classes.py   (Solver and its helpers),
      - qiskit_dynamics/perturbation/perturbation_results.py
                                                    (PerturbationResults),
    and the properties of these programs.

    Conventions of the embedding.
      - Complex floating-point numbers are the elements of a commutative
        ring with a conjugation, a constant [1j] and a function [exp]
        (class [ScalarRing]); equalities "up to floating tolerance" are
        exact equalities there.
      - An (n,n) array is a function [nat -> nat -> scalar] read on the
        indices below [n]; a rank-3 array of operators is a list of such
        matrices.  The dimension [n] is shared by the operators, the frame
        and the state (numpy raises on a shape mismatch).
      - A Python method that mutates [self] and may raise is a function
        [self -> self * result A]: the object after the call, and the value
        returned or the exception raised. *)

From Stdlib Require Import ZArith QArith Qround Qcanon Lia Lqa Ring.
From stdpp Require Import base list strings gmap sorting.

Local Open Scope nat_scope.

(** ** Exceptions and results *)

Inductive exn : Type :=
| QiskitError (msg : string)
| NotImplementedError (msg : string)
| AttributeError (msg : string)
| TypeError (msg : string)
| ValueError (msg : string)
| IndexError (msg : string)
| Exception (msg : string).

Inductive result (A : Type) : Type :=
| Ok (a : A)
| Raise (e : exn).

Arguments Ok {A} a.
Arguments Raise {A} e.

Definition is_Ok {A} (r : result A) : bool :=
  match r with Ok _ => true | Raise _ => false end.


Definition is_NotImplementedError {A} (r : result A) : bool :=
  match r with Raise (NotImplementedError _) => true | _ => false end.

(** A method body: the object it runs on is threaded through, an exception
    stops the body and leaves the object as it is at that point. *)
Definition M (S A : Type) : Type := S -> S * result A.

Definition ret {S A} (a : A) : M S A := fun s => (s, Ok a).

Definition raise {S A} (e : exn) : M S A := fun s => (s, Raise e).

Definition bind {S A B} (c : M S A) (k : A -> M S B) : M S B :=
  fun s => match c s with
           | (s', Ok a) => k a s'
           | (s', Raise e) => (s', Raise e)
           end.

Definition get {S} : M S S := fun s => (s, Ok s).

(** a call that does not touch the object *)
Definition lift {S A} (r : result A) : M S A := fun s => (s, r).

Definition modify {S} (f : S -> S) : M S unit := fun s => (f s, Ok tt).

Notation "'let*' x ':=' c 'in' k" := (bind c (fun x => k))
  (at level 10, x name, c at level 100, k at level 200).
Notation "c1 ;; c2" := (bind c1 (fun _ => c2))
  (at level 100, c2 at level 200, right associativity).

(** ** Scalars *)

Class ScalarRing : Type := {
  scalar : Type;
  s0 : scalar;
  s1 : scalar;
  sadd : scalar -> scalar -> scalar;
  smul : scalar -> scalar -> scalar;
  ssub : scalar -> scalar -> scalar;
  sopp : scalar -> scalar;
  sconj : scalar -> scalar;   (* complex conjugate *)
  simag : scalar;             (* the constant 1j *)
  sexp : scalar -> scalar;    (* np.exp *)
  scalar_ring : ring_theory s0 s1 sadd smul ssub sopp (@eq scalar)
}.

Declare Scope scalar_scope.
Delimit Scope scalar_scope with K.
Notation "x + y" := (sadd x y) : scalar_scope.
Notation "x * y" := (smul x y) : scalar_scope.
Notation "x - y" := (ssub x y) : scalar_scope.
Notation "- x" := (sopp x) : scalar_scope.
Notation "0" := s0 : scalar_scope.
Notation "1" := s1 : scalar_scope.

(** The Gaussian integers: the scalars of the concrete examples. *)
Definition gauss : Type := (Z * Z)%type.

Definition gauss_add (a b : gauss) : gauss := (a.1 + b.1, a.2 + b.2)%Z.
Definition gauss_mul (a b : gauss) : gauss :=
  (a.1 * b.1 - a.2 * b.2, a.1 * b.2 + a.2 * b.1)%Z.
Definition gauss_sub (a b : gauss) : gauss := (a.1 - b.1, a.2 - b.2)%Z.
Definition gauss_opp (a : gauss) : gauss := (- a.1, - a.2)%Z.
Definition gauss_conj (a : gauss) : gauss := (a.1, - a.2)%Z.

Definition gauss_ring :
  ring_theory (0, 0)%Z (1, 0)%Z gauss_add gauss_mul gauss_sub gauss_opp (@eq gauss).
Proof.
  constructor; intros; repeat match goal with x : prod Z Z |- _ => destruct x end;
    unfold gauss_add, gauss_mul, gauss_sub, gauss_opp; simpl;
    apply pair_equal_spec; split; ring.
Qed.

(** [exp] has no value among the Gaussian integers except at 0; the examples
    take the constant 1, which is [exp 0]. *)
Definition GaussZ : ScalarRing := {|
  scalar := gauss;
  s0 := (0, 0)%Z;
  s1 := (1, 0)%Z;
  sadd := gauss_add;
  smul := gauss_mul;
  ssub := gauss_sub;
  sopp := gauss_opp;
  sconj := gauss_conj;
  simag := (0, 1)%Z;
  sexp := fun _ => (1, 0)%Z;
  scalar_ring := gauss_ring
|}.

(** The Gaussian rationals, for the examples that need a half. *)
Definition gaussq : Type := (Qc * Qc)%type.

Definition gaussq_add (a b : gaussq) : gaussq := (a.1 + b.1, a.2 + b.2)%Qc.
Definition gaussq_mul (a b : gaussq) : gaussq :=
  (a.1 * b.1 - a.2 * b.2, a.1 * b.2 + a.2 * b.1)%Qc.
Definition gaussq_sub (a b : gaussq) : gaussq := (a.1 - b.1, a.2 - b.2)%Qc.
Definition gaussq_opp (a : gaussq) : gaussq := (- a.1, - a.2)%Qc.
Definition gaussq_conj (a : gaussq) : gaussq := (a.1, - a.2)%Qc.

Definition gaussq_ring :
  ring_theory (0, 0)%Qc (1, 0)%Qc gaussq_add gaussq_mul gaussq_sub gaussq_opp
    (@eq gaussq).
Proof.
  constructor; intros; repeat match goal with x : prod Qc Qc |- _ => destruct x end;
    unfold gaussq_add, gaussq_mul, gaussq_sub, gaussq_opp; simpl;
    apply pair_equal_spec; split; ring.
Qed.

Definition GaussQ : ScalarRing := {|
  scalar := gaussq;
  s0 := (0, 0)%Qc;
  s1 := (1, 0)%Qc;
  sadd := gaussq_add;
  smul := gaussq_mul;
  ssub := gaussq_sub;
  sopp := gaussq_opp;
  sconj := gaussq_conj;
  simag := (0, 1)%Qc;
  sexp := fun _ => (1, 0)%Qc;
  scalar_ring := gaussq_ring
|}.

(** the two rationals of a Gaussian rational *)
Definition gaussq_values (z : gaussq) : Q * Q := (this z.1, this z.2).

(** ** Arrays *)

Module LinAlg.
Section defs.
Context {K : ScalarRing}.
Local Open Scope scalar_scope.

Definition Vector : Type := nat -> scalar.
Definition Matrix : Type := nat -> nat -> scalar.

(** sum of [f 0 .. f (n-1)] *)
Fixpoint big_sum (f : nat -> scalar) (n : nat) : scalar :=
  match n with
  | O => 0
  | S n' => big_sum f n' + f n'
  end.

(** [A @ B] for (n,n) arrays *)
Definition Mmult (n : nat) (A B : Matrix) : Matrix :=
  fun i j => big_sum (fun k => A i k * B k j) n.

(** [np.dot(A, y)] for an (n,n) array and an (n) array *)
Definition Mvec (n : nat) (A : Matrix) (y : Vector) : Vector :=
  fun i => big_sum (fun k => A i k * y k) n.

Definition Mplus (A B : Matrix) : Matrix := fun i j => A i j + B i j.
Definition Mminus (A B : Matrix) : Matrix := fun i j => A i j - B i j.
Definition Mscale (c : scalar) (A : Matrix) : Matrix := fun i j => c * A i j.
Definition Mzero : Matrix := fun _ _ => 0.

(** [np.eye(n)] *)
Definition eye : Matrix := fun i j => if Nat.eqb i j then 1 else 0.

(** [np.diag(d)] *)
Definition diag (d : Vector) : Matrix :=
  fun i j => if Nat.eqb i j then d i else 0.

(** [A.conj().transpose()] *)
Definition adjoint (A : Matrix) : Matrix := fun i j => sconj (A j i).

(** element-wise product of two (n) arrays *)
Definition Vmul (d y : Vector) : Vector := fun i => d i * y i.

(** equality of (n,n) arrays, and of (n) arrays *)
Definition mat_eq (n : nat) (A B : Matrix) : Prop :=
  forall i j, (i < n)%nat -> (j < n)%nat -> A i j = B i j.

Definition vec_eq (n : nat) (x y : Vector) : Prop :=
  forall i, (i < n)%nat -> x i = y i.

(** [B] is unitary: [B @ B.adjoint = eye = B.adjoint @ B] *)
Definition unitary (n : nat) (B : Matrix) : Prop :=
  mat_eq n (Mmult n B (adjoint B)) eye /\ mat_eq n (Mmult n (adjoint B) B) eye.

(** the superoperator of U: [conj(U) (x) U], on row [k*d + l] and column
    [a*d + b] *)
Definition superop_of (d : nat) (U : Matrix) : Matrix :=
  fun i j => sconj (U (i / d)%nat (j / d)%nat) * U (i mod d)%nat (j mod d)%nat.

(** [rho.flatten(order="F")]: column after column *)
Definition vec_F (d : nat) (rho : Matrix) : Vector :=
  fun c => rho (c mod d)%nat (c / d)%nat.

End defs.
End LinAlg.
Export LinAlg.

(** ** Frame *)

Module Frame.
Section defs.
Context {K : ScalarRing}.
Local Open Scope scalar_scope.

(** Modelled from the spec: the Frame class (models/frame.py) is not among
    the sources.  Spec 3 and 4.1: a frame holds [frame_diag], the eigenvalues
    of the frame operator F ([None] when there is no frame), and
    [frame_basis], its unitary matrix of eigenvectors, with
    F = frame_basis . diag(frame_diag) . frame_basis-adjoint. *)
Record t : Type := mk {
  frame_diag : option Vector;
  frame_basis : Matrix
}.

(** Modelled from the spec: what [Frame(...)] is called on.  [None]; a 1-d
    array of diagonal entries (the basis is then the identity); an operator
    F, given here by the eigendecomposition the constructor computes; or a
    frame that is already instantiated. *)
Inductive arg : Type :=
| ArgNone
| ArgDiagonal (d : Vector)
| ArgOperator (d : Vector) (B : Matrix)
| ArgFrame (f : t).

Definition init (a : arg) : t :=
  match a with
  | ArgNone => mk None eye
  | ArgDiagonal d => mk (Some d) eye
  | ArgOperator d B => mk (Some d) B
  | ArgFrame f => f
  end.

Definition frame_basis_adjoint (f : t) : Matrix := adjoint (frame_basis f).

(** Modelled from the spec: "operator_into_frame_basis(op) /
    operator_out_of_frame_basis(op): conjugate an operator by frame_basis
    (resp. its inverse); identity when no frame set".  Into the basis in
    which F is diagonal: basis-adjoint @ op @ basis. *)
Definition operator_into_frame_basis (n : nat) (f : t) (op : Matrix) : Matrix :=
  match frame_diag f with
  | None => op
  | Some _ => Mmult n (Mmult n (frame_basis_adjoint f) op) (frame_basis f)
  end.

Definition operator_out_of_frame_basis (n : nat) (f : t) (op : Matrix) : Matrix :=
  match frame_diag f with
  | None => op
  | Some _ => Mmult n (Mmult n (frame_basis f) op) (frame_basis_adjoint f)
  end.

Definition state_into_frame_basis (n : nat) (f : t) (y : Vector) : Vector :=
  match frame_diag f with
  | None => y
  | Some _ => Mvec n (frame_basis_adjoint f) y
  end.

Definition state_out_of_frame_basis (n : nat) (f : t) (y : Vector) : Vector :=
  match frame_diag f with
  | None => y
  | Some _ => Mvec n (frame_basis f) y
  end.

(** the entries [e^{t d_i}] of [e^{tF}] in the frame basis *)
Definition phases (time : scalar) (d : Vector) : Vector :=
  fun i => sexp (time * d i).

Definition neg_phases (time : scalar) (d : Vector) : Vector :=
  fun i => sexp (- (time * d i)).

(** Modelled from the spec: "state_into_frame(t, y, ...) /
    state_out_of_frame(t, y, ...): apply e^{-+tF} to a state vector via
    element-wise multiplication by e^{-+ d_i t}, with the same
    basis-conversion flags". *)
Definition state_into_frame (n : nat) (f : t) (time : scalar) (y : Vector)
    (y_in_frame_basis return_in_frame_basis : bool) : Vector :=
  match frame_diag f with
  | None => y
  | Some d =>
      let out := if y_in_frame_basis then y else state_into_frame_basis n f y in
      let out := Vmul (neg_phases time d) out in
      if return_in_frame_basis then out else state_out_of_frame_basis n f out
  end.

Definition state_out_of_frame (n : nat) (f : t) (time : scalar) (y : Vector)
    (y_in_frame_basis return_in_frame_basis : bool) : Vector :=
  match frame_diag f with
  | None => y
  | Some d =>
      let out := if y_in_frame_basis then y else state_into_frame_basis n f y in
      let out := Vmul (phases time d) out in
      if return_in_frame_basis then out else state_out_of_frame_basis n f out
  end.

(** Modelled from the spec: "operator_into_frame(t, op,
    operator_in_frame_basis, return_in_frame_basis): apply
    e^{-tF} . op . e^{tF}", in the frame basis, where e^{+-tF} is diagonal. *)
Definition operator_into_frame (n : nat) (f : t) (time : scalar) (op : Matrix)
    (operator_in_frame_basis return_in_frame_basis : bool) : Matrix :=
  match frame_diag f with
  | None => op
  | Some d =>
      let out := if operator_in_frame_basis then op
                 else operator_into_frame_basis n f op in
      let out := Mmult n (Mmult n (diag (neg_phases time d)) out)
                         (diag (phases time d)) in
      if return_in_frame_basis then out else operator_out_of_frame_basis n f out
  end.

(** the frame is well formed: its basis is unitary *)
Definition wf (n : nat) (f : t) : Prop :=
  match frame_diag f with
  | None => True
  | Some _ => unitary n (frame_basis f)
  end.

End defs.
End Frame.

(** ** Signals *)

Module Signals.
Section defs.
Context {K : ScalarRing}.

(** Modelled from the spec: signals.py is not among the sources.  Spec 3:
    "a signal is a complex-valued scalar function of time"; "a SignalList is
    an ordered, fixed-length collection of signals evaluated jointly at a
    given time, producing a same-length ordered sequence of complex
    coefficients". *)
Definition Signal : Type := scalar -> scalar.
Definition SignalList : Type := list Signal.

Definition SignalList_call (sl : SignalList) (time : scalar) : list scalar :=
  map (fun s => s time) sl.

(** What a caller may assign to a [signals] property. *)
Inductive signals_spec : Type :=
| SpecNone                                  (* None *)
| SpecList (l : list Signal)                (* a Python list of Signal *)
| SpecSignalList (sl : SignalList)          (* a SignalList *)
| SpecTuple (h d : signals_spec).           (* (hamiltonian, dissipator) *)

End defs.
End Signals.
Export Signals.

(** ** Operator collections *)

Module DenseOperatorCollection.
Section defs.
Context {K : ScalarRing}.

(** Modelled from the spec: operator_collections.py is not among the
    sources.  Spec 3 and 4.2: an ordered sequence of base operators and a
    drift; "callable with a sequence of complex coefficients of length =
    operator count: returns drift + sum_i coeff_i . operator_i". *)
Record t : Type := mk {
  operators : list Matrix;
  drift : Matrix
}.

Definition num_operators (oc : t) : nat := length (operators oc).

Definition set_drift (new_drift : Matrix) (oc : t) : t :=
  mk (operators oc) new_drift.

Definition linear_combination (coeffs : list scalar) (ops : list Matrix) : Matrix :=
  fold_right (fun cA acc => Mplus (Mscale cA.1 cA.2) acc) Mzero
             (combine coeffs ops).

Definition call (oc : t) (coeffs : list scalar) : Matrix :=
  Mplus (drift oc) (linear_combination coeffs (operators oc)).

End defs.
End DenseOperatorCollection.

(** ** GeneratorModel (generator_models.py) *)

Module GeneratorModel.
Section defs.
Context {K : ScalarRing}.

(** The attributes of a GeneratorModel.  [_evaluation_mode] is [None] while
    the attribute is not assigned (reading it raises AttributeError);
    [_frame] and [_signals] are [None] for Python's None.
    [hilbert_space_dimension] is [self._operators.shape[-1]]. *)
Record t : Type := mk {
  _operator_collection : option DenseOperatorCollection.t;
  _operators : list Matrix;
  _drift : Matrix;
  _evaluation_mode : option string;
  _frame : option Frame.t;
  _signals : option SignalList;
  hilbert_space_dimension : nat
}.

Definition with_operator_collection (oc : option DenseOperatorCollection.t) (m : t) : t :=
  mk oc (_operators m) (_drift m) (_evaluation_mode m) (_frame m) (_signals m)
     (hilbert_space_dimension m).
Definition with_operators (ops : list Matrix) (m : t) : t :=
  mk (_operator_collection m) ops (_drift m) (_evaluation_mode m) (_frame m)
     (_signals m) (hilbert_space_dimension m).
Definition with_drift (d : Matrix) (m : t) : t :=
  mk (_operator_collection m) (_operators m) d (_evaluation_mode m) (_frame m)
     (_signals m) (hilbert_space_dimension m).
Definition with_evaluation_mode (e : option string) (m : t) : t :=
  mk (_operator_collection m) (_operators m) (_drift m) e (_frame m)
     (_signals m) (hilbert_space_dimension m).
Definition with_frame (f : option Frame.t) (m : t) : t :=
  mk (_operator_collection m) (_operators m) (_drift m) (_evaluation_mode m) f
     (_signals m) (hilbert_space_dimension m).
Definition with_signals (s : option SignalList) (m : t) : t :=
  mk (_operator_collection m) (_operators m) (_drift m) (_evaluation_mode m)
     (_frame m) s (hilbert_space_dimension m).

(** BaseGeneratorModel.drift (getter) *)
Definition drift : M t Matrix := fun m => (m, Ok (_drift m)).

(** BaseGeneratorModel.drift (setter) *)
Definition set_drift (new_drift : option Matrix) : M t unit :=
  let new_drift := match new_drift with
                   | None => Mzero     (* np.zeros((dim, dim)) *)
                   | Some d => d
                   end in
  modify (with_drift new_drift) ;;
  let* m := get in
  match _operator_collection m with
  | Some oc =>
      modify (with_operator_collection
                (Some (DenseOperatorCollection.set_drift new_drift oc)))
  | None => ret tt
  end.

(** GeneratorModel.evaluation_mode (getter): [self._evaluation_mode] *)
Definition evaluation_mode : M t string :=
  fun m => match _evaluation_mode m with
           | Some mode => (m, Ok mode)
           | None => (m, Raise (AttributeError "_evaluation_mode"))
           end.

(** GeneratorModel.evaluation_mode (setter) *)
Definition set_evaluation_mode (new_mode : string) : M t unit :=
  if String.eqb new_mode "dense_operator_collection" then
    let* d := drift in
    modify (fun m => with_operator_collection
                       (Some (DenseOperatorCollection.mk (_operators m) d)) m) ;;
    modify (with_evaluation_mode (Some new_mode))
  else ret tt.

(** GeneratorModel.signals (getter) *)
Definition signals : M t (option SignalList) := fun m => (m, Ok (_signals m)).

(** the checks of the signals setter once [signals] is a SignalList *)
Definition check_and_set_signals (sl : SignalList) : M t unit :=
  let* m := get in
  match _operator_collection m with
  | None => raise (AttributeError "num_operators")
  | Some oc =>
      if Nat.eqb (length sl) (DenseOperatorCollection.num_operators oc)
      then modify (with_signals (Some sl))
      else raise (QiskitError "Signals needs to have the same length as operators.")
  end.

(** GeneratorModel.signals (setter) *)
Definition set_signals (signals : signals_spec) : M t unit :=
  match signals with
  | SpecNone => modify (with_signals None)
  | SpecList l => check_and_set_signals l          (* SignalList(signals) *)
  | SpecSignalList sl => check_and_set_signals sl
  | SpecTuple _ _ => raise (QiskitError "Signals specified in unaccepted format.")
  end.

(** GeneratorModel.frame (getter) *)
Definition frame : M t (option Frame.t) := fun m => (m, Ok (_frame m)).

(** the first block of the frame setter: take the operators and the drift
    out of the basis of the frame that is set *)
Definition leave_frame : M t unit :=
  let* m := get in
  match _frame m with
  | Some f =>
      match Frame.frame_diag f with
      | Some d =>
          let n := hilbert_space_dimension m in
          let* dr := drift in
          set_drift (Some (Mplus dr (diag d))) ;;
          modify (fun m => with_operators
                    (map (Frame.operator_out_of_frame_basis n f) (_operators m)) m) ;;
          let* dr := drift in
          set_drift (Some (Frame.operator_out_of_frame_basis n f dr))
      | None => ret tt
      end
  | None => ret tt
  end.

(** the second block: put them into the basis of the new frame *)
Definition enter_frame (f : Frame.t) : M t unit :=
  match Frame.frame_diag f with
  | Some d =>
      let* m := get in
      let n := hilbert_space_dimension m in
      modify (fun m => with_operators
                (map (Frame.operator_into_frame_basis n f) (_operators m)) m) ;;
      let* dr := drift in
      set_drift (Some (Frame.operator_into_frame_basis n f dr)) ;;
      let* dr := drift in
      set_drift (Some (Mminus dr (diag d)))
  | None => ret tt
  end.

(** GeneratorModel.frame (setter) *)
Definition set_frame (frame : Frame.arg) : M t unit :=
  leave_frame ;;
  let f := Frame.init frame in
  modify (with_frame (Some f)) ;;
  enter_frame f ;;
  (* Reset internal operation collection *)
  let* mode := evaluation_mode in
  set_evaluation_mode mode.

(** GeneratorModel.__init__ *)
Definition init (n : nat) (operators : list Matrix) (drift : option Matrix)
    (signals : signals_spec) (frame : Frame.arg) (evaluation_mode : string)
    : t * result unit :=
  (set_drift drift ;;
   set_evaluation_mode evaluation_mode ;;
   set_frame (Frame.ArgFrame (Frame.init frame)) ;;
   set_signals signals)
    (mk None operators Mzero None None None n).

(** GeneratorModel.evaluate_generator *)
Definition evaluate_generator (m : t) (time : scalar) (in_frame_basis : bool)
    : result Matrix :=
  match _signals m with
  | None => Raise (QiskitError "GeneratorModel cannot be evaluated without signals.")
  | Some sl =>
      let sig_vals := SignalList_call sl time in
      match _operator_collection m, _frame m with
      | None, _ => Raise (TypeError "'NoneType' object is not callable")
      | Some _, None => Raise (AttributeError "operator_into_frame")
      | Some oc, Some f =>
          let op_combo := DenseOperatorCollection.call oc sig_vals in
          Ok (Frame.operator_into_frame (hilbert_space_dimension m) f time
                op_combo true in_frame_basis)
      end
  end.

(** GeneratorModel.evaluate_rhs *)
Definition evaluate_rhs (m : t) (time : scalar) (y : Vector) (in_frame_basis : bool)
    : result Vector :=
  match _signals m with
  | None => Raise (QiskitError "GeneratorModel cannot be evaluated without signals.")
  | Some sl =>
      let sig_vals := SignalList_call sl time in
      match _operator_collection m with
      | None => Raise (TypeError "'NoneType' object is not callable")
      | Some oc =>
          let n := hilbert_space_dimension m in
          let op_combo := DenseOperatorCollection.call oc sig_vals in
          match _frame m with
          | Some f =>
              let out := Frame.state_out_of_frame n f time y in_frame_basis true in
              let out := Mvec n op_combo out in
              let out := Frame.state_into_frame n f time out true in_frame_basis in
              Ok out
          | None => Ok (Mvec n op_combo y)
          end
      end
  end.

End defs.
End GeneratorModel.

(** ** LindbladModel (lindblad_models.py) *)

Module LindbladModel.
Section defs.
Context {K : ScalarRing}.
Local Open Scope scalar_scope.

(** Which operator collection the evaluation mode builds: Dense-,
    Sparse- or DenseVectorizedLindbladCollection, each from the Hamiltonian
    operators, the drift and the dissipator operators. *)
Inductive collection_class : Type :=
| DenseLindbladCollection
| SparseLindbladCollection
| DenseVectorizedLindbladCollection.

Record collection : Type := mk_collection {
  collection_cls : collection_class;
  collection_hamiltonian_operators : list Matrix;
  collection_drift : Matrix;
  collection_dissipator_operators : option (list Matrix)
}.

(** The attributes of a LindbladModel.  [_evaluation_mode] is [None] for
    Python's None; [vectorized_operators] is [None] while the attribute is
    not assigned.  The two signal attributes hold whatever object was
    assigned: [__init__] stores a SignalList or None, the [signals] setter
    stores the two entries of its argument as they are.  [dim] is
    [self._hamiltonian_operators.shape[-1]].

    The methods are modelled as the class body writes them.  The class
    leaves [hilbert_space_dimension], abstract in BaseGeneratorModel,
    without a definition; the check of abstract methods that ABC makes when
    an object is created is not modelled. *)
Record t : Type := mk {
  _operator_collection : option collection;
  _evaluation_mode : option string;
  vectorized_operators : option bool;
  _hamiltonian_operators : list Matrix;
  _dissipator_operators : option (list Matrix);
  _drift : Matrix;
  _hamiltonian_signals : signals_spec;
  _dissipator_signals : signals_spec;
  _frame : option Frame.t;
  dim : nat
}.

Definition with_operator_collection (oc : option collection) (m : t) : t :=
  mk oc (_evaluation_mode m) (vectorized_operators m) (_hamiltonian_operators m)
     (_dissipator_operators m) (_drift m) (_hamiltonian_signals m)
     (_dissipator_signals m) (_frame m) (dim m).
Definition with_evaluation_mode (e : option string) (m : t) : t :=
  mk (_operator_collection m) e (vectorized_operators m) (_hamiltonian_operators m)
     (_dissipator_operators m) (_drift m) (_hamiltonian_signals m)
     (_dissipator_signals m) (_frame m) (dim m).
Definition with_vectorized_operators (v : option bool) (m : t) : t :=
  mk (_operator_collection m) (_evaluation_mode m) v (_hamiltonian_operators m)
     (_dissipator_operators m) (_drift m) (_hamiltonian_signals m)
     (_dissipator_signals m) (_frame m) (dim m).
Definition with_hamiltonian_operators (ops : list Matrix) (m : t) : t :=
  mk (_operator_collection m) (_evaluation_mode m) (vectorized_operators m) ops
     (_dissipator_operators m) (_drift m) (_hamiltonian_signals m)
     (_dissipator_signals m) (_frame m) (dim m).
Definition with_dissipator_operators (ops : option (list Matrix)) (m : t) : t :=
  mk (_operator_collection m) (_evaluation_mode m) (vectorized_operators m)
     (_hamiltonian_operators m) ops (_drift m) (_hamiltonian_signals m)
     (_dissipator_signals m) (_frame m) (dim m).
Definition with_drift (d : Matrix) (m : t) : t :=
  mk (_operator_collection m) (_evaluation_mode m) (vectorized_operators m)
     (_hamiltonian_operators m) (_dissipator_operators m) d
     (_hamiltonian_signals m) (_dissipator_signals m) (_frame m) (dim m).
Definition with_signals (h d : signals_spec) (m : t) : t :=
  mk (_operator_collection m) (_evaluation_mode m) (vectorized_operators m)
     (_hamiltonian_operators m) (_dissipator_operators m) (_drift m) h d
     (_frame m) (dim m).
Definition with_frame (f : option Frame.t) (m : t) : t :=
  mk (_operator_collection m) (_evaluation_mode m) (vectorized_operators m)
     (_hamiltonian_operators m) (_dissipator_operators m) (_drift m)
     (_hamiltonian_signals m) (_dissipator_signals m) f (dim m).

(** LindbladModel.signals (getter): [[hamiltonian, dissipator]] *)
Definition signals : M t (signals_spec * signals_spec) :=
  fun m => (m, Ok (_hamiltonian_signals m, _dissipator_signals m)).

(** LindbladModel.signals (setter):
    [self._hamiltonian_signals, self._dissipator_signals = new_signals],
    on the two entries of [new_signals]; nothing is converted or checked *)
Definition set_signals (new_signals : signals_spec * signals_spec)
    : M t unit :=
  modify (with_signals new_signals.1 new_signals.2).

(** [signals(time)] for what a signal attribute holds: a SignalList is
    callable, None, a list and a tuple are not *)
Definition call_signals (signals : signals_spec) (time : scalar)
    : result (list scalar) :=
  match signals with
  | SpecSignalList sl => Ok (SignalList_call sl time)
  | SpecNone => Raise (TypeError "'NoneType' object is not callable")
  | SpecList _ => Raise (TypeError "'list' object is not callable")
  | SpecTuple _ _ => Raise (TypeError "'tuple' object is not callable")
  end.

(** BaseGeneratorModel.drift, as LindbladModel inherits it *)
Definition drift : M t Matrix := fun m => (m, Ok (_drift m)).

(** The inherited setter.  For [None] it builds
    [np.zeros((self.hilbert_space_dimension, self.hilbert_space_dimension))]:
    LindbladModel defines [dim] and no [hilbert_space_dimension], so the
    property read is the abstract one of BaseGeneratorModel, whose body is
    [pass]; it gives None, and [np.zeros((None, None))] raises TypeError. *)
Definition set_drift (new_drift : option Matrix) : M t unit :=
  match new_drift with
  | None => raise (TypeError "'NoneType' object cannot be interpreted as an integer")
  | Some new_drift =>
      modify (with_drift new_drift) ;;
      let* m := get in
      match _operator_collection m with
      | Some oc =>
          modify (with_operator_collection
                    (Some (mk_collection (collection_cls oc)
                             (collection_hamiltonian_operators oc) new_drift
                             (collection_dissipator_operators oc))))
      | None => ret tt
      end
  end.

(** [mode == s] for an evaluation mode, which may be None *)
Definition mode_eqb (mode : option string) (s : string) : bool :=
  match mode with
  | Some x => String.eqb x s
  | None => false
  end.

(** LindbladModel.evaluation_mode (getter) *)
Definition evaluation_mode : M t (option string) :=
  fun m => (m, Ok (_evaluation_mode m)).

Definition build_collection (cls : collection_class) (vectorized : bool) : M t unit :=
  let* d := drift in
  modify (fun m => with_operator_collection
                     (Some (mk_collection cls (_hamiltonian_operators m) d
                              (_dissipator_operators m))) m) ;;
  modify (with_vectorized_operators (Some vectorized)).

(** LindbladModel.evaluation_mode (setter) *)
Definition set_evaluation_mode (new_mode : option string) : M t unit :=
  match new_mode with
  | Some mode =>
      if String.eqb mode "dense" then
        build_collection DenseLindbladCollection false
      else if String.eqb mode "sparse" then
        build_collection SparseLindbladCollection false
      else if String.eqb mode "dense_vectorized" then
        build_collection DenseVectorizedLindbladCollection true
      else
        raise (NotImplementedError ("Evaluation mode " ++ mode ++ " is not supported."))
  | None => ret tt
  end ;;
  modify (with_evaluation_mode new_mode).

(** LindbladModel.frame (getter) *)
Definition frame : M t (option Frame.t) := fun m => (m, Ok (_frame m)).

Definition leave_frame : M t unit :=
  let* m := get in
  match _frame m with
  | Some f =>
      match Frame.frame_diag f with
      | Some d =>
          let n := dim m in
          let* dr := drift in
          set_drift (Some (Mplus dr (diag (fun k => simag * d k)))) ;;
          modify (fun m => with_hamiltonian_operators
                    (map (Frame.operator_out_of_frame_basis n f)
                         (_hamiltonian_operators m)) m) ;;
          modify (fun m => with_dissipator_operators
                    (option_map (map (Frame.operator_out_of_frame_basis n f))
                                (_dissipator_operators m)) m) ;;
          let* dr := drift in
          set_drift (Some (Frame.operator_out_of_frame_basis n f dr))
      | None => ret tt
      end
  | None => ret tt
  end.

Definition enter_frame (f : Frame.t) : M t unit :=
  match Frame.frame_diag f with
  | Some d =>
      let* m := get in
      let n := dim m in
      modify (fun m => with_hamiltonian_operators
                (map (Frame.operator_into_frame_basis n f)
                     (_hamiltonian_operators m)) m) ;;
      modify (fun m => with_dissipator_operators
                (option_map (map (Frame.operator_into_frame_basis n f))
                            (_dissipator_operators m)) m) ;;
      let* dr := drift in
      set_drift (Some (Frame.operator_into_frame_basis n f dr)) ;;
      let* dr := drift in
      set_drift (Some (Mminus dr (diag (fun k => simag * d k))))
  | None => ret tt
  end.

(** LindbladModel.frame (setter) *)
Definition set_frame (frame : Frame.arg) : M t unit :=
  leave_frame ;;
  let f := Frame.init frame in
  modify (with_frame (Some f)) ;;
  enter_frame f ;;
  (* Ensure these changes are passed on to the operator collection. *)
  let* mode := evaluation_mode in
  set_evaluation_mode mode.

(** LindbladModel.__init__ *)
Definition init (n : nat) (hamiltonian_operators : list Matrix)
    (hamiltonian_signals : signals_spec)
    (dissipator_operators : option (list Matrix))
    (dissipator_signals : signals_spec) (drift : option Matrix)
    (frame : Frame.arg) (evaluation_mode : option string) : t * result unit :=
  (set_drift drift ;;
   modify (with_dissipator_operators dissipator_operators) ;;
   let* hs :=
     match hamiltonian_signals with
     | SpecList l => ret l                     (* SignalList(hamiltonian_signals) *)
     | SpecSignalList sl => ret sl
     | _ => raise (Exception
              "hamiltonian_signals must either be a list of Signals, or a SignalList.")
     end in
   let* ds :=
     match dissipator_signals with
     | SpecNone =>
         match dissipator_operators with
         | Some ops =>          (* SignalList([1.0 for k in dissipator_operators]) *)
             ret (SpecSignalList (map (fun _ => (fun _ => 1) : Signal) ops))
         | None => ret SpecNone
         end
     | SpecList l => ret (SpecSignalList l)
     | SpecSignalList sl => ret (SpecSignalList sl)
     | SpecTuple _ _ => raise (Exception
              "dissipator_signals must either be a list of Signals, or a SignalList.")
     end in
   modify (with_signals (SpecSignalList hs) ds) ;;
   set_frame frame ;;
   set_evaluation_mode evaluation_mode)
    (mk None None None hamiltonian_operators None Mzero SpecNone SpecNone None n).

(** The collaborators of [evaluate_generator] that are not among the
    sources: the vectorized collection's [evaluate_generator] and the
    frame's [bring_vectorized_operator_into_frame]; a superoperator is an
    (n^2, n^2) array. *)
Section evaluate.
Variable collection_evaluate_generator :
  collection -> list scalar -> option (list scalar) -> Matrix.
Variable bring_vectorized_operator_into_frame :
  Frame.t -> scalar -> Matrix -> bool -> bool -> Matrix.

(** [self._dissipator_signals(time)] when the attribute is not None, the
    first statement of [evaluate_generator] *)
Definition dissipator_sig_vals (m : t) (time : scalar)
    : result (option (list scalar)) :=
  match _dissipator_signals m with
  | SpecNone => Ok None
  | signals =>
      match call_signals signals time with
      | Ok vals => Ok (Some vals)
      | Raise e => Raise e
      end
  end.

(** LindbladModel.evaluate_generator: the dissipator signals are called
    before the evaluation mode is looked at *)
Definition evaluate_generator (m : t) (time : scalar) (in_frame_basis : bool)
    : result Matrix :=
  match dissipator_sig_vals m time with
  | Raise e => Raise e
  | Ok dissipator_sig_vals =>
      if mode_eqb (_evaluation_mode m) "dense_vectorized" then
        match _operator_collection m with
        | None => Raise (AttributeError "evaluate_generator")
        | Some oc =>
            match call_signals (_hamiltonian_signals m) time with
            | Raise e => Raise e
            | Ok hamiltonian_sig_vals =>
                let out := collection_evaluate_generator oc hamiltonian_sig_vals
                             dissipator_sig_vals in
                match _frame m with
                | None =>
                    Raise (AttributeError "bring_vectorized_operator_into_frame")
                | Some f =>
                    Ok (bring_vectorized_operator_into_frame f time out true
                          in_frame_basis)
                end
            end
        end
      else
        Raise (NotImplementedError
                 "Non-vectorized Lindblad models cannot be represented without a given state.")
  end.

End evaluate.

End defs.
End LindbladModel.

(** ** Arrays with a shape, and the objects a simulation starts from *)

Module NDArray.
Section defs.
Context {K : ScalarRing}.
Local Open Scope scalar_scope.

Inductive ndarray : Type :=
| Arr0 (x : scalar)
| Arr1 (n : nat) (v : nat -> scalar)
| Arr2 (r c : nat) (m : nat -> nat -> scalar)
| Arr3 (k r c : nat) (a : nat -> nat -> nat -> scalar).

Definition shape (a : ndarray) : list nat :=
  match a with
  | Arr0 _ => []
  | Arr1 n _ => [n]
  | Arr2 r c _ => [r; c]
  | Arr3 k r c _ => [k; r; c]
  end.

Definition ndim (a : ndarray) : nat := length (shape a).

(** [a.shape[-2:]] *)
Definition shape_last2 (a : ndarray) : list nat :=
  match a with
  | Arr3 _ r c _ => [r; c]
  | _ => shape a
  end.

(** [np.eye(n, dtype=complex)] *)
Definition np_eye (n : nat) : ndarray := Arr2 n n eye.

(** [a.flatten(order="F")] of a 2-d array: column after column *)
Definition flatten_F (a : ndarray) : ndarray :=
  match a with
  | Arr2 r c m => Arr1 (r * c)%nat (fun k => m (k mod r)%nat (k / r)%nat)
  | _ => a
  end.

(** [[yi for yi in a]] *)
Definition slices (a : ndarray) : list ndarray :=
  match a with
  | Arr0 _ => []
  | Arr1 n v => map (fun i => Arr0 (v i)) (seq 0 n)
  | Arr2 r c m => map (fun i => Arr1 c (m i)) (seq 0 r)
  | Arr3 k r c t => map (fun i => Arr2 r c (t i)) (seq 0 k)
  end.

(** [a[k, i, j]] of a rank-3 array *)
Definition entry3 (a : ndarray) (k i j : nat) : option scalar :=
  match a with
  | Arr3 _ _ _ t => Some (t k i j)
  | _ => None
  end.

Inductive state_class : Type :=
| Statevector
| DensityMatrix
| SuperOp
| Operator.

(** An initial state as the user gives it: an Array (or anything
    [Array(...)] accepts), a QuantumState (Statevector or DensityMatrix)
    with its [data], a QuantumChannel with the data of [SuperOp(obj)], or a
    BaseOperator with the data of [Operator(obj)]. *)
Inductive state_object : Type :=
| ArrayObject (data : ndarray)
| StatevectorObject (data : ndarray)
| DensityMatrixObject (data : ndarray)
| QuantumChannelObject (superop_data : ndarray)
| OperatorObject (data : ndarray).

(** [Array(obj).data] *)
Definition data_of (obj : state_object) : ndarray :=
  match obj with
  | ArrayObject a | StatevectorObject a | DensityMatrixObject a
  | QuantumChannelObject a | OperatorObject a => a
  end.

(** [DensityMatrix(y0)] of a QuantumState: the projector on a state vector *)
Definition to_DensityMatrix (obj : state_object) : state_object :=
  match obj with
  | StatevectorObject (Arr1 n v) =>
      DensityMatrixObject (Arr2 n n (fun i j => v i * sconj (v j)))
  | StatevectorObject a => DensityMatrixObject a
  | _ => obj
  end.

(** the constructor of a class, as the wrappers of
    [initial_state_converter] call it *)
Definition wrap (cls : option state_class) (a : ndarray) : state_object :=
  match cls with
  | None => ArrayObject a
  | Some Statevector => StatevectorObject a
  | Some DensityMatrix => DensityMatrixObject a
  | Some SuperOp => QuantumChannelObject a
  | Some Operator => OperatorObject a
  end.

End defs.
End NDArray.
Export NDArray.

(** ** Solver (solver_classes.py) *)

Module Solver.

(** The model a Solver wraps is a HamiltonianModel or a LindbladModel of
    the solver's own revision; the Solver reads and assigns its [signals],
    tests its class, and reads [dim] and [evaluation_mode]. *)
Class ModelOps {K : ScalarRing} (Model : Type) : Type := {
  is_LindbladModel : Model -> bool;   (* else: a HamiltonianModel *)
  model_dim : Model -> nat;
  model_evaluation_mode : Model -> string;
  model_signals : Model -> signals_spec;
  model_set_signals : signals_spec -> M Model unit
}.

(** A generator-based context manager (contextlib.contextmanager): the code
    of the generator up to its [yield], which leaves the generator's local
    variables [X], and the code after the [yield]. *)
Record contextmanager (S X : Type) : Type := mk_contextmanager {
  before_yield : M S X;
  after_yield : X -> M S unit
}.
Arguments mk_contextmanager {S X}.
Arguments before_yield {S X}.
Arguments after_yield {S X}.

(** [with cm: body].  An exception of the body is thrown into the generator
    at its [yield]; a generator with no [try] around the [yield] does not
    handle it, so the code after the [yield] is not run and the exception
    leaves the [with] statement. *)
Definition with_ {S X A} (cm : contextmanager S X) (body : M S A) : M S A :=
  let* x := before_yield cm in
  let* a := body in
  after_yield cm x ;;
  ret a.

(** [needle in hay] for strings *)
Fixpoint contains (needle hay : string) : bool :=
  String.prefix needle hay ||
  match hay with
  | EmptyString => false
  | String _ rest => contains needle rest
  end.

(** Python's [round] of a rational: to the nearest integer, a tie to the
    even one. *)
Definition py_round (q : Q) : Z :=
  let f := Qfloor q in
  match Qcompare (q - inject_Z f) (1 # 2) with
  | Lt => f
  | Gt => (f + 1)%Z
  | Eq => if Z.even f then f else (f + 1)%Z
  end.

Section defs.
Context {K : ScalarRing} {Model : Type} {ops : ModelOps Model}.
Local Open Scope scalar_scope.

(** The attributes of a Solver that its methods below use. *)
Record t : Type := mk {
  _model : Model;
  _rwa_signal_map : option (signals_spec -> signals_spec);
  _jit_cache : gset Z;
  _all_channels : option (list string)
}.

Definition with_model (m : Model) (s : t) : t :=
  mk m (_rwa_signal_map s) (_jit_cache s) (_all_channels s).
Definition with_jit_cache (c : gset Z) (s : t) : t :=
  mk (_model s) (_rwa_signal_map s) c (_all_channels s).

(** Solver.model *)
Definition model (s : t) : Model := _model s.

(** a method of [self.model], run on the solver *)
Definition on_model {A} (c : M Model A) : M t A :=
  fun s => match c (_model s) with
           | (m', r) => (with_model m' s, r)
           end.

(** Solver.signal_assignment *)
Definition signal_assignment (signals : signals_spec)
    : contextmanager t signals_spec :=
  {| before_yield :=
       let* s := get in
       let old_signals := model_signals (model s) in
       let signals :=
         match signals with
         | SpecList _ | SpecSignalList _ =>
             if is_LindbladModel (model s) then SpecTuple signals SpecNone
             else signals
         | _ => signals
         end in
       let signals :=
         match _rwa_signal_map s with
         | Some rwa_signal_map => rwa_signal_map signals
         | None => signals
         end in
       on_model (model_set_signals signals) ;;
       ret old_signals;
     after_yield := fun old_signals =>
       on_model (model_set_signals old_signals) |}.

(** The two class constants are floats; they are the rationals 1/5 and 3/2
    here.  For durations below 2^50 the comparison [duration * 0.2 <
    required_duration] of floats decides [duration < 5 * required_duration],
    and [1.5 * required_duration] is exact. *)
Definition _JIT_MIN_PADDING_FRAC : Q := 0.2.
Definition _JIT_DURATION_PADDING : Q := 1.5.

(** the test of the loop of [_jit_shape]:
    [duration * _JIT_MIN_PADDING_FRAC < required_duration <= duration] *)
Definition fits (required_duration duration : Z) : bool :=
  (if Qlt_le_dec (inject_Z duration * _JIT_MIN_PADDING_FRAC)
                 (inject_Z required_duration)
   then true else false)
  && (required_duration <=? duration)%Z.

(** the same test as a proposition:
    [duration * _JIT_MIN_PADDING_FRAC < required_duration <= duration] *)
Definition in_bucket (required_duration duration : Z) : Prop :=
  (inject_Z duration * _JIT_MIN_PADDING_FRAC < inject_Z required_duration)%Q
  /\ (required_duration <= duration)%Z.

(** the [for ... break] loop: the first duration that fits *)
Fixpoint first_fit (required_duration : Z) (durations : list Z) : option Z :=
  match durations with
  | [] => None
  | duration :: rest =>
      if fits required_duration duration then Some duration
      else first_fit required_duration rest
  end.

(** [sorted(self._jit_cache)] *)
Definition sorted_cache (s : t) : list Z :=
  merge_sort Z.le (elements (_jit_cache s)).

(** Solver._jit_shape *)
Definition _jit_shape (required_duration : Z) : M t (nat * Z) :=
  let* s := get in
  let* duration :=
    match first_fit required_duration (sorted_cache s) with
    | Some duration => ret duration
    | None =>
        let duration :=
          py_round (_JIT_DURATION_PADDING * inject_Z required_duration) in
        modify (fun s => with_jit_cache ({[ duration ]} ∪ _jit_cache s) s) ;;
        ret duration
    end in
  match _all_channels s with
  | Some all_channels => ret (length all_channels, duration)
  | None => raise (TypeError "object of type 'NoneType' has no len()")
  end.

(** *** Initial and final states *)

(** initial_state_converter: the array, the class of the input ([None] for
    an array), and the wrapper, which is [wrap] of that class *)
Definition initial_state_converter (obj : state_object)
    : ndarray * option state_class :=
  match obj with
  | ArrayObject a => (a, None)
  | StatevectorObject a => (a, Some Statevector)
  | DensityMatrixObject a => (a, Some DensityMatrix)
  | QuantumChannelObject a => (a, Some SuperOp)
  | OperatorObject a => (a, Some Operator)
  end.

Definition is_QuantumState (obj : state_object) : bool :=
  match obj with
  | StatevectorObject _ | DensityMatrixObject _ => true
  | _ => false
  end.

Definition is_HamiltonianModel (m : Model) : bool := negb (is_LindbladModel m).

(** Modelled from the spec: solver_utils.py is not among the sources.  Spec
    4.4 and 7: a Lindblad model is vectorized when its evaluation mode is a
    vectorized one. *)
Definition is_lindblad_model_vectorized (m : Model) : bool :=
  is_LindbladModel m && contains "vectorized" (model_evaluation_mode m).

Definition is_lindblad_model_not_vectorized (m : Model) : bool :=
  is_LindbladModel m && negb (contains "vectorized" (model_evaluation_mode m)).

Definition class_in (cls : option state_class) (l : list state_class) : bool :=
  match cls with
  | Some c => existsb (fun c' => match c, c' with
                                 | Statevector, Statevector
                                 | DensityMatrix, DensityMatrix
                                 | SuperOp, SuperOp
                                 | Operator, Operator => true
                                 | _, _ => false
                                 end) l
  | None => false
  end.

(** [y0.shape[0] != n or y0.ndim > 2] *)
Definition bad_shape (y0 : ndarray) (n : nat) : result bool :=
  match shape y0 with
  | [] => Raise (IndexError "tuple index out of range")
  | n0 :: _ => Ok (negb (Nat.eqb n0 n) || Nat.ltb 2 (ndim y0))
  end.

Definition shape_eqb (s1 s2 : list nat) : bool :=
  if decide (s1 = s2) then true else false.

(** validate_and_format_initial_state: the state to hand to the integrator,
    the input as an array, and the class of the input *)
Definition validate_and_format_initial_state (y0 : state_object) (m : Model)
    : result (ndarray * ndarray * option state_class) :=
  let y0 := if is_QuantumState y0 && is_LindbladModel m
            then to_DensityMatrix y0 else y0 in
  let '(y0, y0_cls) := initial_state_converter y0 in
  let y0_input := y0 in
  if class_in y0_cls [SuperOp] && is_lindblad_model_not_vectorized m then
    Raise (QiskitError "Simulating SuperOp for a LindbladModel requires setting vectorized evaluation.")
  else
    let y0 :=
      if class_in y0_cls [DensityMatrix; SuperOp] && is_HamiltonianModel m then
        np_eye (model_dim m)
      else if class_in y0_cls [DensityMatrix] && is_LindbladModel m
              && contains "vectorized" (model_evaluation_mode m) then
        flatten_F y0
      else y0 in
    match (if is_HamiltonianModel m then bad_shape y0 (model_dim m) else Ok false) with
    | Raise e => Raise e
    | Ok true =>
        Raise (QiskitError "Shape mismatch for initial state y0 and HamiltonianModel.")
    | Ok false =>
        match (if is_lindblad_model_vectorized m
               then bad_shape y0 (model_dim m ^ 2) else Ok false) with
        | Raise e => Raise e
        | Ok true =>
            Raise (QiskitError "Shape mismatch for initial state y0 and LindbladModel in vectorized evaluation mode.")
        | Ok false =>
            if is_lindblad_model_not_vectorized m
               && negb (shape_eqb (shape_last2 y0) [model_dim m; model_dim m])
            then Raise (QiskitError "Shape mismatch for initial state y0 and LindbladModel.")
            else Ok (y0, y0_input, y0_cls)
        end
    end.

(** [a @ b], in the cases the states of one simulation meet: a stack of
    matrices times a matrix or times a stack of the same length, and a
    matrix times a matrix. *)
Definition matmul (a b : ndarray) : result ndarray :=
  match a, b with
  | Arr3 k r c x, Arr2 r' c' y =>
      if Nat.eqb c r' then Ok (Arr3 k r c' (fun n => Mmult c (x n) y))
      else Raise (ValueError "matmul: mismatch in the core dimension")
  | Arr3 k r c x, Arr3 k' r' c' y =>
      if Nat.eqb c r' && Nat.eqb k k'
      then Ok (Arr3 k r c' (fun n => Mmult c (x n) (y n)))
      else Raise (ValueError "matmul: mismatch in the core dimension")
  | Arr2 r c x, Arr2 r' c' y =>
      if Nat.eqb c r' then Ok (Arr2 r c' (Mmult c x y))
      else Raise (ValueError "matmul: mismatch in the core dimension")
  | _, _ => Raise (ValueError "matmul: operands of these ranks")
  end.

(** [y.conj().transpose((0, 2, 1))] *)
Definition conj_transpose_021 (y : ndarray) : result ndarray :=
  match y with
  | Arr3 k r c x => Ok (Arr3 k c r (fun n => adjoint (x n)))
  | _ => Raise (ValueError "axes do not match array")
  end.

(** [np.einsum("nka,nlb->nklab", y.conj(), y).reshape(y.shape[0],
    y.shape[1] ** 2, y.shape[1] ** 2)]: the entry (k, l, a, b) of the
    einsum is [conj(y[n,k,a]) * y[n,l,b]]; the reshape reads row [k*r + l]
    and column [a*c + b], and asks for [c = r]. *)
Definition einsum_reshape (y : ndarray) : result ndarray :=
  match y with
  | Arr3 k r c x =>
      if Nat.eqb c r then
        Ok (Arr3 k (r * r) (r * r)
              (fun n i j => sconj (x n (i / r)%nat (j / c)%nat)
                            * x n (i mod r)%nat (j mod c)%nat))
      else Raise (ValueError "cannot reshape array")
  | _ => Raise (ValueError "einsum: operand does not have three dimensions")
  end.

(** [y.reshape((len(y),) + y0_input.shape, order="F")] *)
Definition reshape_F (y y0_input : ndarray) : result ndarray :=
  match y, y0_input with
  | Arr2 k l x, Arr2 r c _ =>
      if Nat.eqb l (r * c) then Ok (Arr3 k r c (fun n i j => x n (i + r * j)%nat))
      else Raise (ValueError "cannot reshape array")
  | _, _ => Raise (ValueError "cannot reshape array")
  end.

(** format_final_states *)
Definition format_final_states (y : ndarray) (m : Model) (y0_input : ndarray)
    (y0_cls : option state_class) : result ndarray :=
  if class_in y0_cls [DensityMatrix] && is_HamiltonianModel m then
    (* conjugate by unitary *)
    match matmul y y0_input, conj_transpose_021 y with
    | Ok a, Ok yt => matmul a yt
    | Raise e, _ => Raise e
    | _, Raise e => Raise e
    end
  else if class_in y0_cls [SuperOp] && is_HamiltonianModel m then
    (* convert to SuperOp and compose *)
    match einsum_reshape y with
    | Ok a => matmul a y0_input
    | Raise e => Raise e
    end
  else if class_in y0_cls [DensityMatrix] && is_lindblad_model_vectorized m then
    reshape_F y y0_input
  else Ok y.

(** *** solve *)

(** The integrator, [solve_lmde(generator, t_span, y0)], is not among the
    sources: it is handed the model, the time span and an initial state,
    and returns the times and the states over time. *)
Section solve.
Variable solve_lmde :
  Model -> list scalar -> state_object -> result (list scalar * ndarray).

Inductive results_y : Type :=
| StatesArray (y : ndarray)
| StatesList (l : list state_object).

Record OdeResult : Type := mk_OdeResult {
  result_t : list scalar;
  result_y : results_y
}.

(** the first loop of [solve], which looks for the longest DiscreteSignal,
    on signals that are no pulse schedules and no DiscreteSignals: it
    iterates over [sigs], and takes the [max] of the durations when [all]
    holds, as it does of an empty list *)
Definition scan_signals (sigs : signals_spec) : result unit :=
  match sigs with
  | SpecNone => Raise (TypeError "'NoneType' object is not iterable")
  | SpecList [] | SpecSignalList [] =>
      Raise (ValueError "max() arg is an empty sequence")
  | _ => Ok tt
  end.

(** Solver.solve for one simulation ([t_span], [y0] and [signals] are no
    lists of simulations, so the loop runs once with [y0_elem = y0]) whose
    signals are given as Signals, not DiscreteSignals, and are not compiled
    with JAX. *)
Definition solve (t_span : list scalar) (y0 : state_object)
    (signals : signals_spec) (convert_results : bool) : M t OdeResult :=
  let t_span_elem := t_span in
  let y0_elem := y0 in
  let sigs := signals in
  (* turn any present schedules into signals and find longest DiscreteSignal *)
  lift (scan_signals sigs) ;;
  let* s := get in
  (* setup initial state *)
  let* formatted := lift (validate_and_format_initial_state y0 (model s)) in
  let '(y0, y0_input, y0_cls) := formatted in
  let* results :=
    with_ (signal_assignment sigs)
      (let* s := get in
       let* results := lift (solve_lmde (model s) t_span_elem y0_elem) in
       let* y := lift (format_final_states results.2 (model s) y0_input y0_cls) in
       ret (results.1, y)) in
  match y0_cls with
  | Some _ =>
      if convert_results
      then ret (mk_OdeResult results.1
                  (StatesList (map (wrap y0_cls) (slices results.2))))
      else ret (mk_OdeResult results.1 (StatesArray results.2))
  | None => ret (mk_OdeResult results.1 (StatesArray results.2))
  end.

End solve.

End defs.
End Solver.

(** ** The invariant of the frame setters, and what the claims read *)

Module Invariant.
Section defs.
Context {K : ScalarRing}.
Local Open Scope scalar_scope.

(** [stored] holds the operators [lab] in the basis of frame [f] *)
Definition operators_in_frame_basis (n : nat) (f : Frame.t)
    (stored lab : list Matrix) : Prop :=
  Forall2 (fun s l => mat_eq n s (Frame.operator_into_frame_basis n f l)) stored lab.

(** [stored] holds the drift [lab] in the basis of frame [f], minus
    [diag(shift . frame_diag)]: [shift] is 1 for a GeneratorModel and 1j for
    a LindbladModel *)
Definition drift_folded (n : nat) (shift : scalar) (f : Frame.t)
    (stored lab : Matrix) : Prop :=
  match Frame.frame_diag f with
  | Some d =>
      mat_eq n stored (Mminus (Frame.operator_into_frame_basis n f lab)
                              (diag (fun k => shift * d k)))
  | None => mat_eq n stored lab
  end.

(** A GeneratorModel as its constructor and its frame setter leave it, for
    the operators [L] and the drift [d0] the user supplied. *)
Definition generator_model (L : list Matrix) (d0 : Matrix)
    (m : GeneratorModel.t) : Prop :=
  exists f,
    GeneratorModel._frame m = Some f
    /\ Frame.wf (GeneratorModel.hilbert_space_dimension m) f
    /\ operators_in_frame_basis (GeneratorModel.hilbert_space_dimension m) f
         (GeneratorModel._operators m) L
    /\ drift_folded (GeneratorModel.hilbert_space_dimension m) 1 f
         (GeneratorModel._drift m) d0
    /\ GeneratorModel._evaluation_mode m = Some "dense_operator_collection"%string
    /\ GeneratorModel._operator_collection m
       = Some (DenseOperatorCollection.mk (GeneratorModel._operators m)
                                          (GeneratorModel._drift m)).

Definition supported_mode (mode : option string) : bool :=
  match mode with
  | None => true
  | Some s => String.eqb s "dense" || String.eqb s "sparse"
              || String.eqb s "dense_vectorized"
  end.

Definition dissipators_in_frame_basis (n : nat) (f : Frame.t)
    (stored lab : option (list Matrix)) : Prop :=
  match stored, lab with
  | Some s, Some l => operators_in_frame_basis n f s l
  | None, None => True
  | _, _ => False
  end.

(** A LindbladModel as its constructor and its frame setter leave it, for
    the Hamiltonian operators [LH], the dissipators [LD] and the drift
    [d0] the user supplied. *)
Definition lindblad_model (LH : list Matrix) (LD : option (list Matrix))
    (d0 : Matrix) (m : LindbladModel.t) : Prop :=
  exists f,
    LindbladModel._frame m = Some f
    /\ Frame.wf (LindbladModel.dim m) f
    /\ operators_in_frame_basis (LindbladModel.dim m) f
         (LindbladModel._hamiltonian_operators m) LH
    /\ dissipators_in_frame_basis (LindbladModel.dim m) f
         (LindbladModel._dissipator_operators m) LD
    /\ drift_folded (LindbladModel.dim m) simag f (LindbladModel._drift m) d0
    /\ supported_mode (LindbladModel._evaluation_mode m) = true
    /\ (LindbladModel._evaluation_mode m <> None ->
        exists cls,
          LindbladModel._operator_collection m
          = Some (LindbladModel.mk_collection cls
                    (LindbladModel._hamiltonian_operators m)
                    (LindbladModel._drift m)
                    (LindbladModel._dissipator_operators m))).

(** the model has a frame object whose frame operator is None *)
Definition no_frame (f : option Frame.t) : Prop :=
  exists f0, f = Some f0 /\ Frame.frame_diag f0 = None.

Definition same_operators (n : nat) (a b : list Matrix) : Prop :=
  Forall2 (mat_eq n) a b.

(** Setting the frame of GeneratorModel [m] to [a] and then to None
    succeeds and restores the stored operators and the stored drift. *)
Definition generator_roundtrip_restores (a : Frame.arg) (m : GeneratorModel.t)
    : Prop :=
  let r1 := GeneratorModel.set_frame a m in
  let r2 := GeneratorModel.set_frame Frame.ArgNone r1.1 in
  r1.2 = Ok tt /\ r2.2 = Ok tt
  /\ same_operators (GeneratorModel.hilbert_space_dimension m)
       (GeneratorModel._operators r2.1) (GeneratorModel._operators m)
  /\ mat_eq (GeneratorModel.hilbert_space_dimension m)
       (GeneratorModel._drift r2.1) (GeneratorModel._drift m).

Definition same_dissipators (n : nat) (a b : option (list Matrix)) : Prop :=
  match a, b with
  | Some x, Some y => same_operators n x y
  | None, None => True
  | _, _ => False
  end.

Definition lindblad_roundtrip_restores (a : Frame.arg) (m : LindbladModel.t)
    : Prop :=
  let r1 := LindbladModel.set_frame a m in
  let r2 := LindbladModel.set_frame Frame.ArgNone r1.1 in
  r1.2 = Ok tt /\ r2.2 = Ok tt
  /\ same_operators (LindbladModel.dim m)
       (LindbladModel._hamiltonian_operators r2.1)
       (LindbladModel._hamiltonian_operators m)
  /\ same_dissipators (LindbladModel.dim m)
       (LindbladModel._dissipator_operators r2.1)
       (LindbladModel._dissipator_operators m)
  /\ mat_eq (LindbladModel.dim m)
       (LindbladModel._drift r2.1) (LindbladModel._drift m).



(** The GeneratorModels a program holds for the operators [L] it was built
    with and the drift [d0] the user supplied last: those [__init__]
    returns, and those the setters of [frame], [signals], [evaluation_mode]
    and [drift] make of them, where [drift] is assigned only while the model
    has no frame (an array assigned to [drift] is stored as it is, so on a
    model in a frame it is not the user's drift in the frame basis).  The
    frames are well formed. *)
Inductive generator_reachable (L : list Matrix)
    : option Matrix -> GeneratorModel.t -> Prop :=
| generator_built (d0 : option Matrix) (n : nat) (signals : signals_spec)
    (frame : Frame.arg) :
    Frame.wf n (Frame.init frame) ->
    (GeneratorModel.init n L d0 signals frame "dense_operator_collection").2
    = Ok tt ->
    generator_reachable L d0
      (GeneratorModel.init n L d0 signals frame "dense_operator_collection").1
| generator_frame_set (d0 : option Matrix) (m : GeneratorModel.t)
    (a : Frame.arg) :
    generator_reachable L d0 m ->
    Frame.wf (GeneratorModel.hilbert_space_dimension m) (Frame.init a) ->
    generator_reachable L d0 (GeneratorModel.set_frame a m).1
| generator_signals_set (d0 : option Matrix) (m : GeneratorModel.t)
    (signals : signals_spec) :
    generator_reachable L d0 m ->
    generator_reachable L d0 (GeneratorModel.set_signals signals m).1
| generator_mode_set (d0 : option Matrix) (m : GeneratorModel.t)
    (mode : string) :
    generator_reachable L d0 m ->
    generator_reachable L d0 (GeneratorModel.set_evaluation_mode mode m).1
| generator_drift_set (d0 : option Matrix) (m : GeneratorModel.t)
    (new_drift : option Matrix) :
    generator_reachable L d0 m ->
    no_frame (GeneratorModel._frame m) ->
    generator_reachable L new_drift (GeneratorModel.set_drift new_drift m).1.

(** The LindbladModels a program holds for the Hamiltonian operators [LH]
    and the dissipators [LD] it was built with and the drift [d0] the user
    supplied last; [drift] is assigned only while the model has no frame. *)
Inductive lindblad_reachable (LH : list Matrix) (LD : option (list Matrix))
    : option Matrix -> LindbladModel.t -> Prop :=
| lindblad_built (d0 : option Matrix) (n : nat)
    (hamiltonian_signals dissipator_signals : signals_spec)
    (frame : Frame.arg) (mode : option string) :
    Frame.wf n (Frame.init frame) ->
    (LindbladModel.init n LH hamiltonian_signals LD dissipator_signals d0
       frame mode).2 = Ok tt ->
    lindblad_reachable LH LD d0
      (LindbladModel.init n LH hamiltonian_signals LD dissipator_signals d0
         frame mode).1
| lindblad_frame_set (d0 : option Matrix) (m : LindbladModel.t)
    (a : Frame.arg) :
    lindblad_reachable LH LD d0 m ->
    Frame.wf (LindbladModel.dim m) (Frame.init a) ->
    lindblad_reachable LH LD d0 (LindbladModel.set_frame a m).1
| lindblad_signals_set (d0 : option Matrix) (m : LindbladModel.t)
    (new_signals : signals_spec * signals_spec) :
    lindblad_reachable LH LD d0 m ->
    lindblad_reachable LH LD d0 (LindbladModel.set_signals new_signals m).1
| lindblad_mode_set (d0 : option Matrix) (m : LindbladModel.t)
    (mode : option string) :
    lindblad_reachable LH LD d0 m ->
    lindblad_reachable LH LD d0 (LindbladModel.set_evaluation_mode mode m).1
| lindblad_drift_set (d0 : option Matrix) (m : LindbladModel.t)
    (new_drift : Matrix) :
    lindblad_reachable LH LD d0 m ->
    no_frame (LindbladModel._frame m) ->
    lindblad_reachable LH LD (Some new_drift)
      (LindbladModel.set_drift (Some new_drift) m).1.

End defs.
End Invariant.
Export Invariant.

(** ** The Hamiltonian model of a Solver *)

Module HamiltonianModel.
Section defs.
Context {K : ScalarRing}.

(** Modelled from the spec: hamiltonian_models.py is not among the sources.
    Spec 2 and 4.3: the Hamiltonian model is the variant of the generator
    model that a Solver wraps; its [signals] property, its dimension and its
    evaluation mode are those of GeneratorModel. *)
#[global] Instance ops : Solver.ModelOps GeneratorModel.t := {|
  Solver.is_LindbladModel := fun _ => false;
  Solver.model_dim := GeneratorModel.hilbert_space_dimension;
  Solver.model_evaluation_mode := fun m =>
    default ""%string (GeneratorModel._evaluation_mode m);
  Solver.model_signals := fun m =>
    match GeneratorModel._signals m with
    | Some sl => SpecSignalList sl
    | None => SpecNone
    end;
  Solver.model_set_signals := GeneratorModel.set_signals
|}.

(** the solution of y' = G(t) y over [t_span] when G(t) = 0: the initial
    state at every time; the integrator the examples run a model whose
    generator is 0 with *)
Definition constant_solution (m : GeneratorModel.t) (t_span : list scalar)
    (y0 : state_object) : result (list scalar * ndarray) :=
  match data_of y0 with
  | Arr2 r c a => Ok (t_span, Arr3 (length t_span) r c (fun _ => a))
  | Arr1 n v => Ok (t_span, Arr2 (length t_span) n (fun _ => v))
  | _ => Raise (ValueError "y0 must be a vector or a matrix")
  end.

End defs.
End HamiltonianModel.

(** ** What the setters keep of the operator collections *)

Module Consistency.
Section defs.
Context {K : ScalarRing}.


(** the evaluation mode, the flag [vectorized_operators] and the class of
    the operator collection of a LindbladModel agree *)
Definition lindblad_mode_agrees (m : LindbladModel.t) : Prop :=
  forall mode, LindbladModel._evaluation_mode m = Some mode ->
    supported_mode (Some mode) = true
    /\ LindbladModel.vectorized_operators m
       = Some (String.eqb mode "dense_vectorized")
    /\ exists oc,
         LindbladModel._operator_collection m = Some oc
         /\ LindbladModel.collection_cls oc
            = (if String.eqb mode "dense" then LindbladModel.DenseLindbladCollection
               else if String.eqb mode "sparse"
                    then LindbladModel.SparseLindbladCollection
                    else LindbladModel.DenseVectorizedLindbladCollection).

(** what [LindbladModel.__init__] leaves in a signal attribute: None or a
    SignalList ([isinstance(signals, SignalList)] or [signals is None]) *)
Definition None_or_SignalList (signals : signals_spec) : bool :=
  match signals with
  | SpecNone | SpecSignalList _ => true
  | SpecList _ | SpecTuple _ _ => false
  end.

End defs.
End Consistency.
Export Consistency.

(** ** PerturbationResults (perturbation_results.py) *)

Module PerturbationResults.
Section defs.
(** A label is a list of ints or a Multiset, compared with [==]; a term is
    an entry [expansion_terms[idx]] of the array of terms along its first
    axis.  [to_Multiset] (perturbation/multiset.py) is not among the
    sources: it is the conversion the method calls on the label. *)
Context {Label Term : Type} `{EqDecision Label}.
Variable to_Multiset : Label -> Label.

Record t : Type := mk {
  expansion_method : string;
  expansion_labels : list Label;
  expansion_terms : list Term
}.

(** [labels.index(label)]: the first position of [label] *)
Fixpoint index (label : Label) (labels : list Label) : result nat :=
  match labels with
  | [] => Raise (ValueError "label is not in list")
  | l :: rest =>
      if decide (l = label) then Ok 0
      else match index label rest with
           | Ok idx => Ok (S idx)
           | Raise e => Raise e
           end
  end.

(** [label in labels] *)
Definition In_labels (label : Label) (labels : list Label) : bool :=
  existsb (fun l => if decide (l = label) then true else false) labels.

(** PerturbationResults.__getitem__ *)
Definition __getitem__ (self : t) (label : Label) : result Term :=
  let label :=
    if Solver.contains "symmetric" (expansion_method self)
    then to_Multiset label else label in
  if In_labels label (expansion_labels self) then
    match index label (expansion_labels self) with
    | Ok idx =>
        match expansion_terms self !! idx with
        | Some term => Ok term
        | None => Raise (IndexError "index is out of bounds for axis 0")
        end
    | Raise e => Raise e
    end
  else Raise (QiskitError "label is not present in expansion_labels.").

End defs.
End PerturbationResults.

(** ** The arguments of Solver.solve (solver_classes.py) *)

Module SolveArguments.
Section defs.
Context {K : ScalarRing}.

(** The objects [solve] is called on, as far as [t_span_to_list],
    [_y0_to_list], [_signals_to_list] and [_nested_ndim] tell them apart. *)
#[warnings="-register-all"]
Inductive pyobj : Type :=
| PyNone
| PyNumber (x : scalar)
| PyArray (a : ndarray)             (* an Array or a registered array type *)
| PyList (items : list pyobj)
| PyTuple (items : list pyobj)
| PySignal (s : Signal)
| PySignalList (sl : SignalList)
| PySchedule (name : string)
| PyScheduleBlock (name : string).

(** _nested_ndim *)
Fixpoint _nested_ndim (x : pyobj) : result nat :=
  match x with
  | PyList items =>
      match items with
      | [] => Raise (IndexError "list index out of range")
      | x0 :: _ =>
          match _nested_ndim x0 with
          | Ok n => Ok (1 + n)
          | Raise e => Raise e
          end
      end
  | PyTuple items =>
      match items with
      | [] => Raise (IndexError "tuple index out of range")
      | x0 :: _ =>
          match _nested_ndim x0 with
          | Ok n => Ok (1 + n)
          | Raise e => Raise e
          end
      end
  | PyArray a => Ok (ndim a)
  | _ => Ok 0                        (* assume scalar *)
  end.

(** t_span_to_list *)
Definition t_span_to_list (t_span : pyobj) : result (pyobj * bool) :=
  match _nested_ndim t_span with
  | Raise e => Raise e
  | Ok t_span_ndim =>
      if 2 <? t_span_ndim then
        Raise (QiskitError "t_span must be either 1d or 2d.")
      else if t_span_ndim =? 1 then Ok (PyList [t_span], false)
      else Ok (t_span, true)
  end.

(** _y0_to_list *)
Definition _y0_to_list (y0 : pyobj) : pyobj * bool :=
  match y0 with
  | PyList _ => (y0, true)
  | _ => (PyList [y0], false)
  end.




End defs.
End SolveArguments.

(** ** The pulse channels of a Solver (solver_classes.py) *)

Module SolverChannels.
Section defs.
Context {K : ScalarRing}.

(** [chan.lower()] *)
Variable lower : string -> string.

(** InstructionToSignals(dt, carriers, channels), which is not among the
    sources: the arguments it is constructed with *)
Record InstructionToSignals : Type := mk_InstructionToSignals {
  converter_dt : Q;
  converter_carriers : option (gmap string Q);
  converter_channels : list string
}.

(** The attributes the first block of [Solver.__init__] assigns. *)
Record t : Type := mk {
  _hamiltonian_channels : option (list string);
  _dissipator_channels : option (list string);
  _all_channels : option (list string);
  _channel_carrier_freqs : option (gmap string Q);
  _schedule_converter : option InstructionToSignals
}.

(** [for chan in channels: if chan not in all_channels:
    all_channels.append(chan)] *)
Definition append_new (all_channels channels : list string) : list string :=
  foldl (fun all_channels chan =>
           if decide (chan ∈ all_channels) then all_channels
           else all_channels ++ [chan])
        all_channels channels.

(** [{key.lower(): val for key, val in channel_carrier_freqs.items()}], on
    the items of the dict in insertion order *)
Definition lower_keys (items : list (string * Q)) : gmap string Q :=
  foldl (fun d kv => <[ lower kv.1 := kv.2 ]> d) ∅ items.

(** the truth values [any] tests *)
Definition truthy_float (x : option Q) : bool :=
  match x with
  | Some q => negb (Qeq_bool q 0)
  | None => false
  end.
Definition truthy_list {A : Type} (l : option (list A)) : bool :=
  match l with
  | Some (_ :: _) => true
  | _ => false
  end.

(** [operators is None or len(operators) != len(channels)] *)
Definition length_mismatch (operators : option (list Matrix))
    (channels : list string) : bool :=
  match operators with
  | None => true
  | Some ops => negb (length ops =? length channels)
  end.

(** Solver.__init__, the block "set pulse specific information if
    specified", which comes before the model is set up and raises the
    QiskitErrors of the constructor; the rest of [__init__] reads these
    attributes and does not assign them.  [channel_carrier_freqs] is given
    by its items in insertion order. *)
Definition __init__ (hamiltonian_operators dissipator_operators : option (list Matrix))
    (hamiltonian_channels dissipator_channels : option (list string))
    (channel_carrier_freqs : option (list (string * Q))) (dt : option Q)
    : result t :=
  if truthy_float dt || truthy_list channel_carrier_freqs
     || truthy_list hamiltonian_channels || truthy_list dissipator_channels
  then
    let all_channels := [] in
    match
      match hamiltonian_channels with
      | Some hamiltonian_channels =>
          let hamiltonian_channels := map lower hamiltonian_channels in
          if length_mismatch hamiltonian_operators hamiltonian_channels then
            Raise (QiskitError
              "hamiltonian_channels must have same length as hamiltonian_operators")
          else Ok (Some hamiltonian_channels,
                   append_new all_channels hamiltonian_channels)
      | None => Ok (None, all_channels)
      end
    with
    | Raise e => Raise e
    | Ok (hamiltonian_channels, all_channels) =>
    match
      match dissipator_channels with
      | Some dissipator_channels =>
          let dissipator_channels := map lower dissipator_channels in
          let all_channels := append_new all_channels dissipator_channels in
          if length_mismatch dissipator_operators dissipator_channels then
            Raise (QiskitError
              "dissipator_channels must have same length as dissipator_operators")
          else Ok (Some dissipator_channels, all_channels)
      | None => Ok (None, all_channels)
      end
    with
    | Raise e => Raise e
    | Ok (dissipator_channels, all_channels) =>
        let channel_carrier_freqs :=
          match channel_carrier_freqs with
          | None => ∅
          | Some items => lower_keys items
          end in
        match find (fun chan => bool_decide (channel_carrier_freqs !! chan = None))
                   all_channels with
        | Some chan =>
            Raise (QiskitError
              ("Channel '" ++ chan ++
               "' does not have carrier frequency specified in channel_carrier_freqs."))
        | None =>
            let channel_carrier_freqs :=
              if decide (size channel_carrier_freqs = 0) then None
              else Some channel_carrier_freqs in
            match dt with
            | Some dt =>
                Ok (mk hamiltonian_channels dissipator_channels
                       (Some all_channels) channel_carrier_freqs
                       (Some (mk_InstructionToSignals dt channel_carrier_freqs
                                                      all_channels)))
            | None =>
                Raise (QiskitError
                  "dt must be specified if channel information is provided.")
            end
        end
    end end
  else Ok (mk None None None None None).

(** The class of a model, as [organize_signals_to_channels] compares it
    with HamiltonianModel. *)
Inductive model_class : Type :=
| HamiltonianModelClass
| LindbladModelClass.

(** [all_channels.index(chan)] *)
Fixpoint index (chan : string) (all_channels : list string) : result nat :=
  match all_channels with
  | [] => Raise (ValueError (chan ++ " is not in list"))
  | c :: rest =>
      if decide (c = chan) then Ok 0
      else match index chan rest with
           | Ok i => Ok (S i)
           | Raise e => Raise e
           end
  end.

(** [[all_signals[all_channels.index(chan)] for chan in channels]] *)
Fixpoint signals_of_channels (all_signals : list Signal)
    (all_channels channels : list string) : result (list Signal) :=
  match channels with
  | [] => Ok []
  | chan :: rest =>
      match index chan all_channels with
      | Raise e => Raise e
      | Ok i =>
          match all_signals !! i with
          | None => Raise (IndexError "list index out of range")
          | Some signal =>
              match signals_of_channels all_signals all_channels rest with
              | Ok signals => Ok (signal :: signals)
              | Raise e => Raise e
              end
          end
      end
  end.

(** the signal a channel is given: that of the first position of the
    channel's name in [all_channels] *)
Definition signal_of_channel (all_signals : list Signal)
    (all_channels : list string) (chan : string) (signal : Signal) : Prop :=
  exists i, all_channels !! i = Some chan
            /\ all_signals !! i = Some signal
            /\ forall j, j < i -> all_channels !! j <> Some chan.

(** a list of signals, or None *)
Definition spec_of (signals : option (list Signal)) : signals_spec :=
  match signals with
  | Some l => SpecList l
  | None => SpecNone
  end.

(** organize_signals_to_channels *)
Definition organize_signals_to_channels (all_signals : list Signal)
    (all_channels : list string) (model_class : model_class)
    (hamiltonian_channels dissipator_channels : option (list string))
    : result signals_spec :=
  match model_class with
  | HamiltonianModelClass =>
      match hamiltonian_channels with
      | Some hamiltonian_channels =>
          match signals_of_channels all_signals all_channels
                  hamiltonian_channels with
          | Ok signals => Ok (SpecList signals)
          | Raise e => Raise e
          end
      | None => Ok SpecNone
      end
  | LindbladModelClass =>
      match
        match hamiltonian_channels with
        | Some hamiltonian_channels =>
            match signals_of_channels all_signals all_channels
                    hamiltonian_channels with
            | Ok signals => Ok (Some signals)
            | Raise e => Raise e
            end
        | None => Ok None
        end
      with
      | Raise e => Raise e
      | Ok hamiltonian_signals =>
          match
            match dissipator_channels with
            | Some dissipator_channels =>
                match signals_of_channels all_signals all_channels
                        dissipator_channels with
                | Ok signals => Ok (Some signals)
                | Raise e => Raise e
                end
            | None => Ok None
            end
          with
          | Raise e => Raise e
          | Ok dissipator_signals =>
              Ok (SpecTuple (spec_of hamiltonian_signals)
                            (spec_of dissipator_signals))
          end
      end
  end.

End defs.
End SolverChannels.

(** ** Concrete models *)

Module Examples.
Section gauss_integers.
#[local] Existing Instance GaussZ.

Definition mat2 (a b c d : gauss) : Matrix :=
  fun i j =>
    match i, j with
    | 0, 0 => a | 0, 1 => b
    | 1, 0 => c | 1, 1 => d
    | _, _ => (0, 0)%Z
    end.

Definition vec2 (a b : gauss) : Vector :=
  fun i => match i with 0 => a | 1 => b | _ => (0, 0)%Z end.

Definition sigma_x : Matrix := mat2 (0, 0)%Z (1, 0)%Z (1, 0)%Z (0, 0)%Z.
Definition sigma_z : Matrix := mat2 (1, 0)%Z (0, 0)%Z (0, 0)%Z (-1, 0)%Z.
Definition sigma_minus : Matrix := mat2 (0, 0)%Z (0, 0)%Z (1, 0)%Z (0, 0)%Z.
Definition diag_1_2 : Matrix := mat2 (1, 0)%Z (0, 0)%Z (0, 0)%Z (2, 0)%Z.

(** a frame operator F = B . diag(1j, -1j) . B-adjoint with the unitary
    B = [[0, 1j], [1, 0]] *)
Definition frame_B : Matrix := mat2 (0, 0)%Z (0, 1)%Z (1, 0)%Z (0, 0)%Z.
Definition frame_F : Frame.arg :=
  Frame.ArgOperator (vec2 (0, 1)%Z (0, -1)%Z) frame_B.
(** a frame given by its diagonal [3j, 5j] *)
Definition frame_D : Frame.arg := Frame.ArgDiagonal (vec2 (0, 3)%Z (0, 5)%Z).

Definition constant (c : gauss) : Signal := fun _ => c.

Definition signals_1_2 : signals_spec :=
  SpecList [constant (1, 0)%Z; constant (2, 0)%Z].
Definition signals_3_4 : signals_spec :=
  SpecList [constant (3, 0)%Z; constant (4, 0)%Z].

(** GeneratorModel([sigma_x, sigma_z], drift=diag(1, 2), signals, frame) *)
Definition generator_model_of (signals : signals_spec) (frame : Frame.arg)
    : GeneratorModel.t :=
  (GeneratorModel.init 2 [sigma_x; sigma_z] (Some diag_1_2) signals frame
     "dense_operator_collection").1.

Definition generator_unframed : GeneratorModel.t :=
  generator_model_of signals_1_2 Frame.ArgNone.
Definition generator_in_frame_F : GeneratorModel.t :=
  generator_model_of signals_1_2 frame_F.
Definition generator_without_signals : GeneratorModel.t :=
  generator_model_of SpecNone frame_F.

(** LindbladModel([sigma_x, sigma_z], signals, [sigma_minus], drift=diag(1,2)) *)
Definition lindblad_model_of (frame : Frame.arg) (mode : string)
    : LindbladModel.t :=
  (LindbladModel.init 2 [sigma_x; sigma_z] signals_1_2 (Some [sigma_minus])
     SpecNone (Some diag_1_2) frame (Some mode)).1.

Definition lindblad_unframed : LindbladModel.t :=
  lindblad_model_of Frame.ArgNone "dense".
Definition lindblad_in_frame_F : LindbladModel.t :=
  lindblad_model_of frame_F "dense".



(** the unframed LindbladModel, in mode "dense", after
    [model.signals = ([Signal(1), Signal(2)], [Signal(3)])]: the two entries
    are lists, not SignalLists *)
Definition lindblad_with_list_signals : LindbladModel.t :=
  (LindbladModel.set_signals
     (SpecList [constant (1, 0)%Z; constant (2, 0)%Z],
      SpecList [constant (3, 0)%Z]) lindblad_unframed).1.

(** the collaborators of [LindbladModel.evaluate_generator] at the
    examples: a collection that evaluates to 0 and a frame that returns the
    operator it is given *)
Definition zero_superoperator (oc : LindbladModel.collection)
    (hamiltonian_sig_vals : list scalar)
    (dissipator_sig_vals : option (list scalar)) : Matrix := Mzero.
Definition operator_as_given (f : Frame.t) (time : scalar) (out : Matrix)
    (operator_in_frame_basis return_in_frame_basis : bool) : Matrix := out.

(** a Solver on [generator_unframed], configured for two channels *)
Definition solver_with_channels : Solver.t :=
  Solver.mk generator_unframed None ({[ 50%Z; 10000%Z ]} : gset Z)
    (Some ["d0"; "d1"]%string).
(** a Solver built without channel information *)
Definition solver_without_channels : Solver.t :=
  Solver.mk generator_unframed None (∅ : gset Z) None.

(** an integration that raises *)
Definition failing_body : M (Solver.t (Model := GeneratorModel.t)) unit :=
  raise (ValueError "the integration failed").

Definition failing_solve_lmde (m : GeneratorModel.t) (t_span : list scalar)
    (y0 : state_object) : result (list scalar * ndarray) :=
  Raise (ValueError "the integration failed").

(** solver.solve(t_span=[0, 1], y0=Array([1, 0]), signals=[3, 4]) with an
    integrator that raises *)
Definition solve_that_fails
    : Solver.t (Model := GeneratorModel.t) * result Solver.OdeResult :=
  Solver.solve failing_solve_lmde [(0, 0)%Z; (1, 0)%Z]
    (ArrayObject (Arr1 2 (vec2 (1, 0)%Z (0, 0)%Z))) signals_3_4 true
    solver_with_channels.

End gauss_integers.

Section gauss_rationals.
#[local] Existing Instance GaussQ.

Definition half : gaussq := (Q2Qc (1 # 2), Q2Qc 0).
Definition qzero : gaussq := (Q2Qc 0, Q2Qc 0).
Definition qone : gaussq := (Q2Qc 1, Q2Qc 0).

(** the maximally mixed state of a qubit, diag(1/2, 1/2) *)
Definition mixed_state : Matrix :=
  fun i j =>
    match i, j with
    | 0, 0 => half | 1, 1 => half
    | _, _ => qzero
    end.

Definition pauli_x : Matrix :=
  fun i j =>
    match i, j with
    | 0, 1 => qone | 1, 0 => qone
    | _, _ => qzero
    end.

(** the signal Signal(0.) *)
Definition zero_signal : Signal := fun _ => qzero.

(** GeneratorModel(operators=[X], drift=None, signals=[Signal(0.)]): the
    generator is 0 at every time *)
Definition zero_generator : GeneratorModel.t :=
  (GeneratorModel.init 2 [pauli_x] None (SpecList [zero_signal]) Frame.ArgNone
     "dense_operator_collection").1.

Definition zero_solver : Solver.t :=
  Solver.mk zero_generator None (∅ : gset Z) None.

(** solver.solve(t_span=[0, 1], y0=DensityMatrix(diag(1/2, 1/2)),
    signals=[Signal(0.)], convert_results=False) *)
Definition solve_mixed_state
    : Solver.t (Model := GeneratorModel.t) * result Solver.OdeResult :=
  Solver.solve HamiltonianModel.constant_solution [qzero; qone]
    (DensityMatrixObject (Arr2 2 2 mixed_state)) (SpecList [zero_signal]) false
    zero_solver.

(** the entry [k, i, j] of the states of a result *)
Definition result_entry (r : result Solver.OdeResult) (k i j : nat)
    : option (Q * Q) :=
  match r with
  | Ok res =>
      match Solver.result_y res with
      | Solver.StatesArray y => option_map gaussq_values (entry3 y k i j)
      | Solver.StatesList _ => None
      end
  | Raise _ => None
  end.

End gauss_rationals.
End Examples.

(** ** Scenarios for the pulse channels, the results and a simulation *)

Module Scenarios.
Section gauss_integers.
#[local] Existing Instance GaussZ.
Import Examples.

(** labels as lists of ints; the multiset of a label is its sorted list *)
Definition sorted_label (label : list Z) : list Z := merge_sort Z.le label.

(** results of a symmetric expansion, with the label [0, 1] listed twice *)
Definition dyson_results : PerturbationResults.t (Label := list Z) (Term := Z) :=
  PerturbationResults.mk "symmetric_dyson"
    [[0]; [0; 1]; [1; 1]; [0; 1]]%Z [10; 20; 30; 40]%Z.

(** [chan.lower()] on ASCII names *)
Definition lower_ascii (c : Ascii.ascii) : Ascii.ascii :=
  let n := Ascii.nat_of_ascii c in
  if (65 <=? n) && (n <=? 90) then Ascii.ascii_of_nat (n + 32) else c.

Fixpoint lower (s : string) : string :=
  match s with
  | EmptyString => EmptyString
  | String c rest => String (lower_ascii c) (lower rest)
  end.

(** Solver(hamiltonian_operators=[X, Z], hamiltonian_channels=["D0", "d1"],
    channel_carrier_freqs={"d0": 5., "D1": 5.1}, dt=0.1) *)
Definition configured_solver : result SolverChannels.t :=
  SolverChannels.__init__ lower (Some [sigma_x; sigma_z]) None
    (Some ["D0"; "d1"]%string) None
    (Some [("d0"%string, 5%Q); ("D1"%string, 5.1%Q)]) (Some 0.1%Q).

Definition configured_attributes : SolverChannels.t :=
  match configured_solver with
  | Ok attrs => attrs
  | Raise _ => SolverChannels.mk None None None None None
  end.

(** the LindbladModel of this revision as the model of a Solver, for its
    dimension and its evaluation mode *)
Definition lindblad_ops : Solver.ModelOps LindbladModel.t := {|
  Solver.is_LindbladModel := fun _ => true;
  Solver.model_dim := LindbladModel.dim;
  Solver.model_evaluation_mode := fun m =>
    default ""%string (LindbladModel._evaluation_mode m);
  Solver.model_signals := fun m =>
    SpecTuple (LindbladModel._hamiltonian_signals m)
              (LindbladModel._dissipator_signals m);
  Solver.model_set_signals := fun signals =>
    match signals with
    | SpecTuple h d => LindbladModel.set_signals (h, d)
    | _ => raise (TypeError "cannot unpack the signals")
    end
|}.

Definition lindblad_vectorized : LindbladModel.t :=
  lindblad_model_of Frame.ArgNone "dense_vectorized".

(** solver.solve(t_span=[0, 1], y0=Statevector([1, 0]), signals=[1, 2]) on
    the unframed GeneratorModel, with an integrator that returns the
    initial state at every time *)
Definition solve_statevector
    : Solver.t (Model := GeneratorModel.t) * result Solver.OdeResult :=
  Solver.solve HamiltonianModel.constant_solution [(0, 0)%Z; (1, 0)%Z]
    (StatevectorObject (Arr1 2 (vec2 (1, 0)%Z (0, 0)%Z))) signals_1_2 true
    solver_with_channels.

Definition solved_statevector : Solver.OdeResult :=
  match solve_statevector.2 with
  | Ok res => res
  | Raise _ => Solver.mk_OdeResult [] (Solver.StatesList [])
  end.

End gauss_integers.
End Scenarios.

(** ** Running the setters of the models symbolically *)

Ltac run_generator_model :=
  cbv [bind get modify ret raise lift
       GeneratorModel.set_frame GeneratorModel.leave_frame
       GeneratorModel.enter_frame GeneratorModel.drift GeneratorModel.set_drift
       GeneratorModel.evaluation_mode GeneratorModel.set_evaluation_mode
       GeneratorModel.with_operator_collection GeneratorModel.with_operators
       GeneratorModel.with_drift GeneratorModel.with_evaluation_mode
       GeneratorModel.with_frame GeneratorModel.with_signals
       GeneratorModel._operator_collection GeneratorModel._operators
       GeneratorModel._drift GeneratorModel._evaluation_mode
       GeneratorModel._frame GeneratorModel._signals
       GeneratorModel.hilbert_space_dimension
       DenseOperatorCollection.set_drift DenseOperatorCollection.operators
       DenseOperatorCollection.drift DenseOperatorCollection.num_operators
       fst snd].

Ltac run_generator_signals :=
  cbv [GeneratorModel.set_signals GeneratorModel.check_and_set_signals];
  run_generator_model.

Ltac run_lindblad_model :=
  cbv [bind get modify ret raise lift
       LindbladModel.set_frame LindbladModel.leave_frame
       LindbladModel.enter_frame LindbladModel.drift LindbladModel.set_drift
       LindbladModel.evaluation_mode LindbladModel.set_evaluation_mode
       LindbladModel.build_collection LindbladModel.set_signals
       LindbladModel.with_operator_collection
       LindbladModel.with_evaluation_mode
       LindbladModel.with_vectorized_operators
       LindbladModel.with_hamiltonian_operators
       LindbladModel.with_dissipator_operators LindbladModel.with_drift
       LindbladModel.with_signals LindbladModel.with_frame
       LindbladModel._operator_collection LindbladModel._evaluation_mode
       LindbladModel.vectorized_operators LindbladModel._hamiltonian_operators
       LindbladModel._dissipator_operators LindbladModel._drift
       LindbladModel._hamiltonian_signals LindbladModel._dissipator_signals
       LindbladModel._frame LindbladModel.dim
       LindbladModel.collection_cls
       LindbladModel.collection_hamiltonian_operators
       LindbladModel.collection_drift
       LindbladModel.collection_dissipator_operators
       fst snd].

(** * Properties *)

(** ** Sums and matrix products *)

Section LinAlgFacts.
Context {K : ScalarRing}.
Local Open Scope scalar_scope.
Add Ring scalar_ring_facts : (@scalar_ring K).

Lemma big_sum_ext (n : nat) (f g : nat -> scalar) :
  (forall i, (i < n)%nat -> f i = g i) -> big_sum f n = big_sum g n.
Proof.
  induction n as [|n IH]; intros H; simpl; [reflexivity|].
  rewrite IH, H by (intros; try apply H; lia). reflexivity.
Qed.

Lemma big_sum_plus (n : nat) (f g : nat -> scalar) :
  big_sum (fun i => f i + g i) n = big_sum f n + big_sum g n.
Proof. induction n as [|n IH]; simpl; [ring|]. rewrite IH. ring. Qed.

Lemma big_sum_scale_l (n : nat) (c : scalar) (f : nat -> scalar) :
  big_sum (fun i => c * f i) n = c * big_sum f n.
Proof. induction n as [|n IH]; simpl; [ring|]. rewrite IH. ring. Qed.

Lemma big_sum_scale_r (n : nat) (c : scalar) (f : nat -> scalar) :
  big_sum (fun i => f i * c) n = big_sum f n * c.
Proof. induction n as [|n IH]; simpl; [ring|]. rewrite IH. ring. Qed.

Lemma big_sum_zero (n : nat) (f : nat -> scalar) :
  (forall i, (i < n)%nat -> f i = 0) -> big_sum f n = 0.
Proof.
  induction n as [|n IH]; intros H; simpl; [reflexivity|].
  rewrite IH, H by (intros; try apply H; lia). ring.
Qed.

Lemma big_sum_swap (n m : nat) (f : nat -> nat -> scalar) :
  big_sum (fun i => big_sum (fun j => f i j) m) n
  = big_sum (fun j => big_sum (fun i => f i j) n) m.
Proof.
  induction n as [|n IH]; simpl.
  - symmetry. apply big_sum_zero. reflexivity.
  - rewrite IH, <- big_sum_plus. reflexivity.
Qed.

Lemma big_sum_delta_l (n i : nat) (f : nat -> scalar) :
  (i < n)%nat ->
  big_sum (fun k => (if Nat.eqb i k then 1 else 0) * f k) n = f i.
Proof.
  induction n as [|n IH]; intros Hi; [lia|]. simpl.
  destruct (Nat.eqb_spec i n) as [->|Hne].
  - rewrite big_sum_zero; [ring|]. intros k Hk.
    destruct (Nat.eqb_spec n k); [lia|ring].
  - rewrite IH by lia. ring.
Qed.

Lemma big_sum_delta_r (n j : nat) (f : nat -> scalar) :
  (j < n)%nat ->
  big_sum (fun k => f k * (if Nat.eqb k j then 1 else 0)) n = f j.
Proof.
  intros Hj. rewrite <- (big_sum_delta_l n j f Hj).
  apply big_sum_ext. intros k _. rewrite (Nat.eqb_sym k j). ring.
Qed.

Lemma mat_eq_equivalence (n : nat) : Equivalence (mat_eq n).
Proof.
  split.
  - intros A i j _ _. reflexivity.
  - intros A B H i j Hi Hj. symmetry. apply H; assumption.
  - intros A B C H1 H2 i j Hi Hj. rewrite H1, H2 by assumption. reflexivity.
Qed.
#[local] Existing Instance mat_eq_equivalence.

Lemma vec_eq_equivalence (n : nat) : Equivalence (vec_eq n).
Proof.
  split.
  - intros x i _. reflexivity.
  - intros x y H i Hi. symmetry. apply H; assumption.
  - intros x y z H1 H2 i Hi. rewrite H1, H2 by assumption. reflexivity.
Qed.
#[local] Existing Instance vec_eq_equivalence.

Lemma Mmult_proper (n : nat) :
  Proper (mat_eq n ==> mat_eq n ==> mat_eq n) (Mmult n).
Proof.
  intros A A' HA B B' HB i j Hi Hj. unfold Mmult.
  apply big_sum_ext. intros k Hk. rewrite HA, HB by assumption. reflexivity.
Qed.
#[local] Existing Instance Mmult_proper.

Lemma Mplus_proper (n : nat) :
  Proper (mat_eq n ==> mat_eq n ==> mat_eq n) Mplus.
Proof.
  intros A A' HA B B' HB i j Hi Hj. unfold Mplus.
  rewrite HA, HB by assumption. reflexivity.
Qed.
#[local] Existing Instance Mplus_proper.

Lemma Mminus_proper (n : nat) :
  Proper (mat_eq n ==> mat_eq n ==> mat_eq n) Mminus.
Proof.
  intros A A' HA B B' HB i j Hi Hj. unfold Mminus.
  rewrite HA, HB by assumption. reflexivity.
Qed.
#[local] Existing Instance Mminus_proper.

Lemma Mvec_proper (n : nat) :
  Proper (mat_eq n ==> vec_eq n ==> vec_eq n) (Mvec n).
Proof.
  intros A A' HA x x' Hx i Hi. unfold Mvec.
  apply big_sum_ext. intros k Hk. rewrite HA, Hx by assumption. reflexivity.
Qed.
#[local] Existing Instance Mvec_proper.

Lemma Mmult_assoc (n : nat) (A B C : Matrix) (i j : nat) :
  Mmult n (Mmult n A B) C i j = Mmult n A (Mmult n B C) i j.
Proof.
  unfold Mmult.
  transitivity (big_sum (fun k => big_sum (fun l => A i l * B l k * C k j) n) n).
  - apply big_sum_ext. intros k _. rewrite <- big_sum_scale_r. reflexivity.
  - rewrite big_sum_swap. apply big_sum_ext. intros l _.
    rewrite <- big_sum_scale_l. apply big_sum_ext. intros k _. ring.
Qed.

Lemma Mmult_assoc_eq (n : nat) (A B C : Matrix) :
  mat_eq n (Mmult n (Mmult n A B) C) (Mmult n A (Mmult n B C)).
Proof. intros i j _ _. apply Mmult_assoc. Qed.

Lemma Mmult_eye_l (n : nat) (A : Matrix) : mat_eq n (Mmult n eye A) A.
Proof.
  intros i j Hi Hj. unfold Mmult, eye.
  apply (big_sum_delta_l n i (fun k => A k j)). exact Hi.
Qed.

Lemma Mmult_eye_r (n : nat) (A : Matrix) : mat_eq n (Mmult n A eye) A.
Proof.
  intros i j Hi Hj. unfold Mmult, eye.
  apply (big_sum_delta_r n j (fun k => A i k)). exact Hj.
Qed.

Lemma Mvec_Mmult (n : nat) (A B : Matrix) (y : Vector) (i : nat) :
  Mvec n (Mmult n A B) y i = Mvec n A (Mvec n B y) i.
Proof.
  unfold Mvec, Mmult.
  transitivity (big_sum (fun k => big_sum (fun l => A i l * B l k * y k) n) n).
  - apply big_sum_ext. intros k _. rewrite <- big_sum_scale_r. reflexivity.
  - rewrite big_sum_swap. apply big_sum_ext. intros l _.
    rewrite <- big_sum_scale_l. apply big_sum_ext. intros k _. ring.
Qed.

Lemma Mvec_diag (n : nat) (d y : Vector) : vec_eq n (Mvec n (diag d) y) (Vmul d y).
Proof.
  intros i Hi. unfold Mvec, diag, Vmul.
  rewrite <- (big_sum_delta_l n i (fun k => d i * y k) Hi).
  apply big_sum_ext. intros k _. destruct (Nat.eqb i k); ring.
Qed.

Lemma Mplus_Mminus (n : nat) (A D : Matrix) : mat_eq n (Mplus (Mminus A D) D) A.
Proof. intros i j _ _. unfold Mplus, Mminus. ring. Qed.

(** conjugating by a unitary matrix and back *)
Lemma conjugate_back (n : nat) (B X : Matrix) :
  unitary n B ->
  mat_eq n (Mmult n (Mmult n B (Mmult n (Mmult n (adjoint B) X) B)) (adjoint B)) X.
Proof.
  intros [HBB _].
  rewrite (Mmult_assoc_eq n (adjoint B) X B).
  rewrite <- (Mmult_assoc_eq n B (adjoint B) (Mmult n X B)).
  rewrite HBB, Mmult_eye_l.
  rewrite (Mmult_assoc_eq n X B (adjoint B)).
  rewrite HBB, Mmult_eye_r. reflexivity.
Qed.

End LinAlgFacts.

#[global] Existing Instance mat_eq_equivalence.
#[global] Existing Instance vec_eq_equivalence.
#[global] Existing Instance Mmult_proper.
#[global] Existing Instance Mplus_proper.
#[global] Existing Instance Mminus_proper.
#[global] Existing Instance Mvec_proper.

(** ** Frames: changing basis and back *)

Section FrameFacts.
Context {K : ScalarRing}.
Local Open Scope scalar_scope.
Add Ring scalar_ring_frame : (@scalar_ring K).

Lemma operator_into_frame_basis_proper (n : nat) (f : Frame.t) :
  Proper (mat_eq n ==> mat_eq n) (Frame.operator_into_frame_basis n f).
Proof.
  intros X Y H. unfold Frame.operator_into_frame_basis.
  destruct (Frame.frame_diag f); [|exact H]. rewrite H. reflexivity.
Qed.
#[local] Existing Instance operator_into_frame_basis_proper.

Lemma operator_out_of_frame_basis_proper (n : nat) (f : Frame.t) :
  Proper (mat_eq n ==> mat_eq n) (Frame.operator_out_of_frame_basis n f).
Proof.
  intros X Y H. unfold Frame.operator_out_of_frame_basis.
  destruct (Frame.frame_diag f); [|exact H]. rewrite H. reflexivity.
Qed.
#[local] Existing Instance operator_out_of_frame_basis_proper.

Lemma out_of_into_frame_basis (n : nat) (f : Frame.t) (X : Matrix) :
  Frame.wf n f ->
  mat_eq n (Frame.operator_out_of_frame_basis n f
              (Frame.operator_into_frame_basis n f X)) X.
Proof.
  unfold Frame.wf, Frame.operator_out_of_frame_basis,
    Frame.operator_into_frame_basis, Frame.frame_basis_adjoint.
  destruct (Frame.frame_diag f); intros H; [|reflexivity].
  rewrite (Mmult_assoc_eq n (Frame.frame_basis f)).
  rewrite <- (Mmult_assoc_eq n (Frame.frame_basis f)
                (Mmult n (Mmult n (adjoint (Frame.frame_basis f)) X)
                   (Frame.frame_basis f))).
  apply conjugate_back. exact H.
Qed.

Lemma into_frame_basis_no_frame (n : nat) (f : Frame.t) (X : Matrix) :
  Frame.frame_diag f = None -> Frame.operator_into_frame_basis n f X = X.
Proof. unfold Frame.operator_into_frame_basis. intros ->. reflexivity. Qed.

Lemma out_of_frame_basis_no_frame (n : nat) (f : Frame.t) (X : Matrix) :
  Frame.frame_diag f = None -> Frame.operator_out_of_frame_basis n f X = X.
Proof. unfold Frame.operator_out_of_frame_basis. intros ->. reflexivity. Qed.

(** the operators, taken out of the basis of the frame they are stored in *)
Lemma operators_out_of_frame_basis (n : nat) (f : Frame.t) (stored lab : list Matrix) :
  Frame.wf n f ->
  operators_in_frame_basis n f stored lab ->
  same_operators n (map (Frame.operator_out_of_frame_basis n f) stored) lab.
Proof.
  intros Hwf H. induction H as [|s l stored lab Hsl _ IH]; simpl.
  - constructor.
  - constructor; [|exact IH]. rewrite Hsl. apply out_of_into_frame_basis, Hwf.
Qed.

Lemma operators_into_frame_basis (n : nat) (f : Frame.t) (ops lab : list Matrix) :
  same_operators n ops lab ->
  operators_in_frame_basis n f (map (Frame.operator_into_frame_basis n f) ops) lab.
Proof.
  intros H. induction H as [|s l ops lab Hsl _ IH]; simpl.
  - constructor.
  - constructor; [|exact IH]. rewrite Hsl. reflexivity.
Qed.

Lemma operators_no_frame (n : nat) (f : Frame.t) (stored lab : list Matrix) :
  Frame.frame_diag f = None ->
  operators_in_frame_basis n f stored lab <-> same_operators n stored lab.
Proof.
  intros Hf. unfold operators_in_frame_basis, same_operators.
  split; intros H; induction H; constructor; auto;
    rewrite into_frame_basis_no_frame in * by exact Hf; assumption.
Qed.

Lemma same_operators_refl (n : nat) (ops : list Matrix) : same_operators n ops ops.
Proof. induction ops; constructor; [reflexivity|assumption]. Qed.

Lemma same_operators_trans (n : nat) (a b c : list Matrix) :
  same_operators n a b -> same_operators n b c -> same_operators n a c.
Proof.
  intros H. revert c. induction H as [|x y a b Hxy _ IH]; intros c Hc;
    inversion Hc; subst; constructor.
  - etransitivity; eassumption.
  - apply IH. assumption.
Qed.

Lemma same_operators_sym (n : nat) (a b : list Matrix) :
  same_operators n a b -> same_operators n b a.
Proof. intros H. induction H; constructor; [symmetry|]; assumption. Qed.

(** the drift, with the frame's term added back and taken out of the basis
    ([e] is the diagonal the setter adds, equal to the one folded in) *)
Lemma drift_out_of_frame (n : nat) (shift : scalar) (f : Frame.t)
    (d e : Vector) (stored lab : Matrix) :
  Frame.frame_diag f = Some d ->
  (forall k, e k = shift * d k) ->
  Frame.wf n f ->
  drift_folded n shift f stored lab ->
  mat_eq n (Frame.operator_out_of_frame_basis n f (Mplus stored (diag e))) lab.
Proof.
  intros Hd He Hwf H. unfold drift_folded in H. rewrite Hd in H.
  rewrite <- (out_of_into_frame_basis n f lab Hwf).
  apply operator_out_of_frame_basis_proper.
  intros i j Hi Hj. unfold Mplus. rewrite (H i j Hi Hj).
  unfold Mminus, diag. rewrite He. destruct (Nat.eqb i j); ring.
Qed.

Lemma drift_into_frame (n : nat) (shift : scalar) (f : Frame.t)
    (d e : Vector) (dr lab : Matrix) :
  Frame.frame_diag f = Some d ->
  (forall k, e k = shift * d k) ->
  mat_eq n dr lab ->
  drift_folded n shift f
    (Mminus (Frame.operator_into_frame_basis n f dr) (diag e)) lab.
Proof.
  intros Hd He H. unfold drift_folded. rewrite Hd.
  intros i j Hi Hj. unfold Mminus, diag.
  rewrite (operator_into_frame_basis_proper n f _ _ H i j Hi Hj), He.
  reflexivity.
Qed.

End FrameFacts.

#[global] Existing Instance operator_into_frame_basis_proper.
#[global] Existing Instance operator_out_of_frame_basis_proper.

(** ** The frame setters *)

Section FrameSetterFacts.
Context {K : ScalarRing}.
Local Open Scope scalar_scope.
Add Ring scalar_ring_setter : (@scalar_ring K).

(** GeneratorModel.frame (setter) keeps the invariant, for the same
    user-supplied operators and drift, and installs the new frame. *)
Lemma generator_set_frame_invariant (L : list Matrix) (d0 : Matrix)
    (m : GeneratorModel.t) (a : Frame.arg) :
  generator_model L d0 m ->
  Frame.wf (GeneratorModel.hilbert_space_dimension m) (Frame.init a) ->
  (GeneratorModel.set_frame a m).2 = Ok tt
  /\ generator_model L d0 (GeneratorModel.set_frame a m).1
  /\ GeneratorModel._frame (GeneratorModel.set_frame a m).1 = Some (Frame.init a)
  /\ GeneratorModel.hilbert_space_dimension (GeneratorModel.set_frame a m).1
     = GeneratorModel.hilbert_space_dimension m
  /\ GeneratorModel._signals (GeneratorModel.set_frame a m).1
     = GeneratorModel._signals m.
Proof.
  destruct m as [oc ops dr mode fr sigs n].
  unfold generator_model; simpl.
  intros (f & Hf & Hwf & Hops & Hdr & Hmode & Hoc) Hwf'. subst.
  assert (H1 : forall d : Vector, forall k, d k = 1 * d k) by (intros; ring).
  destruct (Frame.frame_diag f) as [d|] eqn:Ed;
    destruct (Frame.frame_diag (Frame.init a)) as [d'|] eqn:Ed'.
  all: run_generator_model; rewrite ?Ed; run_generator_model; rewrite ?Ed';
    run_generator_model; simpl.
  all: split; [reflexivity|]; split;
    [|split; [reflexivity|split; reflexivity]].
  all: exists (Frame.init a); simpl.
  all: split; [reflexivity|]; split; [exact Hwf'|].
  all: split; [|split; [|split; reflexivity]].
  - apply operators_into_frame_basis, operators_out_of_frame_basis; assumption.
  - apply (drift_into_frame n 1 (Frame.init a) d' d'); auto.
    apply (drift_out_of_frame n 1 f d d); auto.
  - apply operators_no_frame; [exact Ed'|].
    apply operators_out_of_frame_basis; assumption.
  - unfold drift_folded. rewrite Ed'.
    apply (drift_out_of_frame n 1 f d d); auto.
  - apply operators_into_frame_basis. apply operators_no_frame in Hops; assumption.
  - apply (drift_into_frame n 1 (Frame.init a) d' d'); auto.
    unfold drift_folded in Hdr. rewrite Ed in Hdr. exact Hdr.
  - apply operators_no_frame; [exact Ed'|].
    apply operators_no_frame in Hops; assumption.
  - unfold drift_folded in *. rewrite Ed in Hdr. rewrite Ed'. exact Hdr.
Qed.

Lemma dissipators_out_of_frame_basis (n : nat) (f : Frame.t)
    (stored lab : option (list Matrix)) :
  Frame.wf n f ->
  dissipators_in_frame_basis n f stored lab ->
  same_dissipators n
    (option_map (map (Frame.operator_out_of_frame_basis n f)) stored) lab.
Proof.
  intros Hwf H. destruct stored, lab; simpl in *; try exact H.
  apply operators_out_of_frame_basis; assumption.
Qed.

Lemma dissipators_into_frame_basis (n : nat) (f : Frame.t)
    (ops lab : option (list Matrix)) :
  same_dissipators n ops lab ->
  dissipators_in_frame_basis n f
    (option_map (map (Frame.operator_into_frame_basis n f)) ops) lab.
Proof.
  intros H. destruct ops, lab; simpl in *; try exact H.
  apply operators_into_frame_basis; assumption.
Qed.

Lemma dissipators_no_frame (n : nat) (f : Frame.t)
    (stored lab : option (list Matrix)) :
  Frame.frame_diag f = None ->
  dissipators_in_frame_basis n f stored lab <-> same_dissipators n stored lab.
Proof.
  intros Hf. destruct stored, lab; simpl; try tauto.
  apply operators_no_frame, Hf.
Qed.

(** LindbladModel.frame (setter) keeps the invariant and installs the new
    frame. *)
Lemma lindblad_set_frame_invariant (LH : list Matrix)
    (LD : option (list Matrix)) (d0 : Matrix) (m : LindbladModel.t)
    (a : Frame.arg) :
  lindblad_model LH LD d0 m ->
  Frame.wf (LindbladModel.dim m) (Frame.init a) ->
  (LindbladModel.set_frame a m).2 = Ok tt
  /\ lindblad_model LH LD d0 (LindbladModel.set_frame a m).1
  /\ LindbladModel._frame (LindbladModel.set_frame a m).1 = Some (Frame.init a)
  /\ LindbladModel.dim (LindbladModel.set_frame a m).1 = LindbladModel.dim m.
Proof.
  destruct m as [oc mode vec hops dops dr hs ds fr n].
  unfold lindblad_model; simpl.
  intros (f & Hf & Hwf & Hops & Hdops & Hdr & Hmode & Hoc) Hwf'. subst.
  assert (Hfinal :
    forall hops' dops' dr' oc' vec',
      operators_in_frame_basis n (Frame.init a) hops' LH ->
      dissipators_in_frame_basis n (Frame.init a) dops' LD ->
      drift_folded n simag (Frame.init a) dr' d0 ->
      let r := (let* mode0 := LindbladModel.evaluation_mode in
                LindbladModel.set_evaluation_mode mode0)
                 (LindbladModel.mk oc' mode vec' hops' dops' dr' hs ds
                    (Some (Frame.init a)) n) in
      r.2 = Ok tt /\ lindblad_model LH LD d0 r.1
      /\ LindbladModel._frame r.1 = Some (Frame.init a)
      /\ LindbladModel.dim r.1 = n).
  { intros hops' dops' dr' oc' vec' H1 H2 H3.
    destruct mode as [mode|].
    - run_lindblad_model. simpl in Hmode.
      destruct (String.eqb mode "dense") eqn:E1;
        [|destruct (String.eqb mode "sparse") eqn:E2;
          [|destruct (String.eqb mode "dense_vectorized") eqn:E3;
            [|discriminate Hmode]]].
      all: simpl; split; [reflexivity|]; split; [|split; reflexivity].
      all: exists (Frame.init a); simpl.
      all: repeat (split; [first [reflexivity|assumption]|]).
      all: split; [rewrite ?E1, ?E2, ?E3; reflexivity|].
      all: intros _; eexists; reflexivity.
    - run_lindblad_model. simpl.
      split; [reflexivity|]; split; [|split; reflexivity].
      exists (Frame.init a); simpl.
      repeat (split; [first [reflexivity|assumption]|]).
      intros Hne. exfalso. apply Hne. reflexivity. }
  assert (Hi : forall d : Vector, forall k, simag * d k = simag * d k)
    by reflexivity.
  destruct (Frame.frame_diag f) as [d|] eqn:Ed;
    destruct (Frame.frame_diag (Frame.init a)) as [d'|] eqn:Ed'.
  all: unfold LindbladModel.set_frame.
  all: cbv [bind get modify ret LindbladModel.leave_frame
            LindbladModel.enter_frame LindbladModel._frame LindbladModel.dim
            LindbladModel.drift LindbladModel.set_drift
            LindbladModel.with_drift LindbladModel.with_frame
            LindbladModel.with_hamiltonian_operators
            LindbladModel.with_dissipator_operators
            LindbladModel.with_operator_collection
            LindbladModel._operator_collection LindbladModel._evaluation_mode
            LindbladModel.vectorized_operators
            LindbladModel._hamiltonian_operators
            LindbladModel._dissipator_operators LindbladModel._drift
            LindbladModel._hamiltonian_signals LindbladModel._dissipator_signals].
  all: rewrite ?Ed; cbv beta iota; rewrite ?Ed'; cbv beta iota.
  all: destruct oc as [oc|]; cbv beta iota.
  all: apply Hfinal.
  all: try (apply operators_into_frame_basis, operators_out_of_frame_basis;
            assumption).
  all: try (apply dissipators_into_frame_basis, dissipators_out_of_frame_basis;
            assumption).
  all: try (apply (drift_into_frame n simag (Frame.init a) d'
                     (fun k => simag * d' k)); auto;
            apply (drift_out_of_frame n simag f d (fun k => simag * d k)); auto).
  all: try (apply operators_no_frame; [exact Ed'|];
            apply operators_out_of_frame_basis; assumption).
  all: try (apply dissipators_no_frame; [exact Ed'|];
            apply dissipators_out_of_frame_basis; assumption).
  all: try (unfold drift_folded; rewrite Ed';
            apply (drift_out_of_frame n simag f d (fun k => simag * d k)); auto).
  all: try (apply operators_into_frame_basis;
            apply operators_no_frame in Hops; assumption).
  all: try (apply dissipators_into_frame_basis;
            apply dissipators_no_frame in Hdops; assumption).
  all: try (apply (drift_into_frame n simag (Frame.init a) d'
                     (fun k => simag * d' k)); auto;
            unfold drift_folded in Hdr; rewrite Ed in Hdr; exact Hdr).
  all: try assumption.
  all: try (apply operators_no_frame; [exact Ed'|];
            apply operators_no_frame in Hops; assumption).
  all: try (apply dissipators_no_frame; [exact Ed'|];
            apply dissipators_no_frame in Hdops; assumption).
  all: try (unfold drift_folded in *; rewrite Ed in Hdr; rewrite Ed';
            exact Hdr).
Qed.

(** GeneratorModel.__init__ leaves a model that satisfies the invariant for
    the operators and the drift it was given, whatever the signals are. *)
Lemma generator_init_invariant (n : nat) (operators : list Matrix)
    (drift : option Matrix) (signals : signals_spec) (frame : Frame.arg) :
  Frame.wf n (Frame.init frame) ->
  generator_model operators (default Mzero drift)
    (GeneratorModel.init n operators drift signals frame
       "dense_operator_collection").1
  /\ GeneratorModel._frame
       (GeneratorModel.init n operators drift signals frame
          "dense_operator_collection").1 = Some (Frame.init frame)
  /\ GeneratorModel.hilbert_space_dimension
       (GeneratorModel.init n operators drift signals frame
          "dense_operator_collection").1 = n.
Proof.
  intros Hwf. unfold GeneratorModel.init.
  assert (Hsig : forall m : GeneratorModel.t,
    let r := GeneratorModel.set_signals signals m in
    GeneratorModel._operator_collection r.1 = GeneratorModel._operator_collection m
    /\ GeneratorModel._operators r.1 = GeneratorModel._operators m
    /\ GeneratorModel._drift r.1 = GeneratorModel._drift m
    /\ GeneratorModel._evaluation_mode r.1 = GeneratorModel._evaluation_mode m
    /\ GeneratorModel._frame r.1 = GeneratorModel._frame m
    /\ GeneratorModel.hilbert_space_dimension r.1
       = GeneratorModel.hilbert_space_dimension m).
  { intros [oc ops dr mode fr sigs k].
    destruct signals as [|l|l|h d]; run_generator_signals; simpl;
      try destruct oc as [oc|]; simpl;
      try match goal with
          | |- context [if ?c then _ else _] => destruct c
          end; simpl; repeat split; reflexivity. }
  assert (H1 : forall d : Vector, forall k, d k = 1 * d k) by (intros; ring).
  destruct (Frame.frame_diag (Frame.init frame)) as [d|] eqn:Ed.
  all: repeat (progress (run_generator_model; cbn [Frame.init]; rewrite ?Ed));
    simpl.
  all: match goal with
       | |- context [GeneratorModel.set_signals ?sg ?m] =>
           destruct (Hsig m) as (E1 & E2 & E3 & E4 & E5 & E6);
           destruct (GeneratorModel.set_signals sg m) as [m' r];
           simpl in *
       end.
  all: split; [|split; assumption].
  all: exists (Frame.init frame); rewrite E1, E2, E3, E4, E6.
  all: repeat (split; [first [assumption|reflexivity]|]).
  all: split; [|split; [|split; reflexivity]].
  - apply operators_into_frame_basis, same_operators_refl.
  - apply (drift_into_frame n 1 (Frame.init frame) d d); auto. reflexivity.
  - apply operators_no_frame; [exact Ed|]. apply same_operators_refl.
  - unfold drift_folded. rewrite Ed. reflexivity.
Qed.

(** LindbladModel.__init__, when it returns, leaves a model that satisfies
    the invariant for the operators and the drift it was given. *)
Lemma lindblad_init_invariant (n : nat) (hamiltonian_operators : list Matrix)
    (hamiltonian_signals : signals_spec)
    (dissipator_operators : option (list Matrix))
    (dissipator_signals : signals_spec) (drift : option Matrix)
    (frame : Frame.arg) (evaluation_mode : option string) :
  Frame.wf n (Frame.init frame) ->
  (LindbladModel.init n hamiltonian_operators hamiltonian_signals
     dissipator_operators dissipator_signals drift frame evaluation_mode).2
  = Ok tt ->
  lindblad_model hamiltonian_operators dissipator_operators
    (default Mzero drift)
    (LindbladModel.init n hamiltonian_operators hamiltonian_signals
       dissipator_operators dissipator_signals drift frame evaluation_mode).1
  /\ LindbladModel._frame
       (LindbladModel.init n hamiltonian_operators hamiltonian_signals
          dissipator_operators dissipator_signals drift frame
          evaluation_mode).1 = Some (Frame.init frame)
  /\ LindbladModel.dim
       (LindbladModel.init n hamiltonian_operators hamiltonian_signals
          dissipator_operators dissipator_signals drift frame
          evaluation_mode).1 = n.
Proof.
  intros Hwf. unfold LindbladModel.init.
  destruct drift as [drift|];
    destruct hamiltonian_signals as [|hl|hl|? ?];
    destruct dissipator_signals as [|dl|dl|? ?];
    destruct (Frame.frame_diag (Frame.init frame)) as [d|] eqn:Ed.
  all: repeat (progress (run_lindblad_model; rewrite ?Ed)); simpl.
  all: try discriminate.
  all: try (destruct dissipator_operators as [dops|];
            repeat (progress (run_lindblad_model; rewrite ?Ed)); simpl).
  all: destruct evaluation_mode as [mode|]; simpl.
  all: try (destruct (String.eqb mode "dense") eqn:E1;
            [|destruct (String.eqb mode "sparse") eqn:E2;
              [|destruct (String.eqb mode "dense_vectorized") eqn:E3]]).
  all: simpl; try discriminate; intros _.
  all: split; [|split; reflexivity].
  all: exists (Frame.init frame); simpl.
  all: split; [reflexivity|]; split; [exact Hwf|].
  all: split; [first [apply operators_into_frame_basis, same_operators_refl
                     |apply operators_no_frame;
                      [exact Ed|apply same_operators_refl]]|].
  all: split;
    [first [first [apply dissipators_into_frame_basis
                  |apply dissipators_no_frame; [exact Ed|]];
            try destruct dissipator_operators; simpl;
            solve [auto using same_operators_refl]
           |simpl;
            first [exact I
                  |apply operators_into_frame_basis, same_operators_refl
                  |apply operators_no_frame;
                   [exact Ed|apply same_operators_refl]]]|].
  all: split;
    [first [apply (drift_into_frame n simag (Frame.init frame) d
                     (fun k => simag * d k)); auto; reflexivity
           |unfold drift_folded; rewrite Ed; reflexivity]|].
  all: split; [simpl; rewrite ?E1, ?E2, ?E3; reflexivity|].
  all: first [intros _; eexists; reflexivity
             |intros Hne; exfalso; apply Hne; reflexivity].
Qed.

End FrameSetterFacts.

(** ** The claims on the frame setters *)

Section FrameClaims.
Context {K : ScalarRing}.
Local Open Scope scalar_scope.

(** the setters of the signals and of the evaluation mode keep the
    invariant *)
Lemma generator_set_signals_invariant (L : list Matrix) (d0 : Matrix)
    (m : GeneratorModel.t) (signals : signals_spec) :
  generator_model L d0 m ->
  generator_model L d0 (GeneratorModel.set_signals signals m).1.
Proof.
  destruct m as [oc ops dr mode fr sigs n]. unfold generator_model. simpl.
  intros (f & Hf & Hwf & Hops & Hdr & Hmode & Hoc). subst.
  exists f.
  destruct signals as [|l|l|h d]; run_generator_signals; simpl;
    try match goal with
        | |- context [if ?c then _ else _] => destruct c
        end; simpl; repeat (split; [first [reflexivity|assumption]|]);
    reflexivity.
Qed.

Lemma generator_set_evaluation_mode_invariant (L : list Matrix) (d0 : Matrix)
    (m : GeneratorModel.t) (mode : string) :
  generator_model L d0 m ->
  generator_model L d0 (GeneratorModel.set_evaluation_mode mode m).1.
Proof.
  destruct m as [oc ops dr md fr sigs n]. unfold generator_model. simpl.
  intros (f & Hf & Hwf & Hops & Hdr & Hmode & Hoc). subst.
  exists f. unfold GeneratorModel.set_evaluation_mode.
  destruct (String.eqb_spec mode "dense_operator_collection") as [->|Hne];
    run_generator_model; simpl;
    repeat (split; [first [reflexivity|assumption]|]); reflexivity.
Qed.



(** a drift assigned while the model has no frame is the drift the model
    stores, and the invariant holds for it *)
Lemma generator_set_drift_invariant (L : list Matrix) (d0 : Matrix)
    (m : GeneratorModel.t) (new_drift : option Matrix) :
  generator_model L d0 m ->
  no_frame (GeneratorModel._frame m) ->
  generator_model L (default Mzero new_drift)
    (GeneratorModel.set_drift new_drift m).1.
Proof.
  destruct m as [oc ops dr mode fr sigs n]. unfold generator_model. simpl.
  intros (f & Hf & Hwf & Hops & Hdr & Hmode & Hoc) (f0 & Hf0 & Hnone). subst.
  injection Hf0 as <-. exists f.
  run_generator_model. simpl.
  repeat (split; [first [reflexivity|assumption]|]).
  split; [|split; reflexivity].
  unfold drift_folded. rewrite Hnone. intros i j _ _. reflexivity.
Qed.


(** every model a program holds satisfies the invariant *)
Lemma generator_reachable_invariant (L : list Matrix) (d0 : option Matrix)
    (m : GeneratorModel.t) :
  generator_reachable L d0 m -> generator_model L (default Mzero d0) m.
Proof.
  induction 1 as [d0 n signals frame Hwf _|d0 m a _ IH Hwf|d0 m signals _ IH
                 |d0 m mode _ IH|d0 m new_drift _ IH Hnf].
  - apply generator_init_invariant. exact Hwf.
  - apply generator_set_frame_invariant; assumption.
  - apply generator_set_signals_invariant. exact IH.
  - apply generator_set_evaluation_mode_invariant. exact IH.
  - apply generator_set_drift_invariant with (d0 := default Mzero d0);
      assumption.
Qed.





(** C2 (amended).  For a GeneratorModel and a LindbladModel whose frame is
    not set, setting the frame to [a] (resp. [b]) and then to None returns
    both times and leaves the stored operators and the stored drift equal
    to what they were. *)
Theorem frame_roundtrip_restores_unframed_model
    (L : list Matrix) (d0 : Matrix) (m : GeneratorModel.t) (a : Frame.arg)
    (LH : list Matrix) (LD : option (list Matrix)) (e0 : Matrix)
    (lm : LindbladModel.t) (b : Frame.arg) :
  generator_model L d0 m ->
  no_frame (GeneratorModel._frame m) ->
  Frame.wf (GeneratorModel.hilbert_space_dimension m) (Frame.init a) ->
  lindblad_model LH LD e0 lm ->
  no_frame (LindbladModel._frame lm) ->
  Frame.wf (LindbladModel.dim lm) (Frame.init b) ->
  generator_roundtrip_restores a m /\ lindblad_roundtrip_restores b lm.
Proof.
  intros Hm Hnf Ha Hlm Hlnf Hb. split.
  - unfold generator_roundtrip_restores. cbv zeta.
    destruct (generator_set_frame_invariant L d0 m a Hm Ha)
      as (Hr1 & Hinv1 & Hf1 & Hn1 & _).
    assert (Hnone : Frame.wf
              (GeneratorModel.hilbert_space_dimension
                 (GeneratorModel.set_frame a m).1) (Frame.init Frame.ArgNone))
      by exact I.
    destruct (generator_set_frame_invariant L d0 _ Frame.ArgNone Hinv1 Hnone)
      as (Hr2 & Hinv2 & Hf2 & Hn2 & _).
    split; [exact Hr1|]. split; [exact Hr2|].
    destruct Hinv2 as (f2 & Hf2' & _ & Hops2 & Hdr2 & _).
    rewrite Hf2 in Hf2'. injection Hf2' as <-.
    rewrite Hn2, Hn1 in *.
    destruct Hm as (f & Hf & _ & Hops & Hdr & _).
    destruct Hnf as (f0 & Hf0 & Hdiag). rewrite Hf in Hf0. injection Hf0 as <-.
    apply operators_no_frame in Hops2; [|reflexivity].
    apply operators_no_frame in Hops; [|exact Hdiag].
    unfold drift_folded in *. rewrite Hdiag in Hdr. simpl in Hdr2.
    split.
    + eapply same_operators_trans; [exact Hops2|].
      apply same_operators_sym. exact Hops.
    + rewrite Hdr2, Hdr. reflexivity.
  - unfold lindblad_roundtrip_restores. cbv zeta.
    destruct (lindblad_set_frame_invariant LH LD e0 lm b Hlm Hb)
      as (Hr1 & Hinv1 & Hf1 & Hn1).
    assert (Hnone : Frame.wf
              (LindbladModel.dim (LindbladModel.set_frame b lm).1)
              (Frame.init Frame.ArgNone))
      by exact I.
    destruct (lindblad_set_frame_invariant LH LD e0 _ Frame.ArgNone Hinv1 Hnone)
      as (Hr2 & Hinv2 & Hf2 & Hn2).
    split; [exact Hr1|]. split; [exact Hr2|].
    destruct Hinv2 as (f2 & Hf2' & _ & Hops2 & Hdops2 & Hdr2 & _).
    rewrite Hf2 in Hf2'. injection Hf2' as <-.
    rewrite Hn2, Hn1 in *.
    destruct Hlm as (f & Hf & _ & Hops & Hdops & Hdr & _).
    destruct Hlnf as (f0 & Hf0 & Hdiag). rewrite Hf in Hf0. injection Hf0 as <-.
    apply operators_no_frame in Hops2; [|reflexivity].
    apply operators_no_frame in Hops; [|exact Hdiag].
    apply dissipators_no_frame in Hdops2; [|reflexivity].
    apply dissipators_no_frame in Hdops; [|exact Hdiag].
    unfold drift_folded in *. rewrite Hdiag in Hdr. simpl in Hdr2.
    split; [|split].
    + eapply same_operators_trans; [exact Hops2|].
      apply same_operators_sym. exact Hops.
    + destruct (LindbladModel._dissipator_operators
                  (LindbladModel.set_frame Frame.ArgNone
                     (LindbladModel.set_frame b lm).1).1) as [x|],
               (LindbladModel._dissipator_operators lm) as [y|], LD as [z|];
        simpl in *; try tauto.
      eapply same_operators_trans; [exact Hdops2|].
      apply same_operators_sym. exact Hdops.
    + rewrite Hdr2, Hdr. reflexivity.
Qed.

End FrameClaims.

(** ** Evaluating the models *)

Section EvaluationClaims.
Context {K : ScalarRing}.
Local Open Scope scalar_scope.
Add Ring scalar_ring_eval : (@scalar_ring K).

Lemma Mvec_Mmult_eq (n : nat) (A B : Matrix) (y : Vector) :
  vec_eq n (Mvec n (Mmult n A B) y) (Mvec n A (Mvec n B y)).
Proof. intros i _. apply Mvec_Mmult. Qed.

(** rotating the operator, or rotating the state before and after *)
Lemma rotated_operator_on_state (n : nat) (d : Vector) (time : scalar)
    (A : Matrix) (y : Vector) :
  vec_eq n
    (Mvec n (Mmult n (Mmult n (diag (Frame.neg_phases time d)) A)
                     (diag (Frame.phases time d))) y)
    (Vmul (Frame.neg_phases time d)
          (Mvec n A (Vmul (Frame.phases time d) y))).
Proof.
  rewrite Mvec_Mmult_eq, Mvec_Mmult_eq, Mvec_diag.
  intros i Hi. unfold Vmul. f_equal.
  apply Mvec_proper; [reflexivity|apply Mvec_diag|exact Hi].
Qed.

(** C3.  For a GeneratorModel as its constructor and frame setter leave it,
    with signals set, [evaluate_generator] and [evaluate_rhs] both return,
    for every time, state and value of [in_frame_basis], and the result of
    [evaluate_rhs(t, y, in_frame_basis)] is the product of the result of
    [evaluate_generator(t, in_frame_basis)] with [y]. *)
Theorem evaluate_rhs_is_generator_times_state
    (L : list Matrix) (d0 : Matrix) (m : GeneratorModel.t) (sl : SignalList)
    (time : scalar) (y : Vector) (in_frame_basis : bool) :
  generator_model L d0 m ->
  GeneratorModel._signals m = Some sl ->
  exists (G : Matrix) (r : Vector),
    GeneratorModel.evaluate_generator m time in_frame_basis = Ok G
    /\ GeneratorModel.evaluate_rhs m time y in_frame_basis = Ok r
    /\ vec_eq (GeneratorModel.hilbert_space_dimension m) r
         (Mvec (GeneratorModel.hilbert_space_dimension m) G y).
Proof.
  intros (f & Hf & _ & _ & _ & _ & Hoc) Hsl.
  unfold GeneratorModel.evaluate_generator, GeneratorModel.evaluate_rhs.
  rewrite Hsl, Hoc, Hf. cbv zeta.
  eexists. eexists. split; [reflexivity|]. split; [reflexivity|].
  set (n := GeneratorModel.hilbert_space_dimension m).
  set (A := DenseOperatorCollection.call _ _).
  unfold Frame.operator_into_frame, Frame.state_out_of_frame,
    Frame.state_into_frame, Frame.operator_out_of_frame_basis,
    Frame.state_out_of_frame_basis, Frame.state_into_frame_basis.
  destruct (Frame.frame_diag f) as [d|]; [|reflexivity].
  destruct in_frame_basis; cbv zeta.
  - symmetry. apply rotated_operator_on_state.
  - rewrite Mvec_Mmult_eq, Mvec_Mmult_eq.
    apply Mvec_proper; [reflexivity|].
    symmetry. apply rotated_operator_on_state.
Qed.

(** C7.  A GeneratorModel whose [_signals] is None raises QiskitError from
    [evaluate_generator] and from [evaluate_rhs], for every time, state and
    value of [in_frame_basis]. *)
Theorem evaluate_without_signals_raises
    (m : GeneratorModel.t) (time : scalar) (y : Vector) (in_frame_basis : bool) :
  GeneratorModel._signals m = None ->
  GeneratorModel.evaluate_generator m time in_frame_basis
  = Raise (QiskitError "GeneratorModel cannot be evaluated without signals.")
  /\ GeneratorModel.evaluate_rhs m time y in_frame_basis
     = Raise (QiskitError "GeneratorModel cannot be evaluated without signals.").
Proof.
  intros H. unfold GeneratorModel.evaluate_generator, GeneratorModel.evaluate_rhs.
  rewrite H. split; reflexivity.
Qed.

(** the signals of a GeneratorModel are None when they were never given
    ([__init__] with [signals=None]) and when they are set to None *)
Lemma signals_none_after_init (n : nat) (operators : list Matrix)
    (drift : option Matrix) (frame : Frame.arg) (mode : string) :
  GeneratorModel._signals
    (GeneratorModel.init n operators drift SpecNone frame mode).1 = None.
Proof.
  unfold GeneratorModel.init.
  destruct (Frame.frame_diag (Frame.init frame)) as [d|] eqn:Ed;
    destruct (String.eqb mode "dense_operator_collection") eqn:Em.
  all: repeat (progress (run_generator_signals; cbn [Frame.init];
                         rewrite ?Ed, ?Em)); simpl.
  all: try reflexivity.
  all: rewrite ?Em; reflexivity.
Qed.

Lemma signals_none_after_set (m : GeneratorModel.t) :
  GeneratorModel.set_signals SpecNone m = (GeneratorModel.with_signals None m, Ok tt).
Proof. reflexivity. Qed.

(** C8 (amended).  For a LindbladModel whose dissipator signals are None
    or a SignalList, as [__init__] leaves them,
    [LindbladModel.evaluate_generator] raises NotImplementedError, for
    every time and value of [in_frame_basis], when the evaluation mode is
    not "dense_vectorized"; when it is, it does not raise that error,
    whatever the collection and the frame compute. *)
Theorem lindblad_evaluate_generator_needs_vectorized
    (collection_evaluate_generator :
       LindbladModel.collection -> list scalar -> option (list scalar) -> Matrix)
    (bring_vectorized_operator_into_frame :
       Frame.t -> scalar -> Matrix -> bool -> bool -> Matrix)
    (m : LindbladModel.t) (time : scalar) (in_frame_basis : bool) :
  None_or_SignalList (LindbladModel._dissipator_signals m) = true ->
  if decide (LindbladModel._evaluation_mode m = Some "dense_vectorized"%string)
  then is_NotImplementedError
         (LindbladModel.evaluate_generator collection_evaluate_generator
            bring_vectorized_operator_into_frame m time in_frame_basis) = false
  else LindbladModel.evaluate_generator collection_evaluate_generator
         bring_vectorized_operator_into_frame m time in_frame_basis
       = Raise (NotImplementedError
           "Non-vectorized Lindblad models cannot be represented without a given state.").
Proof.
  intros Hsig.
  unfold LindbladModel.evaluate_generator, LindbladModel.mode_eqb,
    LindbladModel.dissipator_sig_vals.
  destruct (LindbladModel._dissipator_signals m) as [|dl|dl|? ?];
    try discriminate Hsig; simpl.
  all: destruct (decide (LindbladModel._evaluation_mode m
                         = Some "dense_vectorized"%string)) as [E|E].
  all: try (rewrite E, String.eqb_refl;
            destruct (LindbladModel._operator_collection m),
              (LindbladModel._hamiltonian_signals m), (LindbladModel._frame m);
            reflexivity).
  all: destruct (LindbladModel._evaluation_mode m) as [mode|]; [|reflexivity].
  all: destruct (String.eqb_spec mode "dense_vectorized") as [->|Hne];
    [exfalso; apply E; reflexivity|reflexivity].
Qed.

End EvaluationClaims.

(** ** The cache of compiled shapes *)

Section JitCacheClaims.
Context {K : ScalarRing} {Model : Type}.

Lemma fits_in_bucket (r d : Z) : Solver.fits r d = true <-> Solver.in_bucket r d.
Proof.
  unfold Solver.fits, Solver.in_bucket.
  destruct (Qlt_le_dec _ _) as [Hlt|Hle]; simpl.
  - rewrite Z.leb_le. tauto.
  - split; [discriminate|]. intros [Hlt _].
    exfalso. eapply Qlt_not_le; eassumption.
Qed.

(** the padded fraction, in integers: [d * 0.2 < r] is [d < 5 * r] *)
Lemma in_bucket_integers (r d : Z) :
  Solver.in_bucket r d <-> (d < 5 * r /\ r <= d)%Z.
Proof.
  unfold Solver.in_bucket, Solver._JIT_MIN_PADDING_FRAC, Qlt, Qmult, inject_Z.
  simpl. lia.
Qed.

(** the loop over the sorted cache finds the least duration that fits *)
Lemma first_fit_least (r : Z) (l : list Z) :
  StronglySorted Z.le l ->
  match Solver.first_fit r l with
  | Some d =>
      d ∈ l /\ Solver.fits r d = true
      /\ (forall c, c ∈ l -> Solver.fits r c = true -> (d <= c)%Z)
  | None => forall c, c ∈ l -> Solver.fits r c = false
  end.
Proof.
  induction 1 as [|x l Hl IH Hx]; simpl.
  - intros c Hc. inversion Hc.
  - destruct (Solver.fits r x) eqn:Ex.
    + split; [left|]. split; [exact Ex|]. intros c Hc _.
      apply elem_of_cons in Hc as [->|Hc]; [lia|].
      rewrite Forall_forall in Hx. apply Hx, Hc.
    + destruct (Solver.first_fit r l) as [d|].
      * destruct IH as (Hd & Hfit & Hleast).
        split; [right; exact Hd|]. split; [exact Hfit|].
        intros c Hc Hfc. apply elem_of_cons in Hc as [->|Hc]; [congruence|].
        apply Hleast; assumption.
      * intros c Hc. apply elem_of_cons in Hc as [->|Hc]; [exact Ex|].
        apply IH, Hc.
Qed.

Lemma sorted_cache_sorted (s : Solver.t (Model := Model)) :
  StronglySorted Z.le (Solver.sorted_cache s).
Proof. apply StronglySorted_merge_sort; apply _. Qed.

Lemma elem_of_sorted_cache (s : Solver.t (Model := Model)) (d : Z) :
  d ∈ Solver.sorted_cache s <-> d ∈ Solver._jit_cache s.
Proof.
  unfold Solver.sorted_cache. rewrite merge_sort_Permutation.
  apply elem_of_elements.
Qed.

(** C9 (amended).  For a Solver whose channel list is set and every
    required duration [r], [_jit_shape(r)] returns the shape
    [(len(_all_channels), d)].  When some cached duration [c] has
    [c * 0.2 < r <= c], [d] is the least such duration of the cache, and the
    cache is left as it is; otherwise [d] is [round(1.5 * r)] and it is
    added to the cache.  Either way every duration of the cache stays in
    it, and the model and the channel list are untouched. *)
Theorem jit_shape_reuses_or_adds_bucket
    (s : Solver.t (Model := Model)) (r : Z) (all_channels : list string) :
  Solver._all_channels s = Some all_channels ->
  exists d : Z,
    (Solver._jit_shape r s).2 = Ok (length all_channels, d)
    /\ ((exists c, c ∈ Solver._jit_cache s /\ Solver.in_bucket r c) ->
        d ∈ Solver._jit_cache s /\ Solver.in_bucket r d
        /\ (forall c, c ∈ Solver._jit_cache s -> Solver.in_bucket r c -> (d <= c)%Z)
        /\ Solver._jit_cache (Solver._jit_shape r s).1 = Solver._jit_cache s)
    /\ ((forall c, c ∈ Solver._jit_cache s -> ~ Solver.in_bucket r c) ->
        d = Solver.py_round (Solver._JIT_DURATION_PADDING * inject_Z r)
        /\ Solver._jit_cache (Solver._jit_shape r s).1
           = {[ d ]} ∪ Solver._jit_cache s)
    /\ Solver._jit_cache s ⊆ Solver._jit_cache (Solver._jit_shape r s).1
    /\ Solver._model (Solver._jit_shape r s).1 = Solver._model s
    /\ Solver._all_channels (Solver._jit_shape r s).1 = Some all_channels.
Proof.
  intros Hch.
  pose proof (first_fit_least r _ (sorted_cache_sorted s)) as Hfit.
  unfold Solver._jit_shape, bind, get, ret, modify.
  destruct (Solver.first_fit r (Solver.sorted_cache s)) as [d|]; rewrite Hch; simpl.
  - destruct Hfit as (Hd & Hf & Hleast).
    apply elem_of_sorted_cache in Hd. apply fits_in_bucket in Hf.
    exists d. split; [reflexivity|]. split; [|split; [|split; [|split]]].
    + intros _. split; [exact Hd|]. split; [exact Hf|]. split; [|reflexivity].
      intros c Hc Hb. apply Hleast; [apply elem_of_sorted_cache, Hc|].
      apply fits_in_bucket, Hb.
    + intros Hnone. exfalso. exact (Hnone d Hd Hf).
    + reflexivity.
    + reflexivity.
    + exact Hch.
  - eexists. split; [reflexivity|]. split; [|split; [|split; [|split]]].
    + intros (c & Hc & Hb). exfalso.
      apply elem_of_sorted_cache in Hc. apply fits_in_bucket in Hb.
      rewrite (Hfit c Hc) in Hb. discriminate.
    + intros _. split; reflexivity.
    + set_solver.
    + reflexivity.
    + exact Hch.
Qed.

End JitCacheClaims.

(** ** The setters of the evaluation mode and of the signals *)

Section SetterFacts.
Context {K : ScalarRing}.

(** GeneratorModel.evaluation_mode (setter) does nothing, and raises
    nothing, on every mode but "dense_operator_collection". *)
Lemma generator_set_evaluation_mode_unsupported (m : GeneratorModel.t)
    (mode : string) :
  mode <> "dense_operator_collection"%string ->
  GeneratorModel.set_evaluation_mode mode m = (m, Ok tt).
Proof.
  intros Hne. unfold GeneratorModel.set_evaluation_mode.
  destruct (String.eqb_spec mode "dense_operator_collection"); [contradiction|].
  reflexivity.
Qed.

(** LindbladModel.evaluation_mode (setter) raises NotImplementedError on a
    mode that is not supported, and leaves the model as it is. *)
Lemma lindblad_set_evaluation_mode_unsupported (m : LindbladModel.t)
    (mode : string) :
  supported_mode (Some mode) = false ->
  LindbladModel.set_evaluation_mode (Some mode) m
  = (m, Raise (NotImplementedError
                 ("Evaluation mode " ++ mode ++ " is not supported."))).
Proof.
  unfold supported_mode, LindbladModel.set_evaluation_mode. intros H.
  destruct (String.eqb mode "dense"); [discriminate H|].
  destruct (String.eqb mode "sparse"); [discriminate H|].
  destruct (String.eqb mode "dense_vectorized"); [discriminate H|].
  reflexivity.
Qed.

(** GeneratorModel.signals (setter) raises on a list or SignalList whose
    length is not the number of operators of the collection, and leaves the
    model, its signals included, as it is. *)
Lemma generator_set_signals_length_mismatch (m : GeneratorModel.t)
    (oc : DenseOperatorCollection.t) (sl : list Signal) :
  GeneratorModel._operator_collection m = Some oc ->
  length sl <> DenseOperatorCollection.num_operators oc ->
  GeneratorModel.set_signals (SpecList sl) m
  = (m, Raise (QiskitError "Signals needs to have the same length as operators."))
  /\ GeneratorModel.set_signals (SpecSignalList sl) m
     = (m, Raise (QiskitError "Signals needs to have the same length as operators.")).
Proof.
  intros Hoc Hne.
  unfold GeneratorModel.set_signals, GeneratorModel.check_and_set_signals,
    bind, get.
  rewrite Hoc.
  destruct (Nat.eqb_spec (length sl) (DenseOperatorCollection.num_operators oc));
    [contradiction|].
  split; reflexivity.
Qed.

(** LindbladModel.signals (setter) stores whatever pair it is given. *)
Lemma lindblad_set_signals_unchecked (m : LindbladModel.t)
    (h d : signals_spec) :
  LindbladModel.set_signals (h, d) m = (LindbladModel.with_signals h d m, Ok tt).
Proof. reflexivity. Qed.

End SetterFacts.

(** ** Initial and final states of a simulation *)

Section StateFacts.
Context {K : ScalarRing} {Model : Type} {ops : Solver.ModelOps Model}.
Local Open Scope scalar_scope.
Add Ring scalar_ring_state : (@scalar_ring K).


(** For a DensityMatrix and a HamiltonianModel, format_final_states returns
    U @ y0 @ U-adjoint at every time. *)
Lemma format_final_states_density_matrix (m : Model) (k d : nat)
    (U : nat -> Matrix) (rho : Matrix) :
  Solver.is_LindbladModel m = false ->
  Solver.format_final_states (Arr3 k d d U) m (Arr2 d d rho) (Some DensityMatrix)
  = Ok (Arr3 k d d (fun n => Mmult d (Mmult d (U n) rho) (adjoint (U n)))).
Proof.
  intros Hm. unfold Solver.format_final_states, Solver.is_HamiltonianModel.
  rewrite Hm. simpl. repeat (rewrite !Nat.eqb_refl; simpl). reflexivity.
Qed.

(** For a QuantumChannel and a HamiltonianModel, format_final_states returns
    the superoperator of U composed with y0 at every time. *)
Lemma format_final_states_superop (m : Model) (k d : nat)
    (U : nat -> Matrix) (S : Matrix) :
  Solver.is_LindbladModel m = false ->
  Solver.format_final_states (Arr3 k d d U) m (Arr2 (d * d) (d * d) S)
    (Some SuperOp)
  = Ok (Arr3 k (d * d) (d * d)
          (fun n => Mmult (d * d) (superop_of d (U n)) S)).
Proof.
  intros Hm. unfold Solver.format_final_states, Solver.is_HamiltonianModel.
  rewrite Hm. simpl. repeat (rewrite !Nat.eqb_refl; simpl). reflexivity.
Qed.

Lemma big_sum_app (n m : nat) (f : nat -> scalar) :
  big_sum f (n + m) = big_sum f n + big_sum (fun i => f (n + i)%nat) m.
Proof.
  induction m as [|m IH].
  - rewrite Nat.add_0_r. simpl. ring.
  - rewrite Nat.add_succ_r. simpl. rewrite IH. ring.
Qed.

(** a sum over the flat index [a*d + b] is the double sum over [a] and [b] *)
Lemma big_sum_flatten (k d : nat) (f : nat -> nat -> scalar) :
  big_sum (fun c => f (c / d)%nat (c mod d)%nat) (k * d)
  = big_sum (fun a => big_sum (fun b => f a b) d) k.
Proof.
  destruct d as [|d].
  { rewrite Nat.mul_0_r. simpl. symmetry. apply big_sum_zero. reflexivity. }
  induction k as [|k IH]; [reflexivity|].
  replace (S k * S d)%nat with (k * S d + S d)%nat by lia.
  rewrite big_sum_app, IH.
  change (big_sum (fun a => big_sum (fun b => f a b) (S d)) (S k))
    with (big_sum (fun a => big_sum (fun b => f a b) (S d)) k
          + big_sum (fun b => f k b) (S d)).
  f_equal. apply big_sum_ext. intros b Hb.
  replace (k * S d + b)%nat with (b + k * S d)%nat by lia.
  rewrite Nat.div_add, Nat.Div0.mod_add by lia.
  rewrite Nat.div_small, Nat.mod_small by lia. reflexivity.
Qed.

(** The superoperator of U acts on the column-stacked density matrix as
    rho |-> U rho U-adjoint. *)
Lemma superop_of_conjugates (d : nat) (U rho : Matrix) :
  vec_eq (d * d) (Mvec (d * d) (superop_of d U) (vec_F d rho))
         (vec_F d (Mmult d (Mmult d U rho) (adjoint U))).
Proof.
  intros i Hi. unfold Mvec, superop_of, vec_F.
  rewrite (big_sum_flatten d d
             (fun a b => sconj (U (i / d)%nat a) * U (i mod d)%nat b * rho b a)).
  unfold Mmult, adjoint.
  apply big_sum_ext. intros a _.
  rewrite <- big_sum_scale_r. apply big_sum_ext. intros b _. ring.
Qed.

End StateFacts.

(** ** The claims at concrete models *)

Section ConcreteModels.
#[local] Existing Instance GaussZ.
Import Examples.

Lemma frame_B_unitary : unitary 2 frame_B.
Proof.
  split; intros i j Hi Hj;
    destruct i as [|[|i]]; destruct j as [|[|j]]; try lia; reflexivity.
Qed.

Lemma frame_F_wf : Frame.wf 2 (Frame.init frame_F).
Proof. exact frame_B_unitary. Qed.

Lemma generator_unframed_invariant :
  generator_model [sigma_x; sigma_z] diag_1_2 generator_unframed.
Proof.
  apply (generator_init_invariant 2 [sigma_x; sigma_z] (Some diag_1_2)
           signals_1_2 Frame.ArgNone).
  exact I.
Qed.

Lemma generator_in_frame_F_invariant :
  generator_model [sigma_x; sigma_z] diag_1_2 generator_in_frame_F.
Proof.
  apply (generator_init_invariant 2 [sigma_x; sigma_z] (Some diag_1_2)
           signals_1_2 frame_F).
  exact frame_F_wf.
Qed.

Lemma lindblad_unframed_invariant :
  lindblad_model [sigma_x; sigma_z] (Some [sigma_minus]) diag_1_2
    lindblad_unframed.
Proof.
  apply (lindblad_init_invariant 2 [sigma_x; sigma_z] signals_1_2
           (Some [sigma_minus]) SpecNone (Some diag_1_2) Frame.ArgNone
           (Some "dense"%string)).
  - exact I.
  - reflexivity.
Qed.

Lemma generator_in_frame_F_reachable :
  generator_reachable [sigma_x; sigma_z] (Some diag_1_2) generator_in_frame_F.
Proof.
  apply (generator_built [sigma_x; sigma_z] (Some diag_1_2) 2 signals_1_2 frame_F).
  - exact frame_F_wf.
  - reflexivity.
Qed.




(** the LindbladModel built in mode "dense", whose dissipator signals are
    the SignalList [__init__] made *)
Lemma lindblad_evaluate_generator_needs_vectorized_witness :
  None_or_SignalList (LindbladModel._dissipator_signals lindblad_unframed)
  = true
  /\ LindbladModel.evaluate_generator zero_superoperator operator_as_given
       lindblad_unframed (0, 1)%Z false
     = Raise (NotImplementedError
         "Non-vectorized Lindblad models cannot be represented without a given state.").
Proof.
  split; [reflexivity|].
  exact (lindblad_evaluate_generator_needs_vectorized zero_superoperator
           operator_as_given lindblad_unframed (0, 1)%Z false eq_refl).
Defined.

(** C8, as stated, fails: on the LindbladModel in mode "dense" whose
    signals were assigned as two lists, [evaluate_generator] calls the list
    of dissipator signals before it looks at the mode, and raises TypeError,
    not NotImplementedError. *)
Lemma lindblad_evaluate_generator_raises_TypeError_on_list_signals :
  LindbladModel._evaluation_mode lindblad_with_list_signals
  = Some "dense"%string
  /\ (LindbladModel.set_signals
        (SpecList [constant (1, 0)%Z; constant (2, 0)%Z],
         SpecList [constant (3, 0)%Z]) lindblad_unframed).2 = Ok tt
  /\ LindbladModel.evaluate_generator zero_superoperator operator_as_given
       lindblad_with_list_signals (0, 1)%Z false
     = Raise (TypeError "'list' object is not callable")
  /\ is_NotImplementedError
       (LindbladModel.evaluate_generator zero_superoperator operator_as_given
          lindblad_with_list_signals (0, 1)%Z false) = false.
Proof. repeat split; reflexivity. Qed.


Lemma generator_unframed_no_frame :
  no_frame (GeneratorModel._frame generator_unframed).
Proof. exists (Frame.init Frame.ArgNone). split; reflexivity. Qed.

Lemma lindblad_unframed_no_frame :
  no_frame (LindbladModel._frame lindblad_unframed).
Proof. exists (Frame.init Frame.ArgNone). split; reflexivity. Qed.

(** setting the frame F and unsetting it, on the two unframed models *)
Lemma frame_roundtrip_restores_unframed_model_witness :
  generator_roundtrip_restores frame_F generator_unframed
  /\ lindblad_roundtrip_restores frame_F lindblad_unframed.
Proof.
  apply (frame_roundtrip_restores_unframed_model
           [sigma_x; sigma_z] diag_1_2 generator_unframed frame_F
           [sigma_x; sigma_z] (Some [sigma_minus]) diag_1_2 lindblad_unframed
           frame_F).
  - exact generator_unframed_invariant.
  - exact generator_unframed_no_frame.
  - exact frame_F_wf.
  - exact lindblad_unframed_invariant.
  - exact lindblad_unframed_no_frame.
  - exact frame_F_wf.
Defined.

(** C2, as stated, fails: a GeneratorModel built in the frame F stores
    [sigma_x] as [[0, 1j], [-1j, 0]]; setting the frame to diag(3j, 5j) and
    then to None leaves [sigma_x] itself, [[0, 1], [1, 0]]. *)
Lemma frame_roundtrip_does_not_restore_framed_model :
  ~ generator_roundtrip_restores frame_D generator_in_frame_F.
Proof.
  intros (_ & _ & Hops & _).
  assert (H : forall A B l l', same_operators 2 (A :: l) (B :: l') ->
                               A 0 1 = B 0 1).
  { intros A B l l' HAB. inversion HAB; subst.
    match goal with H : mat_eq 2 A B |- _ => apply H; lia end. }
  vm_compute in Hops. apply H in Hops. discriminate Hops.
Qed.

(** the two evaluations on the model in the frame F, at time 1j and the
    state (1, 1j), in the laboratory basis *)
Lemma evaluate_rhs_is_generator_times_state_witness :
  exists (G : Matrix) (r : Vector),
    GeneratorModel.evaluate_generator generator_in_frame_F (0, 1)%Z false = Ok G
    /\ GeneratorModel.evaluate_rhs generator_in_frame_F (0, 1)%Z
         (vec2 (1, 0)%Z (0, 1)%Z) false = Ok r
    /\ vec_eq (GeneratorModel.hilbert_space_dimension generator_in_frame_F) r
         (Mvec (GeneratorModel.hilbert_space_dimension generator_in_frame_F)
            G (vec2 (1, 0)%Z (0, 1)%Z)).
Proof.
  apply (evaluate_rhs_is_generator_times_state
           [sigma_x; sigma_z] diag_1_2 generator_in_frame_F
           [constant (1, 0)%Z; constant (2, 0)%Z]).
  - exact generator_in_frame_F_invariant.
  - reflexivity.
Defined.

(** a model built without signals *)
Lemma evaluate_without_signals_raises_witness :
  GeneratorModel.evaluate_generator generator_without_signals (0, 1)%Z true
  = Raise (QiskitError "GeneratorModel cannot be evaluated without signals.")
  /\ GeneratorModel.evaluate_rhs generator_without_signals (0, 1)%Z
       (vec2 (1, 0)%Z (0, 1)%Z) true
     = Raise (QiskitError "GeneratorModel cannot be evaluated without signals.").
Proof.
  apply (evaluate_without_signals_raises generator_without_signals).
  reflexivity.
Defined.

(** a cache with the durations 50 and 10000 and the required duration 100 *)
Lemma jit_shape_reuses_or_adds_bucket_witness :
  exists d : Z,
    (Solver._jit_shape 100 solver_with_channels).2 = Ok (2, d)
    /\ ((exists c, c ∈ Solver._jit_cache solver_with_channels
                   /\ Solver.in_bucket 100 c) ->
        d ∈ Solver._jit_cache solver_with_channels /\ Solver.in_bucket 100 d
        /\ (forall c, c ∈ Solver._jit_cache solver_with_channels ->
                      Solver.in_bucket 100 c -> (d <= c)%Z)
        /\ Solver._jit_cache (Solver._jit_shape 100 solver_with_channels).1
           = Solver._jit_cache solver_with_channels)
    /\ ((forall c, c ∈ Solver._jit_cache solver_with_channels ->
                   ~ Solver.in_bucket 100 c) ->
        d = Solver.py_round (Solver._JIT_DURATION_PADDING * inject_Z 100)
        /\ Solver._jit_cache (Solver._jit_shape 100 solver_with_channels).1
           = {[ d ]} ∪ Solver._jit_cache solver_with_channels)
    /\ Solver._jit_cache solver_with_channels
       ⊆ Solver._jit_cache (Solver._jit_shape 100 solver_with_channels).1
    /\ Solver._model (Solver._jit_shape 100 solver_with_channels).1
       = Solver._model solver_with_channels
    /\ Solver._all_channels (Solver._jit_shape 100 solver_with_channels).1
       = Some ["d0"; "d1"]%string.
Proof.
  apply (jit_shape_reuses_or_adds_bucket solver_with_channels 100
           ["d0"; "d1"]%string).
  reflexivity.
Defined.

(** C9, as stated, fails: a Solver built without channel information has
    [_all_channels = None], and [_jit_shape] raises TypeError at
    [len(self._all_channels)] instead of returning. *)
Lemma jit_shape_raises_without_channels :
  (Solver._jit_shape 10 solver_without_channels).2
  = Raise (TypeError "object of type 'NoneType' has no len()")
  /\ ~ (exists shape : nat * Z,
          (Solver._jit_shape 10 solver_without_channels).2 = Ok shape).
Proof.
  assert (H : (Solver._jit_shape 10 solver_without_channels).2
              = Raise (TypeError "object of type 'NoneType' has no len()"))
    by (vm_compute; reflexivity).
  split; [exact H|]. intros [shape Hs]. rewrite H in Hs. discriminate Hs.
Qed.

(** [with cm: body] when the body raises: the code after the [yield] of the
    context manager is not run *)
Lemma with_body_raises {S X A : Type} (cm : Solver.contextmanager S X)
    (body : M S A) (s s1 s2 : S) (x : X) (e : exn) :
  Solver.before_yield cm s = (s1, Ok x) ->
  body s1 = (s2, Raise e) ->
  Solver.with_ cm body s = (s2, Raise e).
Proof. intros H1 H2. unfold Solver.with_, bind. rewrite H1, H2. reflexivity. Qed.

(** C4 at a failing input.  The solver's model holds the signals [1, 2];
    inside [signal_assignment([3, 4])] the body raises.  The exception
    leaves the [with] statement and the model still holds [3, 4], not its
    signals from before; so it does after a [solve] whose integrator
    raises.  With a body that returns, the model holds [1, 2] again. *)
Theorem signal_assignment_not_restored_when_body_raises :
  let before := Solver.model_signals (Solver.model solver_with_channels) in
  let raised :=
    Solver.with_ (Solver.signal_assignment signals_3_4) failing_body
      solver_with_channels in
  let returned :=
    Solver.with_ (Solver.signal_assignment signals_3_4) (ret tt)
      solver_with_channels in
  before = SpecSignalList [constant (1, 0)%Z; constant (2, 0)%Z]
  /\ raised.2 = Raise (ValueError "the integration failed")
  /\ Solver.model_signals (Solver.model raised.1)
     = SpecSignalList [constant (3, 0)%Z; constant (4, 0)%Z]
  /\ Solver.model_signals (Solver.model raised.1) <> before
  /\ solve_that_fails.2 = Raise (ValueError "the integration failed")
  /\ Solver.model_signals (Solver.model solve_that_fails.1)
     = SpecSignalList [constant (3, 0)%Z; constant (4, 0)%Z]
  /\ returned.2 = Ok tt
  /\ Solver.model_signals (Solver.model returned.1) = before.
Proof.
  cbv zeta.
  assert (Hb : Solver.model_signals (Solver.model solver_with_channels)
               = SpecSignalList [constant (1, 0)%Z; constant (2, 0)%Z])
    by (vm_compute; reflexivity).
  assert (Hr : Solver.model_signals
                 (Solver.model
                    (Solver.with_ (Solver.signal_assignment signals_3_4)
                       failing_body solver_with_channels).1)
               = SpecSignalList [constant (3, 0)%Z; constant (4, 0)%Z])
    by (vm_compute; reflexivity).
  split; [exact Hb|]. split; [vm_compute; reflexivity|].
  split; [exact Hr|]. split.
  - rewrite Hr, Hb. intros H. injection H as H _.
    apply (f_equal (fun f : @Signal GaussZ => f (0, 0)%Z)) in H. discriminate H.
  - repeat split; vm_compute; reflexivity.
Qed.

(** C5 at a failing input.  Assigning the unsupported mode "sparse" to the
    [evaluation_mode] of a GeneratorModel raises nothing and changes
    nothing; LindbladModel raises NotImplementedError on an unsupported
    mode, and leaves the model as it is. *)
Theorem generator_evaluation_mode_ignores_unsupported_mode :
  GeneratorModel.set_evaluation_mode "sparse" generator_unframed
  = (generator_unframed, Ok tt)
  /\ LindbladModel.set_evaluation_mode (Some "dense_operator_collection"%string)
       lindblad_unframed
     = (lindblad_unframed,
        Raise (NotImplementedError
                 "Evaluation mode dense_operator_collection is not supported.")).
Proof. split; reflexivity. Qed.

(** C6 at a failing input.  A LindbladModel with two Hamiltonian operators
    accepts one Hamiltonian signal, through the [signals] setter and through
    [__init__]: nothing is raised and the signal list of length 1 is stored.
    GeneratorModel raises QiskitError on the same mismatch and keeps its
    signals. *)
Theorem lindblad_signals_length_not_checked :
  let r := LindbladModel.set_signals
             (SpecSignalList [constant (1, 0)%Z], SpecNone)
             lindblad_unframed in
  let built := LindbladModel.init 2 [sigma_x; sigma_z]
                 (SpecList [constant (1, 0)%Z]) None SpecNone (Some diag_1_2)
                 Frame.ArgNone (Some "dense"%string) in
  let g := GeneratorModel.set_signals (SpecList [constant (1, 0)%Z])
             generator_unframed in
  length (LindbladModel._hamiltonian_operators lindblad_unframed) = 2
  /\ r.2 = Ok tt
  /\ LindbladModel._hamiltonian_signals r.1
     = SpecSignalList [constant (1, 0)%Z]
  /\ built.2 = Ok tt
  /\ LindbladModel._hamiltonian_signals built.1
     = SpecSignalList [constant (1, 0)%Z]
  /\ length (LindbladModel._hamiltonian_operators built.1) = 2
  /\ g = (generator_unframed,
          Raise (QiskitError "Signals needs to have the same length as operators.")).
Proof. cbv zeta. repeat split; vm_compute; reflexivity. Qed.

End ConcreteModels.

Section ConcreteSolve.
#[local] Existing Instance GaussQ.
Import Examples.

(** C10 at a failing input.  A Solver on a HamiltonianModel with generator
    0 is asked to solve from the density matrix diag(1/2, 1/2) over [0, 1].
    [validate_and_format_initial_state] returns the identity as the state to
    integrate, but [solve] hands the integrator the density matrix itself:
    the states of the result are y @ rho @ y-adjoint with y = rho, that is
    diag(1/8, 1/8), where integrating the identity gives
    1 @ rho @ 1 = diag(1/2, 1/2). *)
Theorem solve_integrates_the_density_matrix_itself :
  Solver.validate_and_format_initial_state
    (DensityMatrixObject (Arr2 2 2 mixed_state)) zero_generator
  = Ok (np_eye 2, Arr2 2 2 mixed_state, Some DensityMatrix)
  /\ result_entry solve_mixed_state.2 1 0 0 = Some (1 # 8, 0 # 1)%Q
  /\ result_entry solve_mixed_state.2 1 1 1 = Some (1 # 8, 0 # 1)%Q
  /\ (let integrated :=
        HamiltonianModel.constant_solution zero_generator [qzero; qone]
          (ArrayObject (np_eye 2)) in
      match integrated with
      | Ok (_, U) =>
          match Solver.format_final_states U zero_generator
                  (Arr2 2 2 mixed_state) (Some DensityMatrix) with
          | Ok y => option_map gaussq_values (entry3 y 1 0 0)
          | Raise _ => None
          end
      | Raise _ => None
      end = Some (1 # 2, 0 # 1)%Q).
Proof. cbv zeta. repeat split; vm_compute; reflexivity. Qed.

End ConcreteSolve.

(** ** Perturbation results, the arguments of solve and the pulse channels *)

Section PerturbationResultsFacts.
Context {Label Term : Type} `{EqDecision Label}.
Variable to_Multiset : Label -> Label.

Lemma In_labels_elem_of (label : Label) (labels : list Label) :
  PerturbationResults.In_labels label labels = true <-> label ∈ labels.
Proof.
  unfold PerturbationResults.In_labels. rewrite existsb_exists. split.
  - intros (l & Hl & Heq). destruct (decide (l = label)); [subst|discriminate].
    apply list_elem_of_In, Hl.
  - intros Hin. exists label. split; [apply list_elem_of_In, Hin|].
    destruct (decide (label = label)); [reflexivity|contradiction].
Qed.

(** [labels.index(label)] is the first position that holds [label] *)
Lemma index_first (label : Label) (labels : list Label) :
  label ∈ labels ->
  exists idx,
    PerturbationResults.index label labels = Ok idx
    /\ labels !! idx = Some label
    /\ forall j, j < idx -> labels !! j <> Some label.
Proof.
  induction labels as [|l rest IH]; intros Hin.
  - inversion Hin.
  - simpl. destruct (decide (l = label)) as [->|Hne].
    + exists 0. split; [reflexivity|]. split; [reflexivity|]. intros j Hj. lia.
    + apply elem_of_cons in Hin as [->|Hin]; [contradiction|].
      destruct (IH Hin) as (idx & -> & Hidx & Hfirst).
      exists (S idx). split; [reflexivity|]. split; [exact Hidx|].
      intros [|j] Hj; simpl.
      * intros Heq. injection Heq as Heq. contradiction.
      * apply Hfirst. lia.
Qed.

(** X1.  [PerturbationResults.__getitem__] raises QiskitError exactly when
    the label it looks up (the label converted by [to_Multiset] when the
    expansion method is a symmetric one, the label itself otherwise) is not
    in [expansion_labels]. *)
Theorem getitem_raises_QiskitError_iff_label_absent
    (self : PerturbationResults.t (Label := Label) (Term := Term)) (label : Label) :
  (if Solver.contains "symmetric" (PerturbationResults.expansion_method self)
   then to_Multiset label else label) ∉ PerturbationResults.expansion_labels self
  <-> PerturbationResults.__getitem__ to_Multiset self label
      = Raise (QiskitError "label is not present in expansion_labels.").
Proof.
  unfold PerturbationResults.__getitem__.
  set (key := if Solver.contains "symmetric" _ then _ else _).
  destruct (PerturbationResults.In_labels key _) eqn:E.
  - apply In_labels_elem_of in E. split; [contradiction|].
    destruct (index_first key _ E) as (idx & -> & _ & _).
    destruct (_ !! idx); discriminate.
  - split; [reflexivity|]. intros _ Hin.
    apply In_labels_elem_of in Hin. congruence.
Qed.

(** X2.  When [expansion_terms] has an entry for every label,
    [__getitem__] of a label that is present returns the term stored at
    the first position of that label: with a label listed twice, the
    term of the later position is never returned. *)
Theorem getitem_returns_term_of_first_position
    (self : PerturbationResults.t (Label := Label) (Term := Term)) (label : Label) :
  length (PerturbationResults.expansion_labels self)
  <= length (PerturbationResults.expansion_terms self) ->
  (if Solver.contains "symmetric" (PerturbationResults.expansion_method self)
   then to_Multiset label else label) ∈ PerturbationResults.expansion_labels self ->
  exists (idx : nat) (term : Term),
    PerturbationResults.__getitem__ to_Multiset self label = Ok term
    /\ PerturbationResults.expansion_terms self !! idx = Some term
    /\ PerturbationResults.expansion_labels self !! idx
       = Some (if Solver.contains "symmetric"
                    (PerturbationResults.expansion_method self)
               then to_Multiset label else label)
    /\ forall j, j < idx ->
         PerturbationResults.expansion_labels self !! j
         <> Some (if Solver.contains "symmetric"
                       (PerturbationResults.expansion_method self)
                  then to_Multiset label else label).
Proof.
  intros Hlen Hin. unfold PerturbationResults.__getitem__.
  set (key := if Solver.contains "symmetric" _ then _ else _) in *.
  rewrite (proj2 (In_labels_elem_of key _) Hin).
  destruct (index_first key _ Hin) as (idx & -> & Hidx & Hfirst).
  destruct (PerturbationResults.expansion_terms self !! idx) as [term|] eqn:Et.
  - exists idx, term. repeat split; assumption.
  - exfalso. apply lookup_ge_None in Et. apply lookup_lt_Some in Hidx. lia.
Qed.

End PerturbationResultsFacts.

Section SolveArgumentsFacts.
Context {K : ScalarRing}.
Import SolveArguments.


End SolveArgumentsFacts.

Section SolverChannelsFacts.
Context {K : ScalarRing}.
Variable lower : string -> string.
Import SolverChannels.

Lemma append_new_spec (channels all_channels : list string) :
  NoDup all_channels ->
  NoDup (append_new all_channels channels)
  /\ forall chan, chan ∈ append_new all_channels channels
                  <-> chan ∈ all_channels \/ chan ∈ channels.
Proof.
  revert all_channels.
  induction channels as [|c channels IH]; intros all_channels Hnd; simpl.
  - split; [exact Hnd|]. intros chan. rewrite elem_of_nil. tauto.
  - destruct (decide (c ∈ all_channels)) as [Hin|Hout].
    + destruct (IH all_channels Hnd) as [H1 H2]. split; [exact H1|].
      intros chan. rewrite H2, elem_of_cons.
      split; [tauto|]. intros [?|[->|?]]; tauto.
    + assert (Hnd' : NoDup (all_channels ++ [c])).
      { apply NoDup_app. split; [exact Hnd|]. split; [|apply NoDup_singleton].
        intros x Hx Hx'. apply list_elem_of_singleton in Hx'. subst. contradiction. }
      destruct (IH _ Hnd') as [H1 H2]. split; [exact H1|].
      intros chan. rewrite H2, elem_of_app, list_elem_of_singleton, elem_of_cons.
      tauto.
Qed.

(** what [__init__] returns when it returns, with channel information *)
Lemma init_returns (hamiltonian_operators dissipator_operators : option (list Matrix))
    (hamiltonian_channels dissipator_channels : option (list string))
    (channel_carrier_freqs : option (list (string * Q))) (dt : option Q)
    (attrs : SolverChannels.t) (all_channels : list string) :
  __init__ lower hamiltonian_operators dissipator_operators hamiltonian_channels
    dissipator_channels channel_carrier_freqs dt = Ok attrs ->
  _all_channels attrs = Some all_channels ->
  let freqs := match channel_carrier_freqs with
               | None => ∅
               | Some items => lower_keys lower items
               end in
  _hamiltonian_channels attrs = option_map (map lower) hamiltonian_channels
  /\ _dissipator_channels attrs = option_map (map lower) dissipator_channels
  /\ all_channels
     = append_new (append_new [] (map lower (default [] hamiltonian_channels)))
                  (map lower (default [] dissipator_channels))
  /\ (forall hc, hamiltonian_channels = Some hc ->
        length_mismatch hamiltonian_operators (map lower hc) = false)
  /\ (forall dc, dissipator_channels = Some dc ->
        length_mismatch dissipator_operators (map lower dc) = false)
  /\ find (fun chan => bool_decide (freqs !! chan = None)) all_channels = None
  /\ _channel_carrier_freqs attrs
     = (if decide (size freqs = 0) then None else Some freqs)
  /\ exists dt0, dt = Some dt0
     /\ _schedule_converter attrs
        = Some (mk_InstructionToSignals dt0 (_channel_carrier_freqs attrs)
                  all_channels).
Proof.
  unfold __init__. intros Hinit Hall.
  destruct (_ || _); [|injection Hinit as <-; discriminate Hall].
  destruct hamiltonian_channels as [hc|]; simpl in *.
  - destruct (length_mismatch hamiltonian_operators (map lower hc)) eqn:Eh;
      [discriminate|].
    destruct dissipator_channels as [dc|]; simpl in *.
    + destruct (length_mismatch dissipator_operators (map lower dc)) eqn:Ed;
        [discriminate|].
      destruct (find _ _) eqn:Ef; [discriminate|].
      destruct dt as [dt0|]; [|discriminate].
      injection Hinit as <-. simpl in *. injection Hall as <-.
      repeat split; try reflexivity; try congruence; try exact Ef;
        try (eexists; split; reflexivity).
    + destruct (find _ _) eqn:Ef; [discriminate|].
      destruct dt as [dt0|]; [|discriminate].
      injection Hinit as <-. simpl in *. injection Hall as <-.
      repeat split; try reflexivity; try congruence; try exact Ef;
        try (eexists; split; reflexivity).
  - destruct dissipator_channels as [dc|]; simpl in *.
    + destruct (length_mismatch dissipator_operators (map lower dc)) eqn:Ed;
        [discriminate|].
      destruct (find _ _) eqn:Ef; [discriminate|].
      destruct dt as [dt0|]; [|discriminate].
      injection Hinit as <-. simpl in *. injection Hall as <-.
      repeat split; try reflexivity; try congruence; try exact Ef;
        try (eexists; split; reflexivity).
    + destruct dt as [dt0|]; [|discriminate].
      injection Hinit as <-. simpl in *. injection Hall as <-.
      repeat split; try reflexivity; try congruence;
        try (eexists; split; reflexivity).
Qed.

(** X5.  When [Solver.__init__] returns for a solver given channel
    information, [_all_channels] lists every lower-cased name of
    [hamiltonian_channels] and of [dissipator_channels], nothing else, and
    each name once; the two channel attributes hold the lower-cased
    names. *)
Theorem init_all_channels_lists_each_channel_once
    (hamiltonian_operators dissipator_operators : option (list Matrix))
    (hamiltonian_channels dissipator_channels : option (list string))
    (channel_carrier_freqs : option (list (string * Q))) (dt : option Q)
    (attrs : SolverChannels.t) (all_channels : list string) :
  __init__ lower hamiltonian_operators dissipator_operators hamiltonian_channels
    dissipator_channels channel_carrier_freqs dt = Ok attrs ->
  _all_channels attrs = Some all_channels ->
  NoDup all_channels
  /\ (forall chan, chan ∈ all_channels
        <-> chan ∈ map lower (default [] hamiltonian_channels)
            \/ chan ∈ map lower (default [] dissipator_channels))
  /\ _hamiltonian_channels attrs = option_map (map lower) hamiltonian_channels
  /\ _dissipator_channels attrs = option_map (map lower) dissipator_channels.
Proof.
  intros Hinit Hall.
  destruct (init_returns _ _ _ _ _ _ _ _ Hinit Hall)
    as (Hh & Hd & -> & _).
  destruct (append_new_spec (map lower (default [] hamiltonian_channels)) []
              (NoDup_nil_2)) as [Hnd1 Hin1].
  destruct (append_new_spec (map lower (default [] dissipator_channels)) _ Hnd1)
    as [Hnd2 Hin2].
  split; [exact Hnd2|]. split; [|split; assumption].
  intros chan. rewrite Hin2, Hin1, elem_of_nil. tauto.
Qed.

(** X6.  A Solver given any channel information (a non-empty
    [hamiltonian_channels], [dissipator_channels] or
    [channel_carrier_freqs]) and no [dt] is not constructed: [__init__]
    raises QiskitError, whatever else it is given. *)
Theorem init_channel_information_needs_dt
    (hamiltonian_operators dissipator_operators : option (list Matrix))
    (hamiltonian_channels dissipator_channels : option (list string))
    (channel_carrier_freqs : option (list (string * Q))) :
  truthy_list channel_carrier_freqs || truthy_list hamiltonian_channels
  || truthy_list dissipator_channels = true ->
  exists msg,
    __init__ lower hamiltonian_operators dissipator_operators
      hamiltonian_channels dissipator_channels channel_carrier_freqs None
    = Raise (QiskitError msg).
Proof.
  intros Hany. unfold __init__.
  replace (truthy_float None || truthy_list channel_carrier_freqs
           || truthy_list hamiltonian_channels
           || truthy_list dissipator_channels) with true
    by (simpl; simpl in Hany; rewrite Hany; reflexivity).
  destruct hamiltonian_channels as [hc|]; simpl.
  - destruct (length_mismatch hamiltonian_operators _); [eexists; reflexivity|].
    destruct dissipator_channels as [dc|]; simpl.
    + destruct (length_mismatch dissipator_operators _); [eexists; reflexivity|].
      destruct (find _ _); eexists; reflexivity.
    + destruct (find _ _); eexists; reflexivity.
  - destruct dissipator_channels as [dc|]; simpl.
    + destruct (length_mismatch dissipator_operators _); [eexists; reflexivity|].
      destruct (find _ _); eexists; reflexivity.
    + eexists; reflexivity.
Qed.

(** X7.  When [Solver.__init__] returns for a solver given channel
    information, every channel of [_all_channels] has a carrier frequency
    in [_channel_carrier_freqs] (so the lookups
    [_channel_carrier_freqs[_all_channels[idx]]] of [_jit_sim] find their
    key), there are as many Hamiltonian (dissipator) operators as
    Hamiltonian (dissipator) channels, and the schedule converter is set up
    with the [dt] given and with these channels and frequencies. *)
Theorem init_every_channel_has_a_carrier_frequency
    (hamiltonian_operators dissipator_operators : option (list Matrix))
    (hamiltonian_channels dissipator_channels : option (list string))
    (channel_carrier_freqs : option (list (string * Q))) (dt : option Q)
    (attrs : SolverChannels.t) (all_channels : list string) :
  __init__ lower hamiltonian_operators dissipator_operators hamiltonian_channels
    dissipator_channels channel_carrier_freqs dt = Ok attrs ->
  _all_channels attrs = Some all_channels ->
  (forall chan, chan ∈ all_channels ->
     exists freqs freq,
       _channel_carrier_freqs attrs = Some freqs /\ freqs !! chan = Some freq)
  /\ (forall channels, _hamiltonian_channels attrs = Some channels ->
        exists operators, hamiltonian_operators = Some operators
                          /\ length operators = length channels)
  /\ (forall channels, _dissipator_channels attrs = Some channels ->
        exists operators, dissipator_operators = Some operators
                          /\ length operators = length channels)
  /\ exists dt0, dt = Some dt0
     /\ _schedule_converter attrs
        = Some (mk_InstructionToSignals dt0 (_channel_carrier_freqs attrs)
                  all_channels).
Proof.
  intros Hinit Hall.
  destruct (init_returns _ _ _ _ _ _ _ _ Hinit Hall)
    as (Hh & Hd & _ & Hlh & Hld & Hfind & Hfreqs & Hconv).
  cbv zeta in Hfind, Hfreqs.
  set (freqs := match channel_carrier_freqs with
                | None => ∅
                | Some items => lower_keys lower items
                end) in *.
  assert (Hlen : forall operators channels,
             length_mismatch operators channels = false ->
             exists ops, operators = Some ops /\ length ops = length channels).
  { intros [ops|] channels Hm; [|discriminate Hm]. exists ops.
    split; [reflexivity|]. simpl in Hm.
    apply negb_false_iff, Nat.eqb_eq in Hm. exact Hm. }
  split; [|split; [|split]].
  - intros chan Hin.
    apply find_none with (x := chan) in Hfind; [|apply list_elem_of_In, Hin].
    apply bool_decide_eq_false in Hfind.
    destruct (freqs !! chan) as [freq|] eqn:Efreq; [|contradiction].
    exists freqs, freq. split; [|exact Efreq].
    rewrite Hfreqs. destruct (decide (size freqs = 0)) as [Hz|]; [|reflexivity].
    apply map_size_empty_inv in Hz. rewrite Hz in Efreq.
    rewrite lookup_empty in Efreq. discriminate.
  - intros channels Hc. rewrite Hh in Hc.
    destruct hamiltonian_channels as [hc|]; [|discriminate].
    injection Hc as <-. apply Hlen, Hlh. reflexivity.
  - intros channels Hc. rewrite Hd in Hc.
    destruct dissipator_channels as [dc|]; [|discriminate].
    injection Hc as <-. apply Hlen, Hld. reflexivity.
  - exact Hconv.
Qed.

(** [all_channels.index(chan)] is the first position of [chan], and raises
    ValueError when there is none *)
Lemma index_spec (chan : string) (all_channels : list string) :
  (chan ∈ all_channels ->
   exists i, index chan all_channels = Ok i
             /\ all_channels !! i = Some chan
             /\ forall j, j < i -> all_channels !! j <> Some chan)
  /\ (chan ∉ all_channels ->
      index chan all_channels = Raise (ValueError (chan ++ " is not in list"))).
Proof.
  induction all_channels as [|c rest [IHin IHout]]; simpl.
  - split; [intros Hin; inversion Hin|reflexivity].
  - destruct (decide (c = chan)) as [->|Hne]; split.
    + intros _. exists 0. split; [reflexivity|]. split; [reflexivity|].
      intros j Hj. lia.
    + intros Hout. exfalso. apply Hout. left.
    + intros Hin. apply elem_of_cons in Hin as [->|Hin]; [contradiction|].
      destruct (IHin Hin) as (i & -> & Hi & Hfirst).
      exists (S i). split; [reflexivity|]. split; [exact Hi|].
      intros [|j] Hj; simpl.
      * intros Heq. injection Heq as Heq. contradiction.
      * apply Hfirst. lia.
    + intros Hout. apply not_elem_of_cons in Hout as [_ Hout].
      rewrite (IHout Hout). reflexivity.
Qed.

Lemma signals_of_channels_known (all_signals : list Signal)
    (all_channels channels : list string) :
  length all_channels <= length all_signals ->
  Forall (fun chan => chan ∈ all_channels) channels ->
  exists signals,
    signals_of_channels all_signals all_channels channels = Ok signals
    /\ Forall2 (signal_of_channel all_signals all_channels) channels signals.
Proof.
  intros Hlen. induction 1 as [|chan rest Hin _ IH]; simpl.
  - exists []. split; [reflexivity|constructor].
  - destruct (proj1 (index_spec chan all_channels) Hin) as (i & -> & Hi & Hfirst).
    destruct (all_signals !! i) as [signal|] eqn:Es.
    + destruct IH as (signals & -> & Hall).
      exists (signal :: signals). split; [reflexivity|].
      constructor; [|exact Hall]. exists i. repeat split; assumption.
    + exfalso. apply lookup_ge_None in Es. apply lookup_lt_Some in Hi. lia.
Qed.

Lemma signals_of_channels_unknown (all_signals : list Signal)
    (all_channels channels : list string) :
  length all_channels <= length all_signals ->
  Exists (fun chan => chan ∉ all_channels) channels ->
  exists msg,
    signals_of_channels all_signals all_channels channels
    = Raise (ValueError msg).
Proof.
  intros Hlen. induction 1 as [chan rest Hout|chan rest _ IH]; simpl.
  - rewrite (proj2 (index_spec chan all_channels) Hout). eexists; reflexivity.
  - destruct (decide (chan ∈ all_channels)) as [Hin|Hout].
    + destruct (proj1 (index_spec chan all_channels) Hin) as (i & -> & Hi & _).
      destruct (all_signals !! i) as [signal|] eqn:Es.
      * destruct IH as (msg & ->). eexists; reflexivity.
      * exfalso. apply lookup_ge_None in Es. apply lookup_lt_Some in Hi. lia.
    + rewrite (proj2 (index_spec chan all_channels) Hout). eexists; reflexivity.
Qed.

(** X8.  Given a signal for every channel of [all_channels],
    [organize_signals_to_channels] for a HamiltonianModel returns one signal
    per Hamiltonian channel, in the order of [hamiltonian_channels]: the
    signal at the first position of the channel's name in [all_channels].
    It raises ValueError when a Hamiltonian channel is not in
    [all_channels], and returns None when there are no Hamiltonian
    channels; the dissipator channels are not looked at. *)
Theorem organize_gives_each_hamiltonian_channel_its_signal
    (all_signals : list Signal) (all_channels hamiltonian_channels : list string)
    (dissipator_channels : option (list string)) :
  length all_channels <= length all_signals ->
  (Forall (fun chan => chan ∈ all_channels) hamiltonian_channels ->
   exists signals,
     organize_signals_to_channels all_signals all_channels
       HamiltonianModelClass (Some hamiltonian_channels) dissipator_channels
     = Ok (SpecList signals)
     /\ Forall2 (fun chan signal =>
                   exists i, all_channels !! i = Some chan
                             /\ all_signals !! i = Some signal
                             /\ forall j, j < i -> all_channels !! j <> Some chan)
          hamiltonian_channels signals)
  /\ (Exists (fun chan => chan ∉ all_channels) hamiltonian_channels ->
      exists msg,
        organize_signals_to_channels all_signals all_channels
          HamiltonianModelClass (Some hamiltonian_channels) dissipator_channels
        = Raise (ValueError msg))
  /\ organize_signals_to_channels all_signals all_channels
       HamiltonianModelClass None dissipator_channels = Ok SpecNone.
Proof.
  intros Hlen. split; [|split].
  - intros Hall.
    destruct (signals_of_channels_known all_signals all_channels
                hamiltonian_channels Hlen Hall) as (signals & Hs & Hf).
    exists signals. simpl. rewrite Hs. split; [reflexivity|exact Hf].
  - intros Hex.
    destruct (signals_of_channels_unknown all_signals all_channels
                hamiltonian_channels Hlen Hex) as (msg & Hs).
    exists msg. simpl. rewrite Hs. reflexivity.
  - reflexivity.
Qed.

(** X9.  With the channel attributes [Solver.__init__] leaves and one
    signal per channel of [_all_channels], [organize_signals_to_channels]
    does not raise, for a HamiltonianModel and for a LindbladModel: every
    channel it looks up is in [_all_channels]. *)
Theorem organize_returns_on_the_channels_of_init
    (hamiltonian_operators dissipator_operators : option (list Matrix))
    (hamiltonian_channels dissipator_channels : option (list string))
    (channel_carrier_freqs : option (list (string * Q))) (dt : option Q)
    (attrs : SolverChannels.t) (all_channels : list string)
    (all_signals : list Signal) (model_class : model_class) :
  __init__ lower hamiltonian_operators dissipator_operators hamiltonian_channels
    dissipator_channels channel_carrier_freqs dt = Ok attrs ->
  _all_channels attrs = Some all_channels ->
  length all_signals = length all_channels ->
  exists signals,
    organize_signals_to_channels all_signals all_channels model_class
      (_hamiltonian_channels attrs) (_dissipator_channels attrs)
    = Ok signals.
Proof.
  intros Hinit Hall Hlen.
  destruct (init_returns _ _ _ _ _ _ _ _ Hinit Hall)
    as (Hh & Hd & -> & _).
  destruct (append_new_spec (map lower (default [] hamiltonian_channels)) []
              (NoDup_nil_2)) as [Hnd1 Hin1].
  destruct (append_new_spec (map lower (default [] dissipator_channels)) _ Hnd1)
    as [_ Hin2].
  set (all_channels := append_new _ _) in *.
  assert (Hlen' : length all_channels <= length all_signals) by lia.
  assert (Hham : forall channels, _hamiltonian_channels attrs = Some channels ->
            exists signals,
              signals_of_channels all_signals all_channels channels = Ok signals).
  { intros channels Hc. rewrite Hh in Hc.
    destruct hamiltonian_channels as [hc|]; [|discriminate]. injection Hc as <-.
    destruct (signals_of_channels_known all_signals all_channels (map lower hc))
      as (signals & Hs & _); [exact Hlen'| |exists signals; exact Hs].
    apply Forall_forall. intros chan Hc. apply Hin2. left. apply Hin1.
    right. exact Hc. }
  assert (Hdis : forall channels, _dissipator_channels attrs = Some channels ->
            exists signals,
              signals_of_channels all_signals all_channels channels = Ok signals).
  { intros channels Hc. rewrite Hd in Hc.
    destruct dissipator_channels as [dc|]; [|discriminate]. injection Hc as <-.
    destruct (signals_of_channels_known all_signals all_channels (map lower dc))
      as (signals & Hs & _); [exact Hlen'| |exists signals; exact Hs].
    apply Forall_forall. intros chan Hc. apply Hin2. right. exact Hc. }
  unfold organize_signals_to_channels.
  destruct (_hamiltonian_channels attrs) as [hc|].
  - destruct (Hham hc eq_refl) as (hs & ->).
    destruct model_class; [eexists; reflexivity|].
    destruct (_dissipator_channels attrs) as [dc|].
    + destruct (Hdis dc eq_refl) as (ds & ->). eexists; reflexivity.
    + eexists; reflexivity.
  - destruct model_class; [eexists; reflexivity|].
    destruct (_dissipator_channels attrs) as [dc|].
    + destruct (Hdis dc eq_refl) as (ds & ->). eexists; reflexivity.
    + eexists; reflexivity.
Qed.

End SolverChannelsFacts.

(** ** More on the cache of compiled shapes and on the states *)

Section JitCacheFacts.
Context {K : ScalarRing} {Model : Type}.

(** Python's [round] is at most one half away from its argument *)
Lemma py_round_near (q : Q) :
  (inject_Z (Solver.py_round q) - q <= 1 # 2)%Q
  /\ (q - inject_Z (Solver.py_round q) <= 1 # 2)%Q.
Proof.
  unfold Solver.py_round.
  pose proof (Qfloor_le q) as Hlo. pose proof (Qlt_floor q) as Hhi.
  rewrite inject_Z_plus in Hhi. change (inject_Z 1) with 1%Q in Hhi.
  set (f := Qfloor q) in *.
  destruct (Qcompare_spec (q - inject_Z f) (1 # 2)) as [Heq|Hlt|Hgt].
  - destruct (Z.even f).
    + split; lra.
    + rewrite inject_Z_plus. change (inject_Z 1) with 1%Q. split; lra.
  - split; lra.
  - rewrite inject_Z_plus. change (inject_Z 1) with 1%Q. split; lra.
Qed.

(** the duration [round(1.5 * r)] that is added for a required duration
    [r >= 1] holds [r], and fits it *)
Lemma padded_duration_in_bucket (r : Z) :
  (1 <= r)%Z ->
  Solver.in_bucket r
    (Solver.py_round (Solver._JIT_DURATION_PADDING * inject_Z r)).
Proof.
  intros Hr.
  destruct (py_round_near (Solver._JIT_DURATION_PADDING * inject_Z r))
    as [Hup Hdown].
  set (d := Solver.py_round _) in *.
  assert (Hr' : (1 <= inject_Z r)%Q)
    by (change 1%Q with (inject_Z 1); rewrite <- Zle_Qle; exact Hr).
  unfold Solver._JIT_DURATION_PADDING in *.
  split.
  - unfold Solver._JIT_MIN_PADDING_FRAC. lra.
  - rewrite Zle_Qle. lra.
Qed.

(** X10.  For a Solver whose channel list is set and a required duration
    [r >= 1], the duration [d] of the shape [_jit_shape(r)] returns holds
    the required one and pads it less than five times:
    [d * 0.2 < r <= d], for a duration taken from the cache and for one
    that is added. *)
Theorem jit_shape_duration_holds_required_duration
    (s : Solver.t (Model := Model)) (r : Z) (all_channels : list string) :
  Solver._all_channels s = Some all_channels ->
  (1 <= r)%Z ->
  exists d : Z,
    (Solver._jit_shape r s).2 = Ok (length all_channels, d)
    /\ (r <= d)%Z
    /\ (inject_Z d * Solver._JIT_MIN_PADDING_FRAC < inject_Z r)%Q
    /\ d ∈ Solver._jit_cache (Solver._jit_shape r s).1.
Proof.
  intros Hch Hr.
  pose proof (first_fit_least r _ (sorted_cache_sorted s)) as Hfit.
  unfold Solver._jit_shape, bind, get, ret, modify.
  destruct (Solver.first_fit r (Solver.sorted_cache s)) as [d|]; rewrite Hch; simpl.
  - destruct Hfit as (Hd & Hf & _).
    apply elem_of_sorted_cache in Hd. apply fits_in_bucket in Hf as [Hf1 Hf2].
    exists d. repeat split; assumption.
  - destruct (padded_duration_in_bucket r Hr) as [H1 H2].
    eexists. split; [reflexivity|]. split; [exact H2|]. split; [exact H1|].
    set_solver.
Qed.

(** [_jit_shape] by cases: the Solver it leaves and what it returns *)
Lemma jit_shape_cases (s : Solver.t (Model := Model)) (r : Z) :
  Solver._jit_shape r s
  = (match Solver.first_fit r (Solver.sorted_cache s) with
     | Some _ => s
     | None =>
         Solver.with_jit_cache
           ({[ Solver.py_round (Solver._JIT_DURATION_PADDING * inject_Z r) ]}
            ∪ Solver._jit_cache s) s
     end,
     let d := match Solver.first_fit r (Solver.sorted_cache s) with
              | Some d => d
              | None => Solver.py_round (Solver._JIT_DURATION_PADDING * inject_Z r)
              end in
     match Solver._all_channels s with
     | Some all_channels => Ok (length all_channels, d)
     | None => Raise (TypeError "object of type 'NoneType' has no len()")
     end).
Proof.
  unfold Solver._jit_shape, bind, get, ret, modify, raise.
  destruct (Solver.first_fit r (Solver.sorted_cache s));
    destruct (Solver._all_channels s); reflexivity.
Qed.

(** X11.  Calling [_jit_shape] again with the same required duration
    returns what the first call returned (the same shape, or the same
    TypeError when the channel list is None) and leaves the Solver as the
    first call left it: the duration the first call added is the one the
    second call finds or adds again, so the cache does not grow. *)
Theorem jit_shape_again_changes_nothing (s : Solver.t (Model := Model)) (r : Z) :
  Solver._jit_shape r (Solver._jit_shape r s).1 = Solver._jit_shape r s.
Proof.
  pose proof (first_fit_least r _ (sorted_cache_sorted s)) as Hfit.
  rewrite (jit_shape_cases s r). cbn [fst].
  destruct (Solver.first_fit r (Solver.sorted_cache s)) as [d|] eqn:E1.
  - rewrite (jit_shape_cases s r), E1. reflexivity.
  - set (d := Solver.py_round _) in *.
    set (s' := Solver.with_jit_cache ({[ d ]} ∪ Solver._jit_cache s) s).
    pose proof (first_fit_least r _ (sorted_cache_sorted s')) as Hfit'.
    rewrite (jit_shape_cases s' r). fold d.
    destruct (Solver.first_fit r (Solver.sorted_cache s')) as [d'|] eqn:E2.
    + destruct Hfit' as (Hd' & Hf' & _).
      apply elem_of_sorted_cache in Hd'. simpl in Hd'.
      apply elem_of_union in Hd' as [Hd'|Hd'].
      * apply elem_of_singleton in Hd'. subst d'. reflexivity.
      * apply elem_of_sorted_cache in Hd'. rewrite (Hfit d' Hd') in Hf'.
        discriminate.
    + assert (Hc : Solver.with_jit_cache ({[ d ]} ∪ Solver._jit_cache s') s' = s').
      { unfold s', Solver.with_jit_cache. simpl. f_equal.
        rewrite (assoc_L (∪)), (idemp_L (∪)). reflexivity. }
      rewrite Hc. reflexivity.
Qed.

End JitCacheFacts.

Section SimulationStateFacts.
Context {K : ScalarRing} {Model : Type} {ops : Solver.ModelOps Model}.
Local Open Scope scalar_scope.

(** X12.  For a vectorized LindbladModel, the two formatting steps of a
    density matrix undo each other.  [validate_and_format_initial_state]
    flattens a (dim, dim) density matrix column after column and accepts it;
    [format_final_states] reshapes every state of the solution the same
    way round: on a solution whose state at time [n] is the flattened
    matrix [rhos n], it returns the matrices [rhos n]. *)
Theorem vectorized_density_matrix_is_flattened_and_restored
    (m : Model) (rho : Matrix) (k : nat) (rhos : nat -> Matrix) :
  Solver.is_LindbladModel m = true ->
  Solver.contains "vectorized" (Solver.model_evaluation_mode m) = true ->
  let dim := Solver.model_dim m in
  let flat (a : Matrix) : Vector := fun c => a (c mod dim)%nat (c / dim)%nat in
  Solver.validate_and_format_initial_state (DensityMatrixObject (Arr2 dim dim rho)) m
  = Ok (Arr1 (dim * dim) (flat rho), Arr2 dim dim rho, Some DensityMatrix)
  /\ exists y : nat -> Matrix,
       Solver.format_final_states (Arr2 k (dim * dim) (fun n => flat (rhos n))) m
         (Arr2 dim dim rho) (Some DensityMatrix)
       = Ok (Arr3 k dim dim y)
       /\ forall n i j, (i < dim)%nat -> y n i j = rhos n i j.
Proof.
  intros Hl Hv dim flat. split.
  - unfold Solver.validate_and_format_initial_state,
      Solver.is_lindblad_model_not_vectorized, Solver.is_lindblad_model_vectorized,
      Solver.is_HamiltonianModel.
    rewrite Hl, Hv. simpl. fold dim.
    rewrite Nat.mul_1_r, Nat.eqb_refl. reflexivity.
  - unfold Solver.format_final_states, Solver.is_lindblad_model_vectorized,
      Solver.is_HamiltonianModel.
    rewrite Hl, Hv. simpl. rewrite Nat.eqb_refl.
    eexists. split; [reflexivity|].
    intros n i j Hi. unfold flat. cbv beta.
    replace (i + dim * j)%nat with (i + j * dim)%nat by lia.
    rewrite Nat.Div0.mod_add, Nat.div_add by lia.
    rewrite Nat.mod_small, Nat.div_small by lia. reflexivity.
Qed.

(** X13.  For a QuantumChannel and a HamiltonianModel,
    [format_final_states] returns superoperators that apply the channel
    [y0] and then conjugate with the solution [U]: when the superoperator
    [y0_input] takes the column-stacked [rho] to the column-stacked
    [sigma], the state returned for time [n] takes it to the column-stacked
    [U_n sigma U_n-adjoint]. *)
Theorem format_final_states_composes_channel_with_unitary
    (m : Model) (k d : nat) (U : nat -> Matrix) (S rho sigma : Matrix) :
  Solver.is_LindbladModel m = false ->
  vec_eq (d * d) (Mvec (d * d) S (vec_F d rho)) (vec_F d sigma) ->
  exists Y : nat -> Matrix,
    Solver.format_final_states (Arr3 k d d U) m (Arr2 (d * d) (d * d) S)
      (Some SuperOp)
    = Ok (Arr3 k (d * d) (d * d) Y)
    /\ forall n,
         vec_eq (d * d) (Mvec (d * d) (Y n) (vec_F d rho))
           (vec_F d (Mmult d (Mmult d (U n) sigma) (adjoint (U n)))).
Proof.
  intros Hm HS. eexists. split.
  - apply format_final_states_superop. exact Hm.
  - intros n. cbv beta.
    transitivity (Mvec (d * d) (superop_of d (U n)) (Mvec (d * d) S (vec_F d rho))).
    { apply Mvec_Mmult_eq. }
    rewrite HS. apply superop_of_conjugates.
Qed.


(** what [validate_and_format_initial_state] returns as the input and
    its class: those of the state given, made a DensityMatrix first for a
    QuantumState and a LindbladModel *)
Lemma validate_returns_input (y0 : state_object) (m : Model)
    (y y0_input : ndarray) (y0_cls : option state_class) :
  Solver.validate_and_format_initial_state y0 m = Ok (y, y0_input, y0_cls) ->
  (y0_input, y0_cls)
  = Solver.initial_state_converter
      (if Solver.is_QuantumState y0 && Solver.is_LindbladModel m
       then to_DensityMatrix y0 else y0).
Proof.
  unfold Solver.validate_and_format_initial_state.
  destruct (Solver.initial_state_converter _) as [a cls].
  repeat match goal with
         | |- context [if ?c then _ else _] => destruct c
         | |- context [match ?c with Ok _ => _ | Raise _ => _ end] => destruct c
         end;
    try discriminate; intros H; injection H as <- <- <-; reflexivity.
Qed.

(** X15.  Whatever [validate_and_format_initial_state] returns as the
    state to integrate has the shape the model takes: for a
    HamiltonianModel at most two dimensions, the first of them the model's
    dimension; for a vectorized LindbladModel at most two dimensions, the
    first of them the square of the model's dimension; for a LindbladModel
    that is not vectorized, (dim, dim) as its last two dimensions. *)
Theorem validated_state_has_the_shape_of_the_model
    (y0 : state_object) (m : Model) (y y0_input : ndarray)
    (y0_cls : option state_class) :
  Solver.validate_and_format_initial_state y0 m = Ok (y, y0_input, y0_cls) ->
  (Solver.is_LindbladModel m = false ->
   head (shape y) = Some (Solver.model_dim m) /\ ndim y <= 2)
  /\ (Solver.is_lindblad_model_vectorized m = true ->
      head (shape y) = Some (Solver.model_dim m ^ 2) /\ ndim y <= 2)
  /\ (Solver.is_lindblad_model_not_vectorized m = true ->
      shape_last2 y = [Solver.model_dim m; Solver.model_dim m]).
Proof.
  unfold Solver.validate_and_format_initial_state, Solver.is_HamiltonianModel.
  destruct (Solver.initial_state_converter _) as [a cls].
  destruct (Solver.class_in cls [SuperOp]
            && Solver.is_lindblad_model_not_vectorized m); [discriminate|].
  set (z := if Solver.class_in cls [DensityMatrix; SuperOp]
               && negb (Solver.is_LindbladModel m) then _ else _).
  assert (Hbad : forall n, Solver.bad_shape z n = Ok false ->
            head (shape z) = Some n /\ ndim z <= 2).
  { unfold Solver.bad_shape, ndim. intros n Hb.
    destruct (shape z) as [|n0 rest]; [discriminate|].
    injection Hb as Hb. apply orb_false_iff in Hb as [H1 H2].
    apply negb_false_iff, Nat.eqb_eq in H1. apply Nat.ltb_ge in H2.
    simpl. split; [congruence|exact H2]. }
  unfold Solver.is_lindblad_model_vectorized,
    Solver.is_lindblad_model_not_vectorized.
  destruct (Solver.is_LindbladModel m); cbn [negb andb orb].
  - destruct (Solver.contains "vectorized" (Solver.model_evaluation_mode m));
      cbn [negb andb orb].
    + destruct (Solver.bad_shape z (Solver.model_dim m ^ 2)) as [[|]|] eqn:Eb;
        try discriminate.
      intros H. injection H as <- _ _.
      split; [discriminate|]. split; [|discriminate].
      intros _. exact (Hbad _ Eb).
    + unfold Solver.shape_eqb.
      destruct (decide (shape_last2 z = [Solver.model_dim m; Solver.model_dim m]))
        as [Hs|]; [|discriminate].
      simpl. intros H. injection H as <- _ _.
      split; [discriminate|]. split; [discriminate|].
      intros _; exact Hs.
  - destruct (Solver.bad_shape z (Solver.model_dim m)) as [[|]|] eqn:Eb;
      try discriminate.
    intros H. injection H as <- _ _.
    split; [intros _; exact (Hbad _ Eb)|].
    split; discriminate.
Qed.

Section solve.
Variable solve_lmde :
  Model -> list scalar -> state_object -> result (list scalar * ndarray).

(** X16.  The states [Solver.solve] returns are of the class its
    docstring lists.  For an Array, and whenever [convert_results] is
    False, they are one array.  Otherwise they are a list of objects of one
    class: Statevector for a Statevector and a HamiltonianModel,
    DensityMatrix for a DensityMatrix and for a Statevector with a
    LindbladModel, SuperOp for a QuantumChannel, Operator for an
    operator. *)
Theorem solve_returns_states_of_the_documented_class
    (t_span : list scalar) (y0 : state_object) (signals : signals_spec)
    (convert_results : bool) (s s' : Solver.t (Model := Model))
    (res : Solver.OdeResult) :
  Solver.solve solve_lmde t_span y0 signals convert_results s = (s', Ok res) ->
  let yf_class :=
    match y0 with
    | ArrayObject _ => None
    | StatevectorObject _ =>
        if Solver.is_LindbladModel (Solver.model s) then Some DensityMatrix
        else Some Statevector
    | DensityMatrixObject _ => Some DensityMatrix
    | QuantumChannelObject _ => Some SuperOp
    | OperatorObject _ => Some Operator
    end in
  match yf_class with
  | Some cls =>
      if convert_results then
        exists states,
          Solver.result_y res = Solver.StatesList states
          /\ Forall (fun state =>
                       (Solver.initial_state_converter state).2 = Some cls) states
      else exists y, Solver.result_y res = Solver.StatesArray y
  | None => exists y, Solver.result_y res = Solver.StatesArray y
  end.
Proof.
  intros Hsolve yf_class.
  assert (Hcls : forall a cls, (Solver.initial_state_converter (wrap (Some cls) a)).2
                               = Some cls)
    by (intros a []; reflexivity).
  assert (Hyf : (Solver.initial_state_converter
                   (if Solver.is_QuantumState y0
                       && Solver.is_LindbladModel (Solver.model s)
                    then to_DensityMatrix y0 else y0)).2 = yf_class).
  { unfold yf_class. destruct y0 as [a|a|a|a|a]; simpl;
      try reflexivity; try (destruct (Solver.is_LindbladModel _); reflexivity).
    destruct (Solver.is_LindbladModel _); [|reflexivity].
    destruct a; reflexivity. }
  unfold Solver.solve, bind, get, lift, ret in Hsolve.
  destruct (Solver.scan_signals signals) as [[]|]; [|discriminate].
  destruct (Solver.validate_and_format_initial_state y0 (Solver.model s))
    as [[[y y_in] cls]|] eqn:Ev; [|discriminate].
  apply validate_returns_input in Ev as Hin.
  apply (f_equal snd) in Hin. simpl in Hin. rewrite Hyf in Hin. subst cls.
  destruct (Solver.with_ _ _ s) as [s1 [results|]]; [|discriminate].
  destruct yf_class as [cls|].
  - destruct convert_results; injection Hsolve as _ <-; simpl.
    + eexists. split; [reflexivity|]. apply Forall_forall.
      intros state Hs. apply list_elem_of_fmap in Hs as (a & -> & _). apply Hcls.
    + eexists. reflexivity.
  - injection Hsolve as _ <-. eexists. reflexivity.
Qed.

End solve.

End SimulationStateFacts.

(** ** More on the models *)

Section ModelFacts.
Context {K : ScalarRing}.
Local Open Scope scalar_scope.


(** the signals [GeneratorModel.__init__] stores are as many as the
    operators *)
Lemma generator_init_signals_length (n : nat) (operators : list Matrix)
    (drift : option Matrix) (signals : signals_spec) (frame : Frame.arg)
    (sl : SignalList) :
  GeneratorModel._signals
    (GeneratorModel.init n operators drift signals frame
       "dense_operator_collection").1 = Some sl ->
  length sl = length operators.
Proof.
  unfold GeneratorModel.init.
  destruct (Frame.frame_diag (Frame.init frame)) as [d|] eqn:Ed.
  all: repeat (progress (run_generator_model; cbn [Frame.init]; rewrite ?Ed));
    simpl.
  all: destruct signals as [|l|l|h d']; run_generator_signals; simpl;
    try discriminate.
  all: rewrite ?length_map.
  all: match goal with
       | |- context [Nat.eqb ?a ?b] => destruct (Nat.eqb_spec a b)
       end; simpl; try discriminate.
  all: intros H; injection H as <-; assumption.
Qed.

Lemma generator_model_lengths (L : list Matrix) (d0 : Matrix)
    (m : GeneratorModel.t) :
  generator_model L d0 m ->
  length (GeneratorModel._operators m) = length L
  /\ exists oc, GeneratorModel._operator_collection m = Some oc
                /\ DenseOperatorCollection.num_operators oc = length L.
Proof.
  intros (f & _ & _ & Hstored & _ & _ & Hoc).
  apply Forall2_length in Hstored.
  split; [exact Hstored|]. eexists. split; [exact Hoc|exact Hstored].
Qed.

Lemma generator_reachable_signals_length (L : list Matrix) (d0 : option Matrix)
    (m : GeneratorModel.t) :
  generator_reachable L d0 m ->
  forall sl, GeneratorModel._signals m = Some sl -> length sl = length L.
Proof.
  induction 1 as [d0 n signals frame Hwf _|d0 m a Hm IH Hwf|d0 m signals Hm IH
                 |d0 m mode Hm IH|d0 m new_drift Hm IH Hnf].
  - apply generator_init_signals_length.
  - pose proof (generator_reachable_invariant L d0 m Hm) as Hinv.
    destruct (generator_set_frame_invariant L _ m a Hinv Hwf)
      as (_ & _ & _ & _ & ->). exact IH.
  - pose proof (generator_reachable_invariant L d0 m Hm) as Hinv.
    destruct (generator_model_lengths L _ m Hinv) as [_ (oc & Hoc & Hnum)].
    destruct m as [oc' ops dr md fr sigs n]. simpl in *. subst oc'.
    destruct oc as [ocops ocdr].
    unfold DenseOperatorCollection.num_operators in Hnum. simpl in Hnum.
    destruct signals as [|l|l|h d]; run_generator_signals; simpl;
      try discriminate; try exact IH.
    all: rewrite Hnum.
    all: destruct (Nat.eqb_spec (length l) (length L)); simpl; [|exact IH].
    all: intros sl H; injection H as <-; assumption.
  - destruct m as [oc' ops dr md fr sigs n]. simpl in *.
    unfold GeneratorModel.set_evaluation_mode.
    destruct (String.eqb mode "dense_operator_collection");
      run_generator_model; simpl; exact IH.
  - destruct m as [oc' ops dr md fr sigs n]. simpl in *.
    destruct oc' as [oc'|]; run_generator_model; simpl; exact IH.
Qed.

(** X18.  A GeneratorModel a program holds (built by [__init__], then
    changed by the setters of [frame], [signals] and [evaluation_mode], and
    of [drift] while the model has no frame) keeps as many stored operators as it was built with, its operator
    collection holds that many operators, and its signals, when set, are
    that many: the length check of the signals setter is kept by every
    setter. *)
Theorem generator_signals_match_operators
    (L : list Matrix) (d0 : option Matrix) (m : GeneratorModel.t) :
  generator_reachable L d0 m ->
  length (GeneratorModel._operators m) = length L
  /\ (exists oc, GeneratorModel._operator_collection m = Some oc
                 /\ DenseOperatorCollection.num_operators oc = length L)
  /\ forall sl, GeneratorModel._signals m = Some sl -> length sl = length L.
Proof.
  intros Hreach.
  destruct (generator_model_lengths L _ m
              (generator_reachable_invariant L d0 m Hreach)) as [Hops Hoc].
  split; [exact Hops|]. split; [exact Hoc|].
  apply (generator_reachable_signals_length L d0 m Hreach).
Qed.


Lemma lindblad_set_evaluation_mode_agrees (m : LindbladModel.t)
    (new_mode : option string) :
  lindblad_mode_agrees m ->
  lindblad_mode_agrees (LindbladModel.set_evaluation_mode new_mode m).1.
Proof.
  destruct m as [oc md vec hops dops dr hs ds fr n].
  unfold lindblad_mode_agrees. simpl. intros Hm.
  destruct new_mode as [mode|].
  - run_lindblad_model.
    destruct (String.eqb mode "dense") eqn:E1;
      [|destruct (String.eqb mode "sparse") eqn:E2;
        [|destruct (String.eqb mode "dense_vectorized") eqn:E3]].
    all: simpl; try exact Hm.
    all: intros mode' H; injection H as <-.
    all: unfold supported_mode; rewrite ?E1, ?E2, ?E3.
    all: split; [reflexivity|].
    + apply String.eqb_eq in E1. subst mode.
      split; [reflexivity|]. eexists. split; reflexivity.
    + split; [|eexists; split; reflexivity].
      apply String.eqb_eq in E2. subst mode. reflexivity.
    + split; [reflexivity|]. eexists. split; reflexivity.
  - run_lindblad_model. simpl. intros mode H. discriminate H.
Qed.

Lemma lindblad_set_frame_agrees (m : LindbladModel.t) (a : Frame.arg) :
  lindblad_mode_agrees m ->
  lindblad_mode_agrees (LindbladModel.set_frame a m).1.
Proof.
  destruct m as [oc mode vec hops dops dr hs ds fr n]. intros Hm.
  assert (Hfinal :
    forall hops' dops' dr' oc' fr',
      (forall cls, option_map LindbladModel.collection_cls oc = Some cls ->
                   option_map LindbladModel.collection_cls oc' = Some cls) ->
      lindblad_mode_agrees
        ((let* mode0 := LindbladModel.evaluation_mode in
          LindbladModel.set_evaluation_mode mode0)
           (LindbladModel.mk oc' mode vec hops' dops' dr' hs ds fr' n)).1).
  { intros hops' dops' dr' oc' fr' Hcls.
    change ((let* mode0 := LindbladModel.evaluation_mode in
             LindbladModel.set_evaluation_mode mode0)
              (LindbladModel.mk oc' mode vec hops' dops' dr' hs ds fr' n))
      with (LindbladModel.set_evaluation_mode mode
              (LindbladModel.mk oc' mode vec hops' dops' dr' hs ds fr' n)).
    apply lindblad_set_evaluation_mode_agrees.
    intros mode' Hmode'. simpl in Hmode'.
    destruct (Hm mode' Hmode') as (H1 & H2 & oc0 & H3 & H4).
    split; [exact H1|]. split; [exact H2|]. simpl in *. subst oc.
    specialize (Hcls _ eq_refl). destruct oc' as [oc'|]; [|discriminate].
    exists oc'. split; [reflexivity|]. simpl in Hcls. congruence. }
  destruct fr as [f|]; [destruct (Frame.frame_diag f) as [d|] eqn:Ed|];
    destruct (Frame.frame_diag (Frame.init a)) as [d'|] eqn:Ed'.
  all: unfold LindbladModel.set_frame.
  all: cbv [bind get modify ret LindbladModel.leave_frame
            LindbladModel.enter_frame LindbladModel._frame LindbladModel.dim
            LindbladModel.drift LindbladModel.set_drift
            LindbladModel.with_drift LindbladModel.with_frame
            LindbladModel.with_hamiltonian_operators
            LindbladModel.with_dissipator_operators
            LindbladModel.with_operator_collection
            LindbladModel._operator_collection LindbladModel._evaluation_mode
            LindbladModel.vectorized_operators
            LindbladModel._hamiltonian_operators
            LindbladModel._dissipator_operators LindbladModel._drift
            LindbladModel._hamiltonian_signals LindbladModel._dissipator_signals].
  all: rewrite ?Ed; cbv beta iota; rewrite ?Ed'; cbv beta iota.
  all: destruct oc as [oc|]; cbv beta iota.
  all: apply Hfinal.
  all: simpl; intros cls H; try discriminate H; exact H.
Qed.

Lemma lindblad_set_drift_agrees (m : LindbladModel.t) (new_drift : Matrix) :
  lindblad_mode_agrees m ->
  lindblad_mode_agrees (LindbladModel.set_drift (Some new_drift) m).1.
Proof.
  destruct m as [oc md vec hops dops dr hs ds fr n].
  unfold lindblad_mode_agrees. simpl. intros Hm.
  destruct oc as [[cls cops cdr cdops]|]; run_lindblad_model; simpl.
  - intros mode H. destruct (Hm mode H) as (H1 & H2 & oc0 & H3 & H4).
    split; [exact H1|]. split; [exact H2|].
    injection H3 as <-. eexists. split; [reflexivity|exact H4].
  - exact Hm.
Qed.

(** X20.  In every LindbladModel a program holds (built by [__init__],
    then changed by the setters of [frame], [signals], [evaluation_mode]
    and, while the model has no frame, [drift]) whose evaluation mode is not None, the mode is one of
    "dense", "sparse" and "dense_vectorized", the flag
    [vectorized_operators] is set and is True exactly for
    "dense_vectorized", and the operator collection is of the class of the
    mode. *)
Theorem lindblad_mode_flag_and_collection_agree
    (LH : list Matrix) (LD : option (list Matrix)) (d0 : option Matrix)
    (m : LindbladModel.t) (mode : string) :
  lindblad_reachable LH LD d0 m ->
  LindbladModel._evaluation_mode m = Some mode ->
  (mode = "dense" \/ mode = "sparse" \/ mode = "dense_vectorized")%string
  /\ LindbladModel.vectorized_operators m
     = Some (String.eqb mode "dense_vectorized")
  /\ exists oc,
       LindbladModel._operator_collection m = Some oc
       /\ LindbladModel.collection_cls oc
          = (if String.eqb mode "dense" then LindbladModel.DenseLindbladCollection
             else if String.eqb mode "sparse"
                  then LindbladModel.SparseLindbladCollection
                  else LindbladModel.DenseVectorizedLindbladCollection).
Proof.
  intros Hreach Hmode.
  assert (Hagree : lindblad_mode_agrees m).
  { clear mode Hmode.
    induction Hreach as [d0 n hs ds frame mode Hwf Hok|d0 m a _ IH Hwf
                        |d0 m sigs _ IH|d0 m mode _ IH|d0 m new_drift _ IH Hnf].
    - revert Hok. unfold LindbladModel.init.
      destruct d0 as [d0|]; [|discriminate].
      destruct hs as [|hl|hl|? ?]; destruct ds as [|dl|dl|? ?];
        destruct (Frame.frame_diag (Frame.init frame)) as [d|] eqn:Ed.
      all: repeat (progress (run_lindblad_model; rewrite ?Ed)); simpl.
      all: try discriminate.
      all: try (destruct LD as [dops|];
                repeat (progress (run_lindblad_model; rewrite ?Ed)); simpl).
      all: destruct mode as [mode|]; simpl.
      all: try (destruct (String.eqb mode "dense") eqn:E1;
                [|destruct (String.eqb mode "sparse") eqn:E2;
                  [|destruct (String.eqb mode "dense_vectorized") eqn:E3]]).
      all: simpl; try discriminate; intros _.
      all: intros mode' H; simpl in H; try discriminate H; injection H as <-.
      all: unfold supported_mode; simpl; rewrite ?E1, ?E2, ?E3.
      all: try (apply String.eqb_eq in E1; subst mode).
      all: try (apply String.eqb_eq in E2; subst mode).
      all: split; [reflexivity|]; split; [reflexivity|].
      all: eexists; split; reflexivity.
    - apply lindblad_set_frame_agrees, IH.
    - destruct m. exact IH.
    - apply lindblad_set_evaluation_mode_agrees, IH.
    - apply lindblad_set_drift_agrees, IH. }
  destruct (Hagree mode Hmode) as (Hsup & Hvec & Hoc).
  split; [|split; assumption].
  unfold supported_mode in Hsup.
  destruct (String.eqb_spec mode "dense"); [tauto|].
  destruct (String.eqb_spec mode "sparse"); [tauto|].
  destruct (String.eqb_spec mode "dense_vectorized"); [tauto|discriminate].
Qed.

End ModelFacts.

Section CollectionFacts.
Context {K : ScalarRing}.
Local Open Scope scalar_scope.


End CollectionFacts.

(** ** A solve that returns *)

Section SolveFacts.
Context {K : ScalarRing}.

(** the signals setter of a GeneratorModel changes [_signals] only *)
Lemma generator_set_signals_changes_signals_only (m : GeneratorModel.t)
    (signals : signals_spec) :
  exists sl, (GeneratorModel.set_signals signals m).1
             = GeneratorModel.with_signals sl m
             /\ ((GeneratorModel.set_signals signals m).2 <> Ok tt ->
                 sl = GeneratorModel._signals m).
Proof.
  destruct m as [oc ops dr md fr sigs n].
  destruct signals as [|l|l|h d]; run_generator_signals; simpl.
  - exists None. split; [reflexivity|]. intros H. contradiction H. reflexivity.
  - destruct oc as [oc|]; simpl.
    + destruct (length l =? _); simpl.
      * exists (Some l). split; [reflexivity|]. intros H. contradiction H. reflexivity.
      * exists sigs. split; reflexivity.
    + exists sigs. split; reflexivity.
  - destruct oc as [oc|]; simpl.
    + destruct (length l =? _); simpl.
      * exists (Some l). split; [reflexivity|]. intros H. contradiction H. reflexivity.
      * exists sigs. split; reflexivity.
    + exists sigs. split; reflexivity.
  - exists sigs. split; reflexivity.
Qed.

(** assigning back the signals a model holds, on the model with other
    signals, gives the model back *)
Lemma generator_signals_assigned_back (m : GeneratorModel.t)
    (sl : option SignalList) (n : nat) :
  (exists oc, GeneratorModel._operator_collection m = Some oc
              /\ DenseOperatorCollection.num_operators oc = n) ->
  (forall l, GeneratorModel._signals m = Some l -> length l = n) ->
  GeneratorModel.set_signals
    (Solver.model_signals m) (GeneratorModel.with_signals sl m)
  = (m, Ok tt).
Proof.
  destruct m as [oc ops dr md fr sigs k]. simpl.
  intros (oc' & -> & Hnum) Hlen.
  destruct oc' as [ocops ocdr].
  unfold DenseOperatorCollection.num_operators in Hnum. simpl in Hnum.
  destruct sigs as [l|]; run_generator_signals; simpl; [|reflexivity].
  rewrite Hnum, (Hlen l eq_refl), Nat.eqb_refl. reflexivity.
Qed.

Section solve.
Variable solve_lmde :
  GeneratorModel.t -> list scalar -> state_object
  -> result (list scalar * ndarray).

(** X22.  A [solve] that returns leaves the model as it was.  For one
    simulation whose signals are Signals and are not compiled with JAX (the
    branch of [solve] that enters [signal_assignment]), on a Solver without
    a rotating-wave signal map whose model is a GeneratorModel a program
    holds, the signals assigned for the simulation are replaced by the
    model's own signals when [signal_assignment] is left: the length check
    of the signals setter passes for them, so after [solve] returns the
    model, its signals included, is what it was before the call. *)
Theorem solve_that_returns_restores_the_model
    (L : list Matrix) (d0 : option Matrix)
    (t_span : list scalar) (y0 : state_object) (signals : signals_spec)
    (convert_results : bool) (s s' : Solver.t (Model := GeneratorModel.t))
    (res : Solver.OdeResult) :
  generator_reachable L d0 (Solver.model s) ->
  Solver._rwa_signal_map s = None ->
  Solver.solve solve_lmde t_span y0 signals convert_results s = (s', Ok res) ->
  Solver._model s' = Solver._model s.
Proof.
  intros Hreach Hrwa Hsolve.
  pose proof (generator_reachable_signals_length L d0 _ Hreach) as Hlen.
  destruct (generator_model_lengths L _ _
              (generator_reachable_invariant L d0 _ Hreach)) as [_ Hoc].
  unfold Solver.solve, bind, get, lift, ret in Hsolve.
  destruct (Solver.scan_signals signals) as [[]|]; [|discriminate].
  destruct (Solver.validate_and_format_initial_state y0 (Solver.model s))
    as [[[y y_in] cls]|] eqn:Ev; [|discriminate].
  unfold Solver.with_, Solver.signal_assignment, Solver.on_model,
    Solver.before_yield, Solver.after_yield, bind, get, ret in Hsolve.
  rewrite Hrwa in Hsolve. simpl in Hsolve.
  replace (match signals with SpecNone | _ => signals end) with signals
    in Hsolve by (destruct signals; reflexivity).
  destruct (generator_set_signals_changes_signals_only (Solver._model s) signals)
    as (sl & E1 & _).
  destruct (GeneratorModel.set_signals signals (Solver._model s)) as [m1 r1].
  simpl in E1. subst m1. destruct r1 as [[]|]; [|discriminate].
  change (match GeneratorModel._signals (Solver.model s) with
          | Some sl0 => SpecSignalList sl0
          | None => SpecNone
          end) with (Solver.model_signals (Solver._model s)) in Hsolve.
  destruct (solve_lmde _ t_span y0) as [a0|]; [|discriminate].
  destruct (Solver.format_final_states _ _ y_in cls) as [a1|]; [|discriminate].
  simpl in Hsolve.
  pose proof (generator_signals_assigned_back (Solver._model s) sl (length L)
                Hoc Hlen) as Hback.
  simpl in Hback. rewrite Hback in Hsolve.
  assert (Hs : Solver.with_model (Solver._model s)
                 (Solver.with_model
                    (GeneratorModel.with_signals sl (Solver._model s)) s) = s)
    by (destruct s; reflexivity).
  rewrite Hs in Hsolve.
  destruct cls; [destruct convert_results|]; injection Hsolve as <- _; reflexivity.
Qed.

End solve.
End SolveFacts.

(** ** The properties at the scenarios *)

Section ScenarioWitnesses.
#[local] Existing Instance GaussZ.
Import Examples Scenarios.

Lemma getitem_returns_term_of_first_position_witness :
  exists (idx : nat) (term : Z),
    PerturbationResults.__getitem__ sorted_label dyson_results [1; 0]%Z = Ok term
    /\ PerturbationResults.expansion_terms dyson_results !! idx = Some term
    /\ PerturbationResults.expansion_labels dyson_results !! idx
       = Some (if Solver.contains "symmetric"
                    (PerturbationResults.expansion_method dyson_results)
               then sorted_label [1; 0]%Z else [1; 0]%Z)
    /\ forall j, j < idx ->
         PerturbationResults.expansion_labels dyson_results !! j
         <> Some (if Solver.contains "symmetric"
                       (PerturbationResults.expansion_method dyson_results)
                  then sorted_label [1; 0]%Z else [1; 0]%Z).
Proof.
  apply (getitem_returns_term_of_first_position sorted_label dyson_results
           [1; 0]%Z).
  - simpl. lia.
  - vm_compute. apply list_elem_of_further, list_elem_of_here.
Defined.

Lemma init_all_channels_lists_each_channel_once_witness :
  NoDup ["d0"; "d1"]%string
  /\ (forall chan, chan ∈ ["d0"; "d1"]%string
        <-> chan ∈ map lower (default [] (Some ["D0"; "d1"]%string))
            \/ chan ∈ map lower (default [] None))
  /\ SolverChannels._hamiltonian_channels configured_attributes
     = option_map (map lower) (Some ["D0"; "d1"]%string)
  /\ SolverChannels._dissipator_channels configured_attributes
     = option_map (map lower) None.
Proof.
  apply (init_all_channels_lists_each_channel_once lower
           (Some [sigma_x; sigma_z]) None (Some ["D0"; "d1"]%string) None
           (Some [("d0"%string, 5%Q); ("D1"%string, 5.1%Q)]) (Some 0.1%Q)
           configured_attributes ["d0"; "d1"]%string).
  - vm_compute. reflexivity.
  - vm_compute. reflexivity.
Defined.

Lemma init_channel_information_needs_dt_witness :
  exists msg,
    SolverChannels.__init__ lower (Some [sigma_x]) None (Some ["d0"]%string)
      None None None
    = Raise (QiskitError msg).
Proof.
  apply (init_channel_information_needs_dt lower (Some [sigma_x]) None
           (Some ["d0"]%string) None None).
  reflexivity.
Defined.

Lemma init_every_channel_has_a_carrier_frequency_witness :
  (forall chan, chan ∈ ["d0"; "d1"]%string ->
     exists freqs freq,
       SolverChannels._channel_carrier_freqs configured_attributes = Some freqs
       /\ freqs !! chan = Some freq)
  /\ (forall channels,
        SolverChannels._hamiltonian_channels configured_attributes = Some channels ->
        exists operators, Some [sigma_x; sigma_z] = Some operators
                          /\ length operators = length channels)
  /\ (forall channels,
        SolverChannels._dissipator_channels configured_attributes = Some channels ->
        exists operators, @None (list Matrix) = Some operators
                          /\ length operators = length channels)
  /\ exists dt0, Some 0.1%Q = Some dt0
     /\ SolverChannels._schedule_converter configured_attributes
        = Some (SolverChannels.mk_InstructionToSignals dt0
                  (SolverChannels._channel_carrier_freqs configured_attributes)
                  ["d0"; "d1"]%string).
Proof.
  apply (init_every_channel_has_a_carrier_frequency lower
           (Some [sigma_x; sigma_z]) None (Some ["D0"; "d1"]%string) None
           (Some [("d0"%string, 5%Q); ("D1"%string, 5.1%Q)]) (Some 0.1%Q)
           configured_attributes ["d0"; "d1"]%string).
  - vm_compute. reflexivity.
  - vm_compute. reflexivity.
Defined.

Lemma organize_gives_each_hamiltonian_channel_its_signal_witness :
  let all_signals := [constant (1, 0)%Z; constant (2, 0)%Z] in
  let all_channels := ["d0"; "d1"]%string in
  let hamiltonian_channels := ["d1"; "d0"]%string in
  (Forall (fun chan => chan ∈ all_channels) hamiltonian_channels ->
   exists signals,
     SolverChannels.organize_signals_to_channels all_signals all_channels
       SolverChannels.HamiltonianModelClass (Some hamiltonian_channels) None
     = Ok (SpecList signals)
     /\ Forall2 (fun chan signal =>
                   exists i, all_channels !! i = Some chan
                             /\ all_signals !! i = Some signal
                             /\ forall j, j < i -> all_channels !! j <> Some chan)
          hamiltonian_channels signals)
  /\ (Exists (fun chan => chan ∉ all_channels) hamiltonian_channels ->
      exists msg,
        SolverChannels.organize_signals_to_channels all_signals all_channels
          SolverChannels.HamiltonianModelClass (Some hamiltonian_channels) None
        = Raise (ValueError msg))
  /\ SolverChannels.organize_signals_to_channels all_signals all_channels
       SolverChannels.HamiltonianModelClass None None = Ok SpecNone.
Proof.
  apply (organize_gives_each_hamiltonian_channel_its_signal
           [constant (1, 0)%Z; constant (2, 0)%Z] ["d0"; "d1"]%string
           ["d1"; "d0"]%string None).
  simpl. lia.
Defined.

Lemma organize_returns_on_the_channels_of_init_witness :
  exists signals,
    SolverChannels.organize_signals_to_channels
      [constant (1, 0)%Z; constant (2, 0)%Z] ["d0"; "d1"]%string
      SolverChannels.LindbladModelClass
      (SolverChannels._hamiltonian_channels configured_attributes)
      (SolverChannels._dissipator_channels configured_attributes)
    = Ok signals.
Proof.
  apply (organize_returns_on_the_channels_of_init lower
           (Some [sigma_x; sigma_z]) None (Some ["D0"; "d1"]%string) None
           (Some [("d0"%string, 5%Q); ("D1"%string, 5.1%Q)]) (Some 0.1%Q)
           configured_attributes ["d0"; "d1"]%string
           [constant (1, 0)%Z; constant (2, 0)%Z]
           SolverChannels.LindbladModelClass).
  - vm_compute. reflexivity.
  - vm_compute. reflexivity.
  - reflexivity.
Defined.

Lemma jit_shape_duration_holds_required_duration_witness :
  exists d : Z,
    (Solver._jit_shape 100 solver_with_channels).2 = Ok (2, d)
    /\ (100 <= d)%Z
    /\ (inject_Z d * Solver._JIT_MIN_PADDING_FRAC < inject_Z 100)%Q
    /\ d ∈ Solver._jit_cache (Solver._jit_shape 100 solver_with_channels).1.
Proof.
  apply (jit_shape_duration_holds_required_duration solver_with_channels 100
           ["d0"; "d1"]%string).
  - reflexivity.
  - lia.
Defined.

Lemma vectorized_density_matrix_is_flattened_and_restored_witness :
  let flat (a : Matrix) : Vector := fun c => a (c mod 2) (c / 2) in
  @Solver.validate_and_format_initial_state _ _ lindblad_ops
    (DensityMatrixObject (Arr2 2 2 diag_1_2)) lindblad_vectorized
  = Ok (Arr1 (2 * 2) (flat diag_1_2), Arr2 2 2 diag_1_2, Some DensityMatrix)
  /\ exists y : nat -> Matrix,
       @Solver.format_final_states _ _ lindblad_ops
         (Arr2 3 (2 * 2) (fun n => flat ((fun _ => sigma_x) n)))
         lindblad_vectorized (Arr2 2 2 diag_1_2) (Some DensityMatrix)
       = Ok (Arr3 3 2 2 y)
       /\ forall n i j, i < 2 -> y n i j = (fun _ => sigma_x) n i j.
Proof.
  apply (@vectorized_density_matrix_is_flattened_and_restored _ _ lindblad_ops
           lindblad_vectorized diag_1_2 3 (fun _ => sigma_x)).
  - reflexivity.
  - vm_compute. reflexivity.
Defined.

Lemma format_final_states_composes_channel_with_unitary_witness :
  exists Y : nat -> Matrix,
    Solver.format_final_states (Arr3 3 2 2 (fun _ => sigma_x)) generator_unframed
      (Arr2 (2 * 2) (2 * 2) eye) (Some SuperOp)
    = Ok (Arr3 3 (2 * 2) (2 * 2) Y)
    /\ forall n,
         vec_eq (2 * 2) (Mvec (2 * 2) (Y n) (vec_F 2 diag_1_2))
           (vec_F 2 (Mmult 2 (Mmult 2 ((fun _ => sigma_x) n) diag_1_2)
                             (adjoint ((fun _ => sigma_x) n)))).
Proof.
  apply (format_final_states_composes_channel_with_unitary generator_unframed
           3 2 (fun _ => sigma_x) eye diag_1_2 diag_1_2).
  - reflexivity.
  - intros i Hi. destruct i as [|[|[|[|i]]]]; [reflexivity..|simpl in Hi; lia].
Defined.


Lemma validated_state_has_the_shape_of_the_model_witness :
  let y := Arr1 2 (vec2 (1, 0)%Z (0, 0)%Z) in
  (Solver.is_LindbladModel generator_unframed = false ->
   head (shape y) = Some (Solver.model_dim generator_unframed) /\ ndim y <= 2)
  /\ (Solver.is_lindblad_model_vectorized generator_unframed = true ->
      head (shape y) = Some (Solver.model_dim generator_unframed ^ 2)
      /\ ndim y <= 2)
  /\ (Solver.is_lindblad_model_not_vectorized generator_unframed = true ->
      shape_last2 y = [Solver.model_dim generator_unframed;
                       Solver.model_dim generator_unframed]).
Proof.
  apply (validated_state_has_the_shape_of_the_model
           (StatevectorObject (Arr1 2 (vec2 (1, 0)%Z (0, 0)%Z)))
           generator_unframed (Arr1 2 (vec2 (1, 0)%Z (0, 0)%Z))
           (Arr1 2 (vec2 (1, 0)%Z (0, 0)%Z)) (Some Statevector)).
  vm_compute. reflexivity.
Defined.

Lemma solve_returns_states_of_the_documented_class_witness :
  exists states,
    Solver.result_y solved_statevector = Solver.StatesList states
    /\ Forall (fun state =>
                 (Solver.initial_state_converter state).2 = Some Statevector)
         states.
Proof.
  assert (E : Solver.solve HamiltonianModel.constant_solution
                [(0, 0)%Z; (1, 0)%Z]
                (StatevectorObject (Arr1 2 (vec2 (1, 0)%Z (0, 0)%Z)))
                signals_1_2 true solver_with_channels
              = (solve_statevector.1, Ok solved_statevector))
    by (vm_compute; reflexivity).
  exact (solve_returns_states_of_the_documented_class (K := GaussZ)
           HamiltonianModel.constant_solution [(0, 0)%Z; (1, 0)%Z]
           (StatevectorObject (Arr1 2 (vec2 (1, 0)%Z (0, 0)%Z))) signals_1_2 true
           solver_with_channels solve_statevector.1 solved_statevector E).
Defined.


Lemma generator_signals_match_operators_witness :
  length (GeneratorModel._operators generator_in_frame_F)
  = length [sigma_x; sigma_z]
  /\ (exists oc,
        GeneratorModel._operator_collection generator_in_frame_F = Some oc
        /\ DenseOperatorCollection.num_operators oc = length [sigma_x; sigma_z])
  /\ forall sl, GeneratorModel._signals generator_in_frame_F = Some sl ->
                length sl = length [sigma_x; sigma_z].
Proof.
  apply (generator_signals_match_operators [sigma_x; sigma_z] (Some diag_1_2)
           generator_in_frame_F).
  apply (generator_built [sigma_x; sigma_z] (Some diag_1_2) 2 signals_1_2 frame_F).
  - split; intros i j Hi Hj;
      destruct i as [|[|i]]; destruct j as [|[|j]]; try lia; reflexivity.
  - reflexivity.
Defined.

Lemma lindblad_mode_flag_and_collection_agree_witness :
  ("dense" = "dense" \/ "dense" = "sparse" \/ "dense" = "dense_vectorized")%string
  /\ LindbladModel.vectorized_operators lindblad_in_frame_F
     = Some (String.eqb "dense" "dense_vectorized")
  /\ exists oc,
       LindbladModel._operator_collection lindblad_in_frame_F = Some oc
       /\ LindbladModel.collection_cls oc
          = (if String.eqb "dense" "dense"
             then LindbladModel.DenseLindbladCollection
             else if String.eqb "dense" "sparse"
                  then LindbladModel.SparseLindbladCollection
                  else LindbladModel.DenseVectorizedLindbladCollection).
Proof.
  apply (lindblad_mode_flag_and_collection_agree [sigma_x; sigma_z]
           (Some [sigma_minus]) (Some diag_1_2) lindblad_in_frame_F "dense").
  - apply (lindblad_built [sigma_x; sigma_z] (Some [sigma_minus]) (Some diag_1_2)
             2 signals_1_2 SpecNone frame_F (Some "dense"%string)).
    + split; intros i j Hi Hj;
        destruct i as [|[|i]]; destruct j as [|[|j]]; try lia; reflexivity.
    + reflexivity.
  - reflexivity.
Defined.


Lemma solve_that_returns_restores_the_model_witness :
  Solver._model
    (Solver.solve HamiltonianModel.constant_solution [(0, 0)%Z; (1, 0)%Z]
       (StatevectorObject (Arr1 2 (vec2 (1, 0)%Z (0, 0)%Z)))
       signals_3_4 true solver_with_channels).1
  = Solver._model solver_with_channels.
Proof.
  assert (E : Solver.solve HamiltonianModel.constant_solution
                [(0, 0)%Z; (1, 0)%Z]
                (StatevectorObject (Arr1 2 (vec2 (1, 0)%Z (0, 0)%Z)))
                signals_3_4 true solver_with_channels
              = ((Solver.solve HamiltonianModel.constant_solution
                    [(0, 0)%Z; (1, 0)%Z]
                    (StatevectorObject (Arr1 2 (vec2 (1, 0)%Z (0, 0)%Z)))
                    signals_3_4 true solver_with_channels).1,
                 Ok solved_statevector))
    by (vm_compute; reflexivity).
  apply (solve_that_returns_restores_the_model (K := GaussZ)
           HamiltonianModel.constant_solution [sigma_x; sigma_z] (Some diag_1_2)
           [(0, 0)%Z; (1, 0)%Z]
           (StatevectorObject (Arr1 2 (vec2 (1, 0)%Z (0, 0)%Z))) signals_3_4 true
           solver_with_channels _ solved_statevector).
  - apply (generator_built [sigma_x; sigma_z] (Some diag_1_2) 2 signals_1_2
             Frame.ArgNone).
    + exact I.
    + reflexivity.
  - reflexivity.
  - exact E.
Defined.

End ScenarioWitnesses.
